(** * Test-data generators of the bulk product import: a shallow embedding

    The repository holds two Python scripts,
    [scripts/generate-test-data.py] (a seeded, scenario-driven generator,
    class [TestDataGenerator]) and [scripts/generate_test_csvs.py] (ten
    fixed test files written from the unseeded module-level generator).

    Both scripts are straight-line code over three pieces of mutable state:
    the state of Python's module-level [random] generator, the two
    identifier sets of a [TestDataGenerator], and the machine outside the
    interpreter: the files, the room left on the device, and the terminal
    that [print] writes to.  The embedding threads that state explicitly
    through a state-and-exception monad.  Python's [random] module is an interface here (class
    [PyRandom]); CPython's Mersenne Twister is given as an instance so that
    runs at concrete seeds can be evaluated. *)

From stdpp Require Import base strings gmap list.
From Stdlib Require Import ZArith QArith Lia Ascii DecimalString DecimalZ DecimalPos.
Local Open Scope Z_scope.

(* ===================================================================== *)
(** * Python values, exceptions and the state monad *)
(* ===================================================================== *)

(** The values the scripts store in a record: [str] and [int]. *)
Inductive pyval : Type :=
| PStr (s : string)
| PInt (z : Z).

(** The exceptions the modelled library calls can raise. *)
Inductive exn : Type :=
| IndexError
| ValueError
| TypeError
| OSError
| UnicodeEncodeError
| ZeroDivisionError
| KeyError (key : string).

(** A computation over a state [S]: returns a value or raises, and leaves a
    state behind either way. *)
Definition M (S A : Type) : Type := S → result A exn * S.

Definition ret {S A} (a : A) : M S A := λ s, (Ok a, s).

Definition raise {S A} (e : exn) : M S A := λ s, (Error e, s).

Definition bind {S A B} (m : M S A) (k : A → M S B) : M S B :=
  λ s, match m s with
       | (Ok a, s') => k a s'
       | (Error e, s') => (Error e, s')
       end.

(** Statement sequencing: [x ← m; k] runs [m], then [k] with its result. *)
Declare Scope python_scope.
Notation "x ← m ; k" := (bind m (λ x : _, k))
  (at level 20, m at level 100, k at level 200, only parsing) : python_scope.
Notation "' x ← m ; k" := (bind m (λ x : _, k))
  (at level 20, x pattern, m at level 100, k at level 200, only parsing) : python_scope.
Open Scope python_scope.

(** Reading a component of the state. *)
Definition gets {S A} (f : S → A) : M S A := λ s, (Ok (f s), s).

Definition modify {S} (f : S → S) : M S unit := λ s, (Ok tt, f s).

(** [for x in xs: acc.append(body(x))]. *)
Fixpoint for_each {S A B} (xs : list A) (body : A → M S B) : M S (list B) :=
  match xs with
  | [] => ret []
  | x :: xs' => b ← body x; bs ← for_each xs' body; ret (b :: bs)
  end.

(** [range(n)] as the list [0, 1, ..., n-1]; empty for [n <= 0]. *)
Definition range (n : Z) : list Z := Z.of_nat <$> seq 0 (Z.to_nat n).

(** [seq[i]] for [0 <= i]: raises [IndexError] out of range. *)
Definition index {S A} (l : list A) (i : Z) : M S A :=
  if i <? 0 then raise IndexError
  else match l !! Z.to_nat i with
       | Some x => ret x
       | None => raise IndexError
       end.

(** ** Strings *)

(** [str(z)] for an [int]. *)
Definition str (z : Z) : string := NilZero.string_of_int (Z.to_int z).

(** [s * n]. *)
Fixpoint str_mul (s : string) (n : nat) : string :=
  match n with
  | O => ""
  | S n' => s +:+ str_mul s n'
  end.

(** [f"{z:0{w}d}"] for [0 <= z]: decimal digits, zero-padded on the left to
    width [w]. *)
Definition zfill (w : nat) (z : Z) : string :=
  let d := str z in str_mul "0" (w - String.length d) +:+ d.

(** [sep.join(parts)]. *)
Definition str_join (sep : string) (parts : list string) : string :=
  String.concat sep parts.

Definition lower_ascii (c : Ascii.ascii) : Ascii.ascii :=
  let n := Ascii.nat_of_ascii c in
  if ((65 <=? n) && (n <=? 90))%nat then Ascii.ascii_of_nat (n + 32) else c.

(** [s.lower()], on ASCII text. *)
Fixpoint lower (s : string) : string :=
  match s with
  | EmptyString => EmptyString
  | String c s' => String (lower_ascii c) (lower s')
  end.

(** [template.format(name=value, ...)] for templates whose replacement fields are
    plain names in braces.  [field_name] reads up to the closing brace. *)
Fixpoint field_name (s : string) : string * string :=
  match s with
  | EmptyString => (EmptyString, EmptyString)
  | String c s' =>
      if Ascii.eqb c "}"%char then (EmptyString, s')
      else let '(name, rest) := field_name s' in (String c name, rest)
  end.

Definition field_value (fields : list (string * string)) (name : string) : string :=
  match find (λ kv, String.eqb kv.1 name) fields with
  | Some kv => kv.2
  | None => ""
  end.

Fixpoint format_go (fuel : nat) (template : string) (fields : list (string * string)) : string :=
  match fuel with
  | O => EmptyString
  | S fuel' =>
      match template with
      | EmptyString => EmptyString
      | String c rest =>
          if Ascii.eqb c "{"%char then
            let '(name, rest') := field_name rest in
            field_value fields name +:+ format_go fuel' rest' fields
          else String c (format_go fuel' rest fields)
      end
  end.

Definition format (template : string) (fields : list (string * string)) : string :=
  format_go (S (String.length template)) template fields.

(** ** Records (Python [dict] with [str] keys, in insertion order) *)

Definition Row : Type := list (string * pyval).

Definition keys (row : Row) : list string := row.*1.

(** [row.get(key)]. *)
Definition dict_get (row : Row) (key : string) : option pyval :=
  snd <$> find (λ kv, String.eqb kv.1 key) row.

(** [row[key]] read with the empty string for a missing key; every read in
    the development is of a key the record holds. *)
Definition field (row : Row) (key : string) : pyval :=
  default (PStr "") (dict_get row key).

(** [row[key] = v]: replaces the value of an existing key in place, appends
    a new key. *)
Fixpoint dict_set (key : string) (v : pyval) (row : Row) : Row :=
  match row with
  | [] => [(key, v)]
  | (k, x) :: row' =>
      if String.eqb k key then (k, v) :: row' else (k, x) :: dict_set key v row'
  end.

(** Truthiness of a value ([not row["upid"]] and the like): the empty
    string and [0] are falsy. *)
Definition truthy (v : pyval) : bool :=
  match v with
  | PStr s => negb (String.eqb s "")
  | PInt z => negb (z =? 0)
  end.

(** ** Floats

    The only floats the generators compute with are the results of
    [random.random()] (multiples of 2^-53 in [0, 1)), decimal literals, and,
    in one branch, a quotient and a product of small integers.  All are
    binary64 values in the normal range, so a float is modelled by the
    rational it denotes and an operation by the exact operation followed by
    rounding to the nearest 53-bit value, ties to even. *)

Definition round_half_even (n d : Z) : Z :=
  let q := n / d in
  match (2 * (n mod d)) ?= d with
  | Lt => q
  | Gt => q + 1
  | Eq => if Z.even q then q else q + 1
  end.

Definition pow2 (e : Z) : Q :=
  if 0 <=? e then inject_Z (2 ^ e) else Qmake 1 (Z.to_pos (2 ^ (- e))).

(** The binary64 value nearest to the rational [q]. *)
Definition fround (q : Q) : Q :=
  let a := Z.abs (Qnum q) in
  let d := Zpos (Qden q) in
  if a =? 0 then 0%Q
  else
    let l0 := Z.log2 a - Z.log2 d in
    let l := if Qle_bool (pow2 l0) (Qmake a (Qden q)) then l0 else l0 - 1 in
    let e := l - 52 in
    let scaled := (Qmake a (Qden q) * pow2 (- e))%Q in
    let m := round_half_even (Qnum scaled) (Zpos (Qden scaled)) in
    (inject_Z (Z.sgn (Qnum q) * m) * pow2 e)%Q.

Definition float_lt (a b : Q) : bool :=
  match (a ?= b)%Q with Lt => true | _ => false end.

Definition float_gt (a b : Q) : bool := float_lt b a.

Definition fdiv (a b : Q) : Q := fround (a / b).

Definition fmul (a b : Q) : Q := fround (a * b).

(** [int(x)]: truncation toward zero. *)
Definition int_of_float (x : Q) : Z := Z.quot (Qnum x) (Zpos (Qden x)).

(** A decimal literal [0.d1d2...], read as the nearest float. *)
Definition lit (num den : Z) : Q := fround (Qmake num (Z.to_pos den)).

(* ===================================================================== *)
(** * The interpreter state and Python's [random] module *)
(* ===================================================================== *)

(** What the generators rely on from a pseudo-random generator with state
    [G]: seeding from an [int], the 53-bit draw behind [random.random()]
    (the float returned is [k / 2^53]), and [Random._randbelow], the
    uniform draw from [0, n) behind [choice], [randint] and [sample]. *)
Class PyRandom (G : Type) : Type := {
  rng_seed : Z → G;
  rng_random : G → Z * G;
  rng_randbelow : Z → G → Z * G;
  rng_random_range : ∀ g, 0 ≤ (rng_random g).1 < 2 ^ 53;
  rng_randbelow_range : ∀ n g, 0 < n → 0 ≤ (rng_randbelow n g).1 < n
}.

(** The order in which [list(s)] enumerates a set of strings.  CPython
    derives it from the strings' hashes, which are salted per process, so
    the order is a property of the process and not of the set; all that is
    fixed is that every member is listed once. *)
Record SetOrder : Type := {
  listing : gset string → list string;
  listing_perm : ∀ X, listing X ≡ₚ elements X
}.

(** The mutable state a run works on. *)
Record World (G : Type) : Type := {
  random_state : G;               (* the module-level generator of [random] *)
  set_order : SetOrder;           (* this process's iteration order of sets *)
  generated_upids : gset string;  (* [self.generated_upids] *)
  generated_skus : gset string    (* [self.generated_skus] *)
}.
Arguments random_state {G} _.
Arguments set_order {G} _.
Arguments generated_upids {G} _.
Arguments generated_skus {G} _.

Definition set_random_state {G} (g : G) (w : World G) : World G :=
  {| random_state := g; set_order := set_order w;
     generated_upids := generated_upids w; generated_skus := generated_skus w |}.

Definition set_generated_upids {G} (X : gset string) (w : World G) : World G :=
  {| random_state := random_state w; set_order := set_order w;
     generated_upids := X; generated_skus := generated_skus w |}.

Definition set_generated_skus {G} (X : gset string) (w : World G) : World G :=
  {| random_state := random_state w; set_order := set_order w;
     generated_upids := generated_upids w; generated_skus := X |}.

(** [list(s)] for a set of strings. *)
Definition list_of_set {G} (X : gset string) : M (World G) (list string) :=
  λ w, (Ok (listing (set_order w) X), w).

Module random.

(** [random.seed(a)]. *)
Definition seed `{PyRandom G} (a : Z) : M (World G) unit :=
  modify (set_random_state (rng_seed a)).

(** [random.random()]: a float in [0, 1). *)
Definition random `{PyRandom G} : M (World G) Q :=
  λ w, let '(k, g) := rng_random (random_state w) in
       (Ok (Qmake k (2 ^ 53)), set_random_state g w).

(** [Random._randbelow(n)] for [n > 0]. *)
Definition randbelow `{PyRandom G} (n : Z) : M (World G) Z :=
  λ w, let '(r, g) := rng_randbelow n (random_state w) in
       (Ok r, set_random_state g w).

(** [random.choice(seq)]: [seq[_randbelow(len(seq))]], [IndexError] on an
    empty sequence. *)
Definition choice `{PyRandom G} {A} (seq : list A) : M (World G) A :=
  match seq with
  | [] => raise IndexError
  | _ => i ← randbelow (Z.of_nat (length seq)); index seq i
  end.

(** [random.randint(a, b)]: [randrange(a, b + 1)], that is
    [a + _randbelow(b + 1 - a)]; [ValueError] on an empty range. *)
Definition randint `{PyRandom G} (a b : Z) : M (World G) Z :=
  let width := b + 1 - a in
  if 0 <? width then (i ← randbelow width; ret (a + i)) else raise ValueError.

(** The selection loop of [random.sample] over [pool], [n] entries of which
    are still eligible: draw [j < n], take [pool[j]], move the last
    eligible entry into slot [j]. *)
Fixpoint sample_loop `{PyRandom G} {A} (k : nat) (pool : list A) (n : Z)
    : M (World G) (list A) :=
  match k with
  | O => ret []
  | S k' =>
      j ← randbelow n;
      x ← index pool j;
      y ← index pool (n - 1);
      rest ← sample_loop k' (<[Z.to_nat j := y]> pool) (n - 1);
      ret (x :: rest)
  end.

(** [random.sample(population, k)]: [ValueError] unless [0 <= k <= n].
    CPython selects from a copied pool when [n <= 21] (more for [k > 5]) and
    by rejection from a set of indices above that; the populations here
    have at most 18 entries, so the pool branch is the one modelled. *)
Definition sample `{PyRandom G} {A} (population : list A) (k : Z) : M (World G) (list A) :=
  let n := Z.of_nat (length population) in
  if (0 <=? k) && (k <=? n) then sample_loop (Z.to_nat k) population n
  else raise ValueError.

End random.

(* ===================================================================== *)
(** * CPython's generator: MT19937 *)
(* ===================================================================== *)

Module MT19937.

Definition N : nat := 624.
Definition M : nat := 397.
Definition MATRIX_A : Z := 0x9908b0df.
Definition UPPER_MASK : Z := 0x80000000.
Definition LOWER_MASK : Z := 0x7fffffff.

(** Arithmetic on [uint32_t] wraps modulo 2^32. *)
Definition u32 (x : Z) : Z := Z.land x 0xffffffff.

(** The 624-word state vector, the read position, and a flag that records
    whether a rejection loop was ever cut short (see [randbelow]). *)
Record state : Type := { mt : list Z; pos : nat; stuck : bool }.

Definition word (v : list Z) (i : nat) : Z := nth i v 0.

(** [init_genrand(s)]. *)
Definition init_genrand (s : Z) : list Z :=
  fold_left (λ v mti,
      let p := word v (mti - 1) in
      v ++ [u32 (1812433253 * Z.lxor p (Z.shiftr p 30) + Z.of_nat mti)])
    (seq 1 (N - 1)) [u32 s].

(** [if (i >= N) { mt[0] = mt[N-1]; i = 1; }]. *)
Definition wrap (v : list Z) (i : nat) : list Z * nat :=
  if (N <=? i)%nat then (<[O := word v (N - 1)]> v, 1%nat) else (v, i).

(** The two loops of [init_by_array(init_key, key_length)]. *)
Fixpoint key_loop (k : nat) (key v : list Z) (i j : nat) : list Z * nat :=
  match k with
  | O => (v, i)
  | S k' =>
      let p := word v (i - 1) in
      let x := u32 (Z.lxor (word v i) (Z.lxor p (Z.shiftr p 30) * 1664525)
                    + word key j + Z.of_nat j) in
      let '(v', i') := wrap (<[i := x]> v) (S i) in
      key_loop k' key v' i' (if (length key <=? S j)%nat then O else S j)
  end.

Fixpoint mix_loop (k : nat) (v : list Z) (i : nat) : list Z :=
  match k with
  | O => v
  | S k' =>
      let p := word v (i - 1) in
      let x := u32 (Z.lxor (word v i) (Z.lxor p (Z.shiftr p 30) * 1566083941)
                    - Z.of_nat i) in
      let '(v', i') := wrap (<[i := x]> v) (S i) in
      mix_loop k' v' i'
  end.

Definition init_by_array (key : list Z) : state :=
  let v0 := init_genrand 19650218 in
  let '(v1, i) := key_loop (Nat.max N (length key)) key v0 1 0 in
  let v2 := mix_loop (N - 1) v1 i in
  {| mt := <[O := 0x80000000]> v2; pos := N; stuck := false |}.

(** The 32-bit words of a non-negative [int], least significant first; one
    word for zero. *)
Fixpoint key_words (fuel : nat) (a : Z) : list Z :=
  match fuel with
  | O => []
  | S fuel' =>
      if a <? 2 ^ 32 then [a]
      else Z.land a 0xffffffff :: key_words fuel' (Z.shiftr a 32)
  end.

(** [random.seed(a)] for an [int]: seeds by array from the words of [abs(a)]. *)
Definition seed (a : Z) : state :=
  init_by_array (key_words (S (Z.to_nat (Z.log2 (Z.abs a)))) (Z.abs a)).

Definition mag01 (y : Z) : Z := if Z.testbit y 0 then MATRIX_A else 0.

(** One step of the in-place regeneration of the state vector. *)
Definition twist_at (v : list Z) (kk : nat) : list Z :=
  let y := Z.lor (Z.land (word v kk) UPPER_MASK)
                 (Z.land (word v ((kk + 1) mod N)) LOWER_MASK) in
  <[kk := Z.lxor (Z.lxor (word v ((kk + M) mod N)) (Z.shiftr y 1)) (mag01 y)]> v.

Definition twist (v : list Z) : list Z := fold_left twist_at (seq 0 N) v.

Definition temper (y0 : Z) : Z :=
  let y1 := Z.lxor y0 (Z.shiftr y0 11) in
  let y2 := Z.lxor y1 (Z.land (u32 (Z.shiftl y1 7)) 0x9d2c5680) in
  let y3 := Z.lxor y2 (Z.land (u32 (Z.shiftl y2 15)) 0xefc60000) in
  Z.lxor y3 (Z.shiftr y3 18).

(** [genrand_uint32]. *)
Definition genrand_uint32 (g : state) : Z * state :=
  let '(v, i) := if (N <=? pos g)%nat then (twist (mt g), O) else (mt g, pos g) in
  (u32 (temper (word v i)), {| mt := v; pos := S i; stuck := stuck g |}).

(** [random()]: 27 and 26 bits of two words make the 53-bit numerator. *)
Definition random53 (g : state) : Z * state :=
  let '(x, g1) := genrand_uint32 g in
  let '(y, g2) := genrand_uint32 g1 in
  (Z.shiftr x 5 * 67108864 + Z.shiftr y 6, g2).

(** [getrandbits(k)] for [k > 0]: words are drawn least significant first,
    the last one cut down to the bits still missing. *)
Fixpoint getrandbits_words (words : nat) (k : Z) (g : state) : Z * state :=
  match words with
  | O => (0, g)
  | S words' =>
      let '(r, g1) := genrand_uint32 g in
      let r' := if k <? 32 then Z.shiftr r (32 - k) else r in
      let '(hi, g2) := getrandbits_words words' (k - 32) g1 in
      (r' + Z.shiftl hi 32, g2)
  end.

Definition getrandbits (k : Z) (g : state) : Z * state :=
  getrandbits_words (Z.to_nat ((k - 1) / 32 + 1)) k g.

(** The rejection loop of [_randbelow]: [r = getrandbits(k)] until [r < n].
    CPython's loop is unbounded; a round fails with probability below 1/2.
    The model gives up after [rounds] failures, returns 0 and raises the
    [stuck] flag, so that an evaluation can show it never did. *)
Fixpoint randbelow_loop (rounds : nat) (k n : Z) (g : state) : Z * state :=
  match rounds with
  | O => (0, {| mt := mt g; pos := pos g; stuck := true |})
  | S rounds' =>
      let '(r, g1) := getrandbits k g in
      if r <? n then (r, g1) else randbelow_loop rounds' k n g1
  end.

Definition rounds : nat := 256.

(** [_randbelow(n)]: [k = n.bit_length()]. *)
Definition randbelow (n : Z) (g : state) : Z * state :=
  randbelow_loop rounds (Z.log2 n + 1) n g.

Lemma u32_range x : 0 ≤ u32 x < 2 ^ 32.
Proof.
  unfold u32. change 0xffffffff with (Z.ones 32).
  rewrite Z.land_ones by lia. apply Z.mod_pos_bound. lia.
Qed.

Lemma genrand_uint32_range g : 0 ≤ (genrand_uint32 g).1 < 2 ^ 32.
Proof.
  unfold genrand_uint32. destruct (N <=? pos g)%nat; simpl; apply u32_range.
Qed.

Lemma random53_range g : 0 ≤ (random53 g).1 < 2 ^ 53.
Proof.
  unfold random53.
  pose proof (genrand_uint32_range g) as Hx.
  destruct (genrand_uint32 g) as [x g1]. simpl in Hx.
  pose proof (genrand_uint32_range g1) as Hy.
  destruct (genrand_uint32 g1) as [y g2]. simpl in *.
  rewrite !Z.shiftr_div_pow2 by lia.
  assert (0 ≤ x / 2 ^ 5 < 2 ^ 27) as Ha.
  { split; [apply Z.div_pos; lia | apply Z.div_lt_upper_bound; lia]. }
  assert (0 ≤ y / 2 ^ 6 < 2 ^ 26) as Hb.
  { split; [apply Z.div_pos; lia | apply Z.div_lt_upper_bound; lia]. }
  lia.
Qed.

Lemma getrandbits_words_nonneg words k g : 0 ≤ (getrandbits_words words k g).1.
Proof.
  revert k g. induction words as [|words IH]; intros k g; simpl; [lia|].
  pose proof (genrand_uint32_range g) as Hr.
  destruct (genrand_uint32 g) as [r g1]. simpl in Hr.
  specialize (IH (k - 32) g1).
  destruct (getrandbits_words words (k - 32) g1) as [hi g2]. simpl in *.
  assert (0 ≤ Z.shiftl hi 32) by (apply Z.shiftl_nonneg; lia).
  destruct (k <? 32).
  - assert (0 ≤ Z.shiftr r (32 - k)) by (apply Z.shiftr_nonneg; lia). lia.
  - lia.
Qed.

Lemma randbelow_loop_range fuel k n g :
  0 < n → 0 ≤ (randbelow_loop fuel k n g).1 < n.
Proof.
  intros Hn. revert g. induction fuel as [|fuel IH]; intros g; simpl; [lia|].
  pose proof (getrandbits_words_nonneg (Z.to_nat ((k - 1) / 32 + 1)) k g) as Hr.
  fold (getrandbits k g) in Hr.
  destruct (getrandbits k g) as [r g1]. simpl in Hr.
  destruct (r <? n) eqn:Hlt; [simpl; lia | apply IH].
Qed.

Lemma randbelow_range n g : 0 < n → 0 ≤ (randbelow n g).1 < n.
Proof. apply randbelow_loop_range. Qed.

End MT19937.

Global Instance MT19937_PyRandom : PyRandom MT19937.state := {|
  rng_seed := MT19937.seed;
  rng_random := MT19937.random53;
  rng_randbelow := MT19937.randbelow;
  rng_random_range := MT19937.random53_range;
  rng_randbelow_range := MT19937.randbelow_range
|}.

(* ===================================================================== *)
(** * scripts/generate-test-data.py *)
(* ===================================================================== *)

(** [a and b], [b] evaluated only when [a] holds. *)
Definition and_then {S} (a : bool) (b : M S bool) : M S bool :=
  if a then b else ret false.

(** [error_type == kind], where [error_type] is [None] or a string. *)
Definition is_kind (error_type : option string) (kind : string) : bool :=
  match error_type with
  | Some k => String.eqb k kind
  | None => false
  end.

(** An [int] out of a value; [TypeError] on a string, as arithmetic on it
    would raise. *)
Definition as_int {S} (v : pyval) : M S Z :=
  match v with
  | PInt z => ret z
  | PStr _ => raise TypeError
  end.

Module GenerateTestData.

Definition PRODUCT_TYPES : list string := [
  "T-Shirt"; "Polo Shirt"; "Dress Shirt"; "Sweater"; "Hoodie";
  "Jeans"; "Chinos"; "Shorts"; "Dress Pants"; "Joggers";
  "Jacket"; "Blazer"; "Coat"; "Vest"; "Parka";
  "Dress"; "Skirt"; "Blouse"; "Cardigan"; "Tank Top" ].

Definition PRODUCT_STYLES : list string := [
  "Classic"; "Slim Fit"; "Regular Fit"; "Oversized"; "Fitted";
  "Vintage"; "Modern"; "Casual"; "Formal"; "Athletic";
  "Premium"; "Essential"; "Signature"; "Limited Edition"; "Heritage" ].

Definition PRODUCT_MATERIALS_PRIMARY : list string := [
  "Cotton"; "Polyester"; "Wool"; "Linen"; "Silk";
  "Denim"; "Leather"; "Suede"; "Cashmere"; "Fleece" ].

Definition COLORS : list string := [
  "Black"; "White"; "Gray"; "Navy Blue"; "Red";
  "Green"; "Blue"; "Yellow"; "Orange"; "Purple";
  "Pink"; "Brown"; "Beige"; "Charcoal"; "Olive";
  "Burgundy"; "Teal"; "Mint Green"; "Sky Blue"; "Coral" ].

Definition SIZES : list string := [ "XS"; "S"; "M"; "L"; "XL"; "2XL"; "3XL" ].

Definition CATEGORIES : list string := [
  "T-Shirts"; "Shirts"; "Pants"; "Outerwear"; "Dresses";
  "Knitwear"; "Activewear"; "Accessories"; "Footwear" ].

Definition SEASONS : list string := [
  "Spring 2024"; "Summer 2024"; "Fall 2024"; "Winter 2024";
  "Spring/Summer 2024"; "Fall/Winter 2024"; "SS24"; "FW24"; "AW24" ].

(** A list of tuples; each tuple is the list of its items. *)
Definition MATERIALS : list (list pyval) := [
  [PStr "Cotton"; PInt 100];
  [PStr "Organic Cotton"; PInt 100];
  [PStr "Polyester"; PInt 100];
  [PStr "Recycled Polyester"; PInt 100];
  [PStr "Wool"; PInt 100];
  [PStr "Merino Wool"; PInt 100];
  [PStr "Cotton"; PInt 65]; [PStr "Polyester"; PInt 35];
  [PStr "Cotton"; PInt 95]; [PStr "Elastane"; PInt 5];
  [PStr "Polyester"; PInt 88]; [PStr "Elastane"; PInt 12];
  [PStr "Wool"; PInt 80]; [PStr "Nylon"; PInt 20];
  [PStr "Linen"; PInt 70]; [PStr "Cotton"; PInt 30];
  [PStr "Viscose"; PInt 60]; [PStr "Polyester"; PInt 40] ].

Definition CARE_CODES : list string := [
  "MACHINE_WASH"; "HAND_WASH"; "DRY_CLEAN"; "TUMBLE_DRY";
  "DO_NOT_BLEACH"; "IRON_LOW_HEAT"; "DO_NOT_IRON" ].

Definition ECO_CLAIMS : list string := [
  "ORGANIC"; "RECYCLED"; "CARBON_NEUTRAL"; "GOTS_CERTIFIED";
  "FAIR_TRADE"; "OEKO_TEX"; "BLUESIGN"; "CRADLE_TO_CRADLE" ].

(** The attributes of a [TestDataGenerator] that never change after
    [__init__]; its two sets live in the [World]. *)
Record TestDataGenerator : Type := {
  scenario : string;
  rows : Z;
  seed : Z
}.

Section WithRandom.
Context {G : Type} `{!PyRandom G}.

(** Truthiness of the [seed] argument: [None] and [0] are falsy. *)
Definition seed_truthy (seed : option Z) : bool :=
  match seed with
  | Some s => negb (s =? 0)
  | None => false
  end.

(** [TestDataGenerator.__init__]:
    [self.seed = seed or random.randint(1, 1000000)]. *)
Definition init (scenario : string) (rows : Z) (seed : option Z)
    : M (World G) TestDataGenerator :=
  seed' ← (if seed_truthy seed then ret (default 0 seed)
           else random.randint 1 1000000);
  _ ← random.seed seed';
  _ ← modify (set_generated_upids ∅);
  _ ← modify (set_generated_skus ∅);
  ret {| scenario := scenario; rows := rows; seed := seed' |}.

(** [generate_upid].  The early [return] of the duplicate branch is the
    [Some] of the first step. *)
Definition generate_upid (allow_duplicate : bool) : M (World G) string :=
  known ← gets generated_upids;
  reused ← (if allow_duplicate && bool_decide (known ≠ ∅) then
              r ← random.random;
              if float_lt r (lit 3 10) then
                pool ← list_of_set known;
                upid ← random.choice pool; ret (Some upid)
              else ret None
            else ret None);
  match reused with
  | Some upid => ret upid
  | None =>
      n ← random.randint 100000 999999;
      let upid := "UPID-" +:+ zfill 6 n in
      _ ← modify (λ w, set_generated_upids ({[upid]} ∪ generated_upids w) w);
      ret upid
  end.

(** [generate_sku]. *)
Definition generate_sku (allow_duplicate : bool) : M (World G) string :=
  known ← gets generated_skus;
  reused ← (if allow_duplicate && bool_decide (known ≠ ∅) then
              r ← random.random;
              if float_lt r (lit 3 10) then
                pool ← list_of_set known;
                sku ← random.choice pool; ret (Some sku)
              else ret None
            else ret None);
  match reused with
  | Some sku => ret sku
  | None =>
      prefix ← random.choice ["TSH"; "PNT"; "JKT"; "DRS"];
      n ← random.randint 10000 99999;
      let sku := "SKU-" +:+ prefix +:+ "-" +:+ str n in
      _ ← modify (λ w, set_generated_skus ({[sku]} ∪ generated_skus w) w);
      ret sku
  end.

(** [generate_product_name]. *)
Definition generate_product_name (invalid : bool) : M (World G) string :=
  if invalid then
    error_type ← random.choice ["too_long"; "empty"; "special_chars"];
    if String.eqb error_type "too_long" then ret (str_mul "A" 150)
    else if String.eqb error_type "empty" then ret ""
    else ret "Product@#$%^&*()"
  else
    style ← random.choice PRODUCT_STYLES;
    ptype ← random.choice PRODUCT_TYPES;
    material ← random.choice PRODUCT_MATERIALS_PRIMARY;
    let name_templates := [
      style +:+ " " +:+ ptype;
      material +:+ " " +:+ ptype;
      style +:+ " " +:+ material +:+ " " +:+ ptype;
      ptype ] in
    random.choice name_templates.

Definition description_templates : list string := [
  "A comfortable and stylish {product} perfect for everyday wear. Made with high-quality {material}.";
  "Discover the {style} {product} crafted from premium {material}. Ideal for any occasion.";
  "Elevate your wardrobe with this {style} {product}. Features exceptional quality and durability.";
  "Classic {product} design meets modern comfort. Made from sustainable {material}.";
  "The perfect {product} for the {season} season. Combines style with functionality." ].

(** [generate_description]: the template is chosen before the arguments of
    [format] are evaluated. *)
Definition generate_description (invalid : bool) : M (World G) string :=
  if invalid then ret (str_mul "D" 2500)
  else
    template ← random.choice description_templates;
    product ← random.choice PRODUCT_TYPES;
    material ← random.choice PRODUCT_MATERIALS_PRIMARY;
    style ← random.choice PRODUCT_STYLES;
    season ← random.choice ["spring"; "summer"; "fall"; "winter"];
    ret (format template [("product", lower product); ("material", lower material);
                           ("style", lower style); ("season", season)]).

(** [generate_url].  ([generate_uuid], which precedes it in the class, is
    called nowhere in the script and reads [uuid.uuid4], a source outside
    the [random] module; it has no counterpart here.) *)
Definition generate_url (invalid : bool) : M (World G) string :=
  if invalid then ret "not-a-valid-url"
  else
    let domains := ["cdn.example.com"; "images.product-store.com";
                    "assets.fashion-brand.com"] in
    n ← random.randint 1000 9999;
    let filename := "product-" +:+ str n +:+ ".jpg" in
    domain ← random.choice domains;
    ret ("https://" +:+ domain +:+ "/products/" +:+ filename).

(** [len(m) == 2]; [isinstance(m, tuple)] holds of every entry by its type. *)
Definition is_pair (m : list pyval) : bool := (length m =? 2)%nat.

(** [percentages[-1] = v]. *)
Definition set_last {A} (l : list A) (v : A) : M (World G) (list A) :=
  match l with
  | [] => raise IndexError
  | _ => ret (<[(length l - 1)%nat := v]> l)
  end.

(** The [else] branch of [generate_materials]: several materials, with the
    percentages rescaled to 100. *)
Definition multiple_materials : M (World G) (list pyval * list pyval) :=
  num_materials ← random.choice [1; 2; 3];
  selected ← random.sample (filter (λ m, is_pair m = true) MATERIALS)
                           (Z.min num_materials (Z.of_nat (length MATERIALS)));
  let chosen := take (Z.to_nat num_materials) selected in
  materials ← for_each chosen (λ m, index m 0);
  percentages ← for_each chosen (λ m, v ← index m 1; as_int v);
  let total := foldr Z.add 0 percentages in
  percentages ← (if 0 <? total then
                   let scaled := (λ p, int_of_float
                       (fmul (fdiv (inject_Z p) (inject_Z total)) (inject_Z 100)))
                     <$> percentages in
                   set_last scaled
                     (100 - foldr Z.add 0 (take (length scaled - 1) scaled))
                 else ret percentages);
  ret (materials, PInt <$> percentages).

(** [generate_materials], with its [else] branch as a parameter. *)
Definition generate_materials_with (otherwise : M (World G) (list pyval * list pyval))
    (invalid : bool) : M (World G) (list pyval * list pyval) :=
  if invalid then ret ([PStr "Cotton"; PStr "Polyester"], [PInt 65; PInt 50])
  else
    material_combo ← random.choice MATERIALS;
    if is_pair material_combo then
      name ← index material_combo 0;
      percentage ← index material_combo 1;
      ret ([name], [percentage])
    else otherwise.

Definition generate_materials : bool → M (World G) (list pyval * list pyval) :=
  generate_materials_with multiple_materials.

(** The first block of [generate_row]: the row's error disposition,
    [(should_have_error, error_type)]. *)
Definition error_disposition (self : TestDataGenerator) (row_number : Z)
    : M (World G) (bool * option string) :=
  if String.eqb (scenario self) "duplicates" then
    ret (10 <? row_number, Some "duplicate")
  else if String.eqb (scenario self) "missing_fields" then
    r ← random.random; ret (float_lt r (lit 2 10), Some "missing")
  else if String.eqb (scenario self) "invalid_formats" then
    r ← random.random; ret (float_lt r (lit 2 10), Some "invalid")
  else if String.eqb (scenario self) "mixed" then
    r ← random.random;
    kind ← random.choice ["duplicate"; "missing"; "invalid"];
    ret (float_lt r (lit 1 10), Some kind)
  else ret (false, None).

(** [random.random() < p]. *)
Definition chance (p : Q) : M (World G) bool :=
  r ← random.random; ret (float_lt r p).

(** The [while len(materials) < 3] loop: both lists grow by one empty
    string per round. *)
Definition pad_materials (mp : list pyval * list pyval) : list pyval * list pyval :=
  let k := (3 - length mp.1)%nat in
  (mp.1 ++ replicate k (PStr ""), mp.2 ++ replicate k (PStr "")).

(** [generate_row]. *)
Definition generate_row (self : TestDataGenerator) (row_number : Z) : M (World G) Row :=
  '(should_have_error, error_type) ← error_disposition self row_number;
  (* Generate UPID and SKU *)
  missing_ids ← and_then (is_kind error_type "missing") (chance (lit 5 10));
  '(upid, sku) ← (if missing_ids then ret ("", "")
                  else
                    upid ← generate_upid (is_kind error_type "duplicate");
                    sku ← generate_sku (is_kind error_type "duplicate");
                    ret (upid, sku));
  (* Generate product name *)
  missing_name ← and_then (is_kind error_type "missing") (chance (lit 3 10));
  product_name ← (if missing_name then ret ""
                  else
                    invalid ← and_then (is_kind error_type "invalid") (chance (lit 3 10));
                    generate_product_name invalid);
  (* Generate optional fields *)
  half ← chance (lit 5 10);
  let include_optional := half || is_kind error_type "invalid" in
  description ← (if include_optional then
                   invalid ← and_then (is_kind error_type "invalid") (chance (lit 2 10));
                   generate_description invalid
                 else ret "");
  category ← (if include_optional then random.choice CATEGORIES else ret "");
  season ← (if include_optional then random.choice SEASONS else ret "");
  primary_image_url ← (if include_optional then
                         invalid ← and_then (is_kind error_type "invalid") (chance (lit 2 10));
                         generate_url invalid
                       else ret "");
  with_color ← chance (lit 7 10);
  color ← (if with_color then random.choice COLORS else ret "");
  with_size ← chance (lit 7 10);
  size ← (if with_size then random.choice SIZES else ret "");
  with_image ← chance (lit 3 10);
  product_image_url ← (if with_image then
                         invalid ← and_then (is_kind error_type "invalid") (chance (lit 2 10));
                         generate_url invalid
                       else ret "");
  (* Generate materials *)
  invalid ← and_then (is_kind error_type "invalid") (chance (lit 15 100));
  composition ← generate_materials invalid;
  let materials := (pad_materials composition).1 in
  let percentages := (pad_materials composition).2 in
  (* Generate care codes and eco claims *)
  with_care ← chance (lit 6 10);
  num_care_codes ← (if with_care then random.randint 1 4 else ret 0);
  care_codes ← (if 0 <? num_care_codes
                then codes ← random.sample CARE_CODES num_care_codes;
                     ret (str_join "," codes)
                else ret "");
  with_eco ← chance (lit 4 10);
  num_eco_claims ← (if with_eco then random.randint 1 3 else ret 0);
  eco_claims ← (if 0 <? num_eco_claims
                then claims ← random.sample ECO_CLAIMS num_eco_claims;
                     ret (str_join "," claims)
                else ret "");
  with_score ← chance (lit 5 10);
  environment_score ← (if with_score then z ← random.randint 50 100; ret (PInt z)
                       else ret (PStr ""));
  material_1_name ← index materials 0;
  material_1_percentage ← index percentages 0;
  material_2_name ← index materials 1;
  material_2_percentage ← index percentages 1;
  material_3_name ← index materials 2;
  material_3_percentage ← index percentages 2;
  ret [ ("product_name", PStr product_name);
         ("upid", PStr upid);
         ("sku", PStr sku);
         ("description", PStr description);
         ("category_name", PStr category);
         ("season", PStr season);
         ("primary_image_url", PStr primary_image_url);
         ("color_name", PStr color);
         ("size_name", PStr size);
         ("product_image_url", PStr product_image_url);
         ("material_1_name", material_1_name);
         ("material_1_percentage", material_1_percentage);
         ("material_2_name", material_2_name);
         ("material_2_percentage", material_2_percentage);
         ("material_3_name", material_3_name);
         ("material_3_percentage", material_3_percentage);
         ("care_codes", PStr care_codes);
         ("eco_claims", PStr eco_claims);
         ("environment_score", environment_score) ].

(** [generate]: rows are numbered from 1. *)
Definition generate (self : TestDataGenerator) : M (World G) (list Row) :=
  for_each (range (rows self)) (λ i, generate_row self (i + 1)).

End WithRandom.

(** The columns [write_csv] writes. *)
Definition fieldnames : list string := [
  "product_name"; "upid"; "sku"; "description"; "category_name"; "season";
  "primary_image_url"; "color_name"; "size_name"; "product_image_url";
  "material_1_name"; "material_1_percentage"; "material_2_name"; "material_2_percentage";
  "material_3_name"; "material_3_percentage"; "care_codes"; "eco_claims"; "environment_score" ].

End GenerateTestData.

(* ===================================================================== *)
(** * scripts/generate_test_csvs.py *)
(* ===================================================================== *)

Module GenerateTestCsvs.

Definition NUM_ROWS : Z := 10000.

Definition PRODUCT_TYPES : list string := [
  "T-Shirt"; "Polo Shirt"; "Tank Top"; "Hoodie"; "Sweater"; "Cardigan";
  "Jeans"; "Pants"; "Shorts"; "Joggers"; "Dress Pants";
  "Jacket"; "Coat"; "Parka"; "Blazer";
  "Dress"; "Skirt"; "Blouse" ].

Definition MATERIALS : list string := [
  "Cotton"; "Polyester"; "Wool"; "Silk"; "Linen"; "Nylon";
  "Cashmere"; "Leather"; "Suede"; "Denim"; "Fleece";
  "Viscose"; "Elastane"; "Recycled Polyester" ].

Definition STYLES : list string := [
  "Classic"; "Vintage"; "Modern"; "Essential"; "Premium";
  "Athletic"; "Casual"; "Formal"; "Heritage"; "Limited Edition";
  "Oversized"; "Slim Fit"; "Regular Fit" ].

Definition VALID_COLORS : list string := ["Black"; "White"; "Navy"; "Gray"; "Beige"].
Definition VALID_SIZES : list string := ["XS"; "S"; "M"; "L"; "XL"].
Definition VALID_CATEGORIES : list string := ["Tops"; "Bottoms"; "Outerwear"; "Dresses"].

Definition UNMAPPED_COLORS : list string := [
  "Coral"; "Burgundy"; "Orange"; "Pink"; "Navy Blue"; "Light Gray";
  "Olive Green"; "Mustard"; "Teal"; "Lavender"; "Crimson"; "Charcoal" ].
Definition UNMAPPED_SIZES : list string := ["2XL"; "3XL"; "XXS"; "One Size"].
Definition UNMAPPED_CATEGORIES : list string := [
  "Accessories"; "Footwear"; "T-Shirts"; "Shirts"; "Activewear";
  "Loungewear"; "Swimwear"; "Underwear" ].

Definition SEASONS : list string := ["Spring 2024"; "Fall 2024"; "AW24"; "FW24"; "SS25"].

Definition CARE_CODES : list string := [
  "MACHINE_WASH"; "HAND_WASH"; "DRY_CLEAN"; "DO_NOT_BLEACH";
  "TUMBLE_DRY"; "DO_NOT_IRON"; "IRON_LOW_HEAT" ].

Definition ECO_CLAIMS : list string := [
  "ORGANIC"; "RECYCLED"; "FAIR_TRADE"; "BLUESIGN"; "OEKO_TEX";
  "GOTS_CERTIFIED"; "CRADLE_TO_CRADLE" ].

Definition DESCRIPTIONS : list string := [
  "Classic {material} {product} design meets modern comfort. Made from sustainable materials.";
  "The perfect {product} for the {season} season. Combines style with functionality.";
  "Discover the {style} {product} crafted from premium {material}. Ideal for any occasion.";
  "A comfortable and stylish {product} perfect for everyday wear. Made with high-quality {material}." ].

(** [generate_upid(index)]. *)
Definition generate_upid (index : Z) : string := "UPID-" +:+ str (100000 + index).

(** [get_base_headers()]. *)
Definition get_base_headers : list string := [
  "product_name"; "upid"; "sku"; "description"; "category_name"; "season";
  "primary_image_url"; "color_name"; "size_name"; "product_image_url";
  "material_1_name"; "material_1_percentage"; "material_2_name"; "material_2_percentage";
  "material_3_name"; "material_3_percentage"; "care_codes"; "eco_claims"; "environment_score" ].

Definition wrong_headers : list string := [
  "ProductName"; "UPID"; "SKU"; "Description"; "Category"; "Season";
  "PrimaryImage"; "ColorName"; "SizeName"; "ProductImage";
  "Material1"; "Material1Pct"; "Material2"; "Material2Pct";
  "Material3"; "Material3Pct"; "CareCodes"; "EcoClaims"; "EnvScore" ].

Section WithRandom.
Context {G : Type} `{!PyRandom G}.

(** [random.random() > p]. *)
Definition above (p : Q) : M (World G) bool :=
  r ← random.random; ret (float_gt r p).

(** [random.random() < p]. *)
Definition below (p : Q) : M (World G) bool :=
  r ← random.random; ret (float_lt r p).

(** [generate_sku(index)]. *)
Definition generate_sku (index : Z) : M (World G) string :=
  prefix ← random.choice ["TSH"; "PNT"; "JKT"; "DRS"; "SHT"];
  ret ("SKU-" +:+ prefix +:+ "-" +:+ str (10000 + index)).

(** [generate_product_name()]. *)
Definition generate_product_name : M (World G) string :=
  style ← random.choice STYLES;
  material ← random.choice MATERIALS;
  product ← random.choice PRODUCT_TYPES;
  ret (style +:+ " " +:+ material +:+ " " +:+ product).

(** [generate_description()]. *)
Definition generate_description : M (World G) string :=
  template ← random.choice DESCRIPTIONS;
  material ← random.choice MATERIALS;
  product ← random.choice PRODUCT_TYPES;
  season ← random.choice ["spring"; "summer"; "fall"; "winter"];
  style ← random.choice STYLES;
  ret (format template [("material", lower material); ("product", lower product);
                        ("season", season); ("style", lower style)]).

(** [generate_image_url(product_id)]. *)
Definition generate_image_url (product_id : Z) : M (World G) string :=
  domain ← random.choice ["cdn.example.com"; "assets.fashion-brand.com";
                          "images.product-store.com"];
  ret ("https://" +:+ domain +:+ "/products/product-" +:+ str product_id +:+ ".jpg").

(** [value if condition else ''], the value computed only on demand. *)
Definition if_included (condition : bool) (value : M (World G) string) : M (World G) string :=
  if condition then value else ret "".

(** [generate_base_row(index, use_valid_values)]. *)
Definition generate_base_row (index : Z) (use_valid_values : bool) : M (World G) Row :=
  let colors := if use_valid_values then VALID_COLORS else UNMAPPED_COLORS in
  let sizes := if use_valid_values then VALID_SIZES else UNMAPPED_SIZES in
  let categories := if use_valid_values then VALID_CATEGORIES else UNMAPPED_CATEGORIES in
  (* Randomly include optional fields *)
  include_description ← above (lit 3 10);
  include_category ← above (lit 2 10);
  include_season ← above (lit 4 10);
  include_images ← above (lit 5 10);
  include_color ← above (lit 2 10);
  include_size ← above (lit 2 10);
  include_care ← above (lit 4 10);
  include_eco ← above (lit 4 10);
  include_env_score ← above (lit 3 10);
  product_name ← generate_product_name;
  sku ← generate_sku index;
  description ← if_included include_description generate_description;
  category_name ← if_included include_category (random.choice categories);
  season ← if_included include_season (random.choice SEASONS);
  primary_image_url ← if_included include_images (generate_image_url index);
  color_name ← if_included include_color (random.choice colors);
  size_name ← if_included include_size (random.choice sizes);
  second_image ← and_then include_images (above (lit 5 10));
  product_image_url ← if_included second_image (generate_image_url (index + 1000));
  material_1_name ← random.choice MATERIALS;
  material_1_percentage ← random.choice [100; 95; 80; 70; 60; 50; 40; 35; 30];
  with_material_2 ← above (lit 6 10);
  material_2_name ← if_included with_material_2 (random.choice MATERIALS);
  with_percentage_2 ← above (lit 6 10);
  material_2_percentage ← if_included with_percentage_2
                            (p ← random.choice [20; 15; 10; 5]; ret (str p));
  care_codes ← if_included include_care
                 (k ← random.randint 1 3;
                  codes ← random.sample CARE_CODES k;
                  ret (str_join "," codes));
  eco_claims ← if_included include_eco
                 (k ← random.randint 1 3;
                  claims ← random.sample ECO_CLAIMS k;
                  ret (str_join "," claims));
  environment_score ← if_included include_env_score
                        (score ← random.randint 50 100; ret (str score));
  ret [ ("product_name", PStr product_name);
        ("upid", PStr (generate_upid index));
        ("sku", PStr sku);
        ("description", PStr description);
        ("category_name", PStr category_name);
        ("season", PStr season);
        ("primary_image_url", PStr primary_image_url);
        ("color_name", PStr color_name);
        ("size_name", PStr size_name);
        ("product_image_url", PStr product_image_url);
        ("material_1_name", PStr material_1_name);
        ("material_1_percentage", PStr (str material_1_percentage));
        ("material_2_name", PStr material_2_name);
        ("material_2_percentage", PStr material_2_percentage);
        ("material_3_name", PStr "");
        ("material_3_percentage", PStr "");
        ("care_codes", PStr care_codes);
        ("eco_claims", PStr eco_claims);
        ("environment_score", PStr environment_score) ].

(** The loop body of [generate_valid_csv]. *)
Definition valid_row (i : Z) : M (World G) Row := generate_base_row i true.

(** The loop body of [generate_duplicates_csv]: every 100th row takes the
    UPID of the row 50 back, and a fresh SKU. *)
Definition duplicates_row (i : Z) : M (World G) Row :=
  row ← generate_base_row i true;
  if (0 <? i) && (i mod 100 =? 0) then
    sku ← generate_sku i;
    ret (dict_set "sku" (PStr sku) (dict_set "upid" (PStr (generate_upid (i - 50))) row))
  else ret row.

(** The loop body of [generate_unmapped_csv]. *)
Definition unmapped_row (i : Z) : M (World G) Row := generate_base_row i false.

(** The loop body of [generate_missing_required_csv]. *)
Definition missing_required_row (i : Z) : M (World G) Row :=
  row ← generate_base_row i true;
  if i mod 5 =? 0 then
    let error_type := i mod 3 in
    if error_type =? 0 then ret (dict_set "product_name" (PStr "") row)
    else if error_type =? 1 then
      ret (dict_set "sku" (PStr "") (dict_set "upid" (PStr "") row))
    else if error_type =? 2 then ret (dict_set "upid" (PStr "") row)
    else ret row
  else ret row.

(** The loop body of [generate_field_length_violations_csv]. *)
Definition field_length_violations_row (i : Z) : M (World G) Row :=
  row ← generate_base_row i true;
  if i mod 10 =? 0 then
    if i mod 20 =? 0 then ret (dict_set "product_name" (PStr (str_mul "A" 150)) row)
    else ret (dict_set "description" (PStr (str_mul "B" 2500)) row)
  else ret row.

(** [{wrong: row[correct] for wrong, correct in zip(wrong_headers, correct_headers)}]. *)
Definition rename_headers (row : Row) : Row :=
  (λ wc, (wc.1, field row wc.2)) <$> zip wrong_headers get_base_headers.

(** The loop body of [generate_wrong_headers_csv]: the record written. *)
Definition wrong_headers_row (i : Z) : M (World G) Row :=
  row ← generate_base_row i true;
  ret (rename_headers row).

(** The loop body of [generate_mixed_errors_csv]. *)
Definition mixed_errors_row (i : Z) : M (World G) Row :=
  use_valid ← above (lit 5 10);
  row ← generate_base_row i use_valid;
  error_roll ← random.random;
  if float_lt error_roll (lit 5 100) then
    if 100 <? i then
      back ← random.randint 50 100;
      ret (dict_set "upid" (PStr (generate_upid (i - back))) row)
    else ret row
  else if float_lt error_roll (lit 10 100) then
    first ← above (lit 5 10);
    if first then ret (dict_set "product_name" (PStr "") row)
    else ret (dict_set "sku" (PStr "") (dict_set "upid" (PStr "") row))
  else if float_lt error_roll (lit 12 100) then
    first ← above (lit 5 10);
    if first then ret (dict_set "product_name" (PStr (str_mul "X" 150)) row)
    else ret (dict_set "description" (PStr (str_mul "Y" 2500)) row)
  else ret row.

(** The loop body of [generate_minimal_csv]. *)
Definition minimal_row (i : Z) : M (World G) Row :=
  let row := (λ header, (header, PStr "")) <$> get_base_headers in
  product_name ← generate_product_name;
  sku ← generate_sku i;
  material ← random.choice MATERIALS;
  ret (dict_set "material_1_percentage" (PStr "100")
        (dict_set "material_1_name" (PStr material)
          (dict_set "sku" (PStr sku)
            (dict_set "upid" (PStr (generate_upid i))
              (dict_set "product_name" (PStr product_name) row))))).

(** The loop body of [generate_large_mixed_csv]. *)
Definition large_mixed_row (i : Z) : M (World G) Row :=
  use_valid ← below (lit 3 10);
  generate_base_row i use_valid.

(** [for i in range(num_rows)] over a loop body: the records a generator
    hands to its writer, in order.  The scripts run it at [NUM_ROWS]. *)
Definition rows_of (body : Z → M (World G) Row) (num_rows : Z) : M (World G) (list Row) :=
  for_each (range num_rows) body.

End WithRandom.

End GenerateTestCsvs.

(* ===================================================================== *)
(** * The machine outside the interpreter: files and the terminal *)
(* ===================================================================== *)

(** A text all of whose bytes are below 128.  A Python [str] is held here
    as its UTF-8 bytes, so this is a text of ASCII characters only. *)
Definition ascii_byte (c : ascii) : bool :=
  match c with
  | Ascii _ _ _ _ _ _ _ high => negb high
  end.

Fixpoint is_ascii (s : string) : bool :=
  match s with
  | EmptyString => true
  | String c s' => ascii_byte c && is_ascii s'
  end.

(** [sys.stdout], as far as [print] can fail on it: the texts its encoding
    can encode.  [sys.stdout] encodes under the error handler [strict],
    so printing a text with a character outside the encoding raises
    [UnicodeEncodeError].  The encodings a terminal, a pipe or a file gets
    (ASCII, Latin-1, cp1252, UTF-8, ...) all extend ASCII. *)
Record Stdout : Type := {
  encodes : string → bool;
  encodes_ascii : ∀ text, is_ascii text = true → encodes text = true
}.

(** The machine a run works on. *)
Record Host : Type := {
  files : gmap string string;   (* the files, by path *)
  free : Z;                     (* the bytes the device still accepts *)
  openable : string → bool;     (* whether [open(path, 'w')] succeeds *)
  stdout : Stdout;
  printed : list string         (* the texts printed so far, one per [print] *)
}.

Definition set_file (path text : string) (room : Z) (h : Host) : Host :=
  {| files := <[path := text]> (files h); free := room;
     openable := openable h; stdout := stdout h; printed := printed h |}.

(** [open(path, 'w')]: creates the file, or empties the one that exists.
    Where the path cannot be opened for writing (no such directory, a
    directory, no permission, the empty path) it raises an [OSError]
    ([FileNotFoundError], [IsADirectoryError], [PermissionError]) and
    creates nothing. *)
Definition open_w (path : string) : M Host unit :=
  λ h, if openable h path then (Ok tt, set_file path "" (free h) h)
       else (Error OSError, h).

(** [f.write(text)] on a file opened for writing: appends.  On a device
    with too little room the bytes that fit are written and [OSError] is
    raised. *)
Definition write (path text : string) : M Host unit :=
  λ h, let old := default "" (files h !! path) in
       let n := Z.of_nat (String.length text) in
       if n <=? free h then (Ok tt, set_file path (old +:+ text) (free h - n) h)
       else
         (Error OSError,
          set_file path (old +:+ String.substring 0 (Z.to_nat (free h)) text) 0 h).

(** [print(text)]: the text goes to [sys.stdout]; when its encoding cannot
    encode the text, [UnicodeEncodeError] is raised and nothing is
    printed.  ([print(..., file=sys.stderr)] cannot raise it:
    [sys.stderr] escapes what it cannot encode.  What goes to
    [sys.stderr] is not recorded.) *)
Definition print (text : string) : M Host unit :=
  λ h, if encodes (stdout h) text
       then (Ok tt, {| files := files h; free := free h; openable := openable h;
                       stdout := stdout h; printed := printed h ++ [text] |})
       else (Error UnicodeEncodeError, h).

Module csv.

Definition quotechar : ascii := "034"%char.

Definition special (c : ascii) : bool :=
  Ascii.eqb c ","%char || Ascii.eqb c quotechar
  || Ascii.eqb c "013"%char || Ascii.eqb c "010"%char.

Fixpoint needs_quotes (s : string) : bool :=
  match s with
  | EmptyString => false
  | String c s' => special c || needs_quotes s'
  end.

Fixpoint double_quotes (s : string) : string :=
  match s with
  | EmptyString => EmptyString
  | String c s' =>
      if Ascii.eqb c quotechar then String c (String c (double_quotes s'))
      else String c (double_quotes s')
  end.

(** A field under [QUOTE_MINIMAL]. *)
Definition quoted (s : string) : string :=
  if needs_quotes s
  then String quotechar (double_quotes s) +:+ String quotechar EmptyString
  else s.

(** The text of a value: a string as it is, an [int] through [str]. *)
Definition text_of (v : pyval) : string :=
  match v with
  | PStr s => s
  | PInt z => str z
  end.

(** One record of the file, with the writer's line terminator. *)
Definition line (fields : list string) : string :=
  str_join "," (quoted <$> fields) +:+ String "013"%char (String "010"%char EmptyString).

(** [DictWriter._dict_to_list]: refuses a record with a key outside the
    field names, reads the others in column order, [""] for a missing one. *)
Definition dict_to_list (fieldnames : list string) (rowdict : Row)
    : result (list string) exn :=
  if forallb (λ k, bool_decide (k ∈ fieldnames)) (keys rowdict)
  then Ok ((λ k, text_of (field rowdict k)) <$> fieldnames)
  else Error ValueError.

(** [DictWriter(f, fieldnames).writeheader()]. *)
Definition writeheader (path : string) (fieldnames : list string) : M Host unit :=
  write path (line fieldnames).

(** [DictWriter(f, fieldnames).writerow(rowdict)]. *)
Definition writerow (path : string) (fieldnames : list string) (rowdict : Row)
    : M Host unit :=
  match dict_to_list fieldnames rowdict with
  | Ok fields => write path (line fields)
  | Error e => raise e
  end.

(** [DictWriter(f, fieldnames).writerows(rowdicts)]. *)
Definition writerows (path : string) (fieldnames : list string) (rowdicts : list Row)
    : M Host unit :=
  _ ← for_each rowdicts (writerow path fieldnames); ret tt.

(** The lines of a complete file. *)
Definition lines (fieldnames : list string) (rowdicts : list Row) : list string :=
  line fieldnames :: ((λ r, line ((λ k, text_of (field r k)) <$> fieldnames)) <$> rowdicts).

(** The text of a complete file: the header and one line per record. *)
Definition text (fieldnames : list string) (rowdicts : list Row) : string :=
  foldr String.append "" (lines fieldnames rowdicts).

End csv.

(** Running a computation on one side of a pair of states. *)
Definition in_world {G A} (m : M (World G) A) : M (World G * Host) A :=
  λ s, let '(r, w) := m s.1 in (r, (w, s.2)).

Definition on_host {G A} (m : M Host A) : M (World G * Host) A :=
  λ s, let '(r, h) := m s.2 in (r, (s.1, h)).

(* ===================================================================== *)
(** * generate-test-data.py: [print_statistics] *)
(* ===================================================================== *)

Module Statistics.

(** What [print_statistics] can raise: a record without one of the keys it
    reads, and the division by [len(data)]. *)
Inductive error : Type :=
| KeyError (key : string)
| ZeroDivisionError.

(** [row[key]]. *)
Definition getitem (row : Row) (key : string) : result pyval error :=
  match dict_get row key with
  | Some v => Ok v
  | None => Error (KeyError key)
  end.

(** [sum(1 for row in data if condition(row))]: the rows are examined in
    order, and the first one that raises ends the count. *)
Fixpoint count (condition : Row → result bool error) (data : list Row) : result Z error :=
  match data with
  | [] => Ok 0
  | row :: data' =>
      match condition row with
      | Error e => Error e
      | Ok b =>
          match count condition data' with
          | Error e => Error e
          | Ok n => Ok ((if b then 1 else 0) + n)
          end
      end
  end.

(** [not row["upid"] and not row["sku"]]: the SKU is read only when the
    UPID is falsy. *)
Definition lacks_upid_and_sku (row : Row) : result bool error :=
  match getitem row "upid" with
  | Error e => Error e
  | Ok upid =>
      if truthy upid then Ok false
      else match getitem row "sku" with
           | Error e => Error e
           | Ok sku => Ok (negb (truthy sku))
           end
  end.

(** [not row[key]] and [row[key]] as conditions. *)
Definition lacks (key : string) (row : Row) : result bool error :=
  match getitem row key with
  | Error e => Error e
  | Ok v => Ok (negb (truthy v))
  end.

Definition has (key : string) (row : Row) : result bool error :=
  match getitem row key with
  | Error e => Error e
  | Ok v => Ok (truthy v)
  end.

(** [f"{x:.1f}"] for a float that is not negative: the decimal with one
    digit after the point that is nearest to the float's exact value, ties
    to the even digit. *)
Definition format_1f (x : Q) : string :=
  let tenths := round_half_even (Qnum x * 10) (Zpos (Qden x)) in
  str (tenths / 10) +:+ "." +:+ str (tenths mod 10).

(** [f"  - {label}: {n}/{len(data)} ({n/len(data)*100:.1f}%)"]. *)
Definition coverage (label : string) (n total : Z) : result string error :=
  if total =? 0 then Error ZeroDivisionError
  else Ok ("  - " +:+ label +:+ ": " +:+ str n +:+ "/" +:+ str total +:+ " ("
            +:+ format_1f (fmul (fdiv (inject_Z n) (inject_Z total)) (inject_Z 100))
            +:+ "%)").

Definition newline : string := String "010" "".

Section Printing.
Context {G : Type}.

(** [print_statistics]: the lines printed, in order, and how the call
    ended.  A line is printed as soon as its text is computed, so what was
    printed before an exception stays printed. *)
Definition print_statistics (data : list Row) (w : World G) : list string * result unit error :=
  let total := Z.of_nat (length data) in
  let out1 := [ newline +:+ "=== Generation Statistics ===";
                "Total rows: " +:+ str total;
                "Unique UPIDs: " +:+ str (Z.of_nat (size (generated_upids w)));
                "Unique SKUs: " +:+ str (Z.of_nat (size (generated_skus w))) ] in
  match count lacks_upid_and_sku data with
  | Error e => (out1, Error e)
  | Ok missing_upid_sku =>
  match count (lacks "product_name") data with
  | Error e => (out1, Error e)
  | Ok missing_name =>
  let out2 := out1 ++ [ "Rows missing both UPID and SKU: " +:+ str missing_upid_sku;
                        "Rows missing product_name: " +:+ str missing_name ] in
  match count (has "description") data with
  | Error e => (out2, Error e)
  | Ok with_description =>
  match count (has "material_1_name") data with
  | Error e => (out2, Error e)
  | Ok with_materials =>
  match count (has "care_codes") data with
  | Error e => (out2, Error e)
  | Ok with_care_codes =>
  match count (has "eco_claims") data with
  | Error e => (out2, Error e)
  | Ok with_eco_claims =>
  let out3 := out2 ++ [ newline +:+ "Optional field coverage:" ] in
  match coverage "Descriptions" with_description total with
  | Error e => (out3, Error e)
  | Ok line1 =>
  match coverage "Materials" with_materials total with
  | Error e => (out3 ++ [line1], Error e)
  | Ok line2 =>
  match coverage "Care codes" with_care_codes total with
  | Error e => (out3 ++ [line1; line2], Error e)
  | Ok line3 =>
  match coverage "Eco claims" with_eco_claims total with
  | Error e => (out3 ++ [line1; line2; line3], Error e)
  | Ok line4 => (out3 ++ [line1; line2; line3; line4], Ok tt)
  end end end end end end end end end end.

End Printing.

End Statistics.

(** The exception of [print_statistics] as the caller sees it. *)
Definition raised (e : Statistics.error) : exn :=
  match e with
  | Statistics.KeyError key => KeyError key
  | Statistics.ZeroDivisionError => ZeroDivisionError
  end.

(* ===================================================================== *)
(** * generate-test-data.py: [generate], [write_csv] and [main] *)
(* ===================================================================== *)

Section TestDataMain.
Context {G : Type} `{!PyRandom G}.
Import GenerateTestData.

(** [generate] as the method is written, with what it prints: two lines
    before the loop and a progress line after every thousandth row.
    [GenerateTestData.generate] above is what it does to the interpreter. *)
Definition generate_printing (self : TestDataGenerator) : M (World G * Host) (list Row) :=
  _ ← on_host (print ("Generating " +:+ str (rows self) +:+ " rows with scenario: "
                      +:+ scenario self));
  _ ← on_host (print ("Random seed: " +:+ str (seed self)));
  for_each (range (rows self))
    (λ i, row ← in_world (generate_row self (i + 1));
          _ ← (if (i + 1) mod 1000 =? 0
               then on_host (print ("Generated " +:+ str (i + 1) +:+ "/"
                                    +:+ str (rows self) +:+ " rows..."))
               else ret tt);
          ret row).

(** [print_statistics] as a statement: the lines of
    [Statistics.print_statistics] are printed in order, then its exception,
    if any, is raised. *)
Definition print_statistics (data : list Row) : M (World G * Host) unit :=
  λ s, let '(lines, outcome) := Statistics.print_statistics data s.1 in
       match for_each lines print s.2 with
       | (Error e, h) => (Error e, (s.1, h))
       | (Ok _, h) =>
           (match outcome with
            | Ok _ => Ok tt
            | Error e => Error (raised e)
            end, (s.1, h))
       end.

(** The [with open(output_file, 'w', ...)] block of [write_csv]: the file
    is opened for writing, then the header and the rows are written to
    it. *)
Definition write_csv_file (data : list Row) (output_file : string) : M Host unit :=
  _ ← open_w output_file;
  _ ← csv.writeheader output_file fieldnames;
  csv.writerows output_file fieldnames data.

(** [TestDataGenerator.write_csv]. *)
Definition write_csv (data : list Row) (output_file : string) : M (World G * Host) unit :=
  _ ← on_host (print (Statistics.newline +:+ "Writing data to " +:+ output_file +:+ "..."));
  _ ← on_host (write_csv_file data output_file);
  _ ← on_host (print ("Successfully wrote " +:+ str (Z.of_nat (length data))
                      +:+ " rows to " +:+ output_file));
  print_statistics data.

Definition scenario_choices : list string :=
  ["valid"; "duplicates"; "missing_fields"; "invalid_formats"; "mixed"].

(** The [try] block of [main]. *)
Definition main_try (generator : TestDataGenerator) (scenario output : string)
    : M (World G * Host) unit :=
  data ← generate_printing generator;
  _ ← write_csv data output;
  _ ← on_host (print (Statistics.newline +:+ "✓ Test data generation complete!"));
  _ ← on_host (print ("  Scenario: " +:+ scenario));
  _ ← on_host (print ("  Output: " +:+ output));
  on_host (print ("  Seed: " +:+ str (seed generator) +:+ " (use --seed="
                  +:+ str (seed generator) +:+ " to reproduce)")).

(** [main], from the parsed arguments to the exit status.  [argparse] exits
    with 2 on a scenario outside the choices; a row count below 1 exits
    with 1; an exception in the [try] block is caught, reported on
    [sys.stderr] and turned into exit status 1; an exception outside it
    (the warning is printed before the block) ends the interpreter with
    status 1 as well. *)
Definition main (scenario : string) (rows : Z) (output : string) (seed : option Z)
    (w : World G) (h : Host) : Z * World G * Host :=
  if negb (bool_decide (scenario ∈ scenario_choices)) then (2, w, h)
  else if rows <? 1 then (1, w, h)
  else
    match (if 100000 <? rows
           then print "Warning: Generating more than 100,000 rows may take a while..."
           else ret tt) h with
    | (Error _, h0) => (1, w, h0)
    | (Ok _, h0) =>
        match init scenario rows seed w with
        | (Error _, w1) => (1, w1, h0)
        | (Ok generator, w1) =>
            match main_try generator scenario output (w1, h0) with
            | (Ok _, (w2, h2)) => (0, w2, h2)
            | (Error _, (w2, h2)) => (1, w2, h2)
            end
        end
    end.

(** The records of a run: [TestDataGenerator(scenario, rows, seed).generate()]. *)
Definition run (scenario : string) (rows : Z) (seed : option Z) : M (World G) (list Row) :=
  generator ← init scenario rows seed; generate generator.

End TestDataMain.

(* ===================================================================== *)
(** * generate_test_csvs.py: the ten files and [main] *)
(* ===================================================================== *)



Section TestCsvsMain.
Context {G : Type} `{!PyRandom G}.
Import GenerateTestCsvs.

(** The shape shared by the ten [generate_*_csv] functions: inside
    [with open(filename, 'w')], the header is written, then each row is
    generated and written at once; after the block a line that starts
    with a check mark and the name of the file is printed.  [filename] is
    the name of the file inside [OUTPUT_DIR], the directory of the script,
    and [files] holds the files of that directory. *)
Definition generate_csv (filename : string) (headers : list string)
    (body : Z → M (World G) Row) (num_rows : Z) (summary : string)
    : M (World G * Host) unit :=
  _ ← on_host (open_w filename);
  _ ← on_host (csv.writeheader filename headers);
  _ ← for_each (range num_rows)
        (λ i, row ← in_world (body i); on_host (csv.writerow filename headers row));
  on_host (print ("✓ Generated " +:+ filename +:+ ": " +:+ summary)).









Definition generate_empty_csv : M (World G * Host) unit :=
  generate_csv "test-09-empty.csv" get_base_headers valid_row 0
    "Headers only, no data rows".





End TestCsvsMain.

(** ** Concrete processes *)

(** The iteration order of stdpp's [elements], and its reverse: two orders
    a process may have. *)
Definition elements_order : SetOrder :=
  {| listing := elements; listing_perm := λ X, reflexivity (elements X) |}.

Lemma reverse_elements_perm (X : gset string) : reverse (elements X) ≡ₚ elements X.
Proof. apply reverse_Permutation. Qed.

Definition reverse_order : SetOrder :=
  {| listing := λ X, reverse (elements X); listing_perm := reverse_elements_perm |}.

(** A process whose module-level generator was left in state [g]. *)
Definition process {G} (g : G) (order : SetOrder) : World G :=
  {| random_state := g; set_order := order;
     generated_upids := ∅; generated_skus := ∅ |}.

(** A CPython process: [ambient] stands for the entropy the interpreter
    seeded the module-level generator with at import. *)
Definition cpython (ambient : Z) : World MT19937.state :=
  process (MT19937.seed ambient) elements_order.

(** Two terminals: one that encodes every text, and one that encodes the
    ASCII texts only. *)
Definition utf8_stdout : Stdout :=
  {| encodes := λ _, true; encodes_ascii := λ _ _, eq_refl |}.

Definition ascii_stdout : Stdout :=
  {| encodes := is_ascii; encodes_ascii := λ _ H, H |}.

(** A path that names a file of the working directory: not empty, not
    [.] or [..], and without a slash. *)
Fixpoint has_slash (s : string) : bool :=
  match s with
  | EmptyString => false
  | String c s' => Ascii.eqb c "/" || has_slash s'
  end.

Definition plain_name (path : string) : bool :=
  negb (String.eqb path "") && negb (String.eqb path ".")
  && negb (String.eqb path "..") && negb (has_slash path).

(** A machine with an empty working directory that holds no directory,
    room for [room] bytes, and a UTF-8 terminal: a path can be opened for
    writing exactly when it is a plain name. *)
Definition empty_disk (room : Z) : Host :=
  {| files := ∅; free := room; openable := plain_name;
     stdout := utf8_stdout; printed := [] |}.

(** The same machine behind another terminal. *)
Definition with_stdout (o : Stdout) (h : Host) : Host :=
  {| files := files h; free := free h; openable := openable h;
     stdout := o; printed := printed h |}.

(* ===================================================================== *)
(** * What the properties below speak of *)
(* ===================================================================== *)

Global Instance pyval_eq_dec : EqDecision pyval.
Proof. solve_decision. Defined.

(** The two counts of [print_statistics], per row:
    [not row["upid"] and not row["sku"]], and [not row["product_name"]]. *)
Definition missing_upid_sku (row : Row) : bool :=
  negb (truthy (field row "upid")) && negb (truthy (field row "sku")).

Definition missing_name (row : Row) : bool :=
  negb (truthy (field row "product_name")).

(** The length of a field's text. *)
Definition text_length (v : pyval) : nat := String.length (csv.text_of v).

Definition long_name (row : Row) : bool :=
  (100 <? text_length (field row "product_name"))%nat.

Definition long_description (row : Row) : bool :=
  (2000 <? text_length (field row "description"))%nat.

(** The sum of a record's material percentages; an empty slot counts 0. *)
Definition percentage (v : pyval) : Z :=
  match v with
  | PInt z => z
  | PStr _ => 0
  end.

Definition percentage_total (row : Row) : Z :=
  percentage (field row "material_1_percentage")
  + percentage (field row "material_2_percentage")
  + percentage (field row "material_3_percentage").

(** The values of one column, row by row. *)
Definition column (key : string) (data : list Row) : list pyval :=
  (λ row, field row key) <$> data.

(** The records of a run, or none if it raised. *)
Definition records {S} (r : result (list Row) exn * S) : list Row :=
  match r.1 with
  | Ok data => data
  | Error _ => []
  end.



(** The identifiers in one column, as strings. *)
Definition identifiers (key : string) (data : list Row) : list string :=
  csv.text_of <$> column key data.

(* ===================================================================== *)
(** * Reasoning about computations *)
(* ===================================================================== *)

(** [wp m Q s]: from state [s], [m] returns normally with a value and a
    state that satisfy [Q]. *)
Definition wp {S A} (m : M S A) (Q : A → S → Prop) (s : S) : Prop :=
  ∃ a s', m s = (Ok a, s') ∧ Q a s'.

Lemma wp_ret {S A} (a : A) (Q : A → S → Prop) s : Q a s → wp (ret a) Q s.
Proof. intros HQ. exists a, s. done. Qed.

Lemma wp_bind {S A B} (m : M S A) (k : A → M S B) (Q : B → S → Prop) s :
  wp m (λ a s', wp (k a) Q s') s → wp (bind m k) Q s.
Proof.
  intros (a & s' & Hm & b & s'' & Hk & HQ).
  exists b, s''. unfold bind. rewrite Hm. done.
Qed.

Lemma wp_mono {S A} (m : M S A) (Q Q' : A → S → Prop) s :
  wp m Q s → (∀ a s', Q a s' → Q' a s') → wp m Q' s.
Proof. intros (a & s' & Hm & HQ) H. exists a, s'. auto. Qed.

Lemma wp_gets {S A} (f : S → A) (Q : A → S → Prop) s : Q (f s) s → wp (gets f) Q s.
Proof. intros HQ. exists (f s), s. done. Qed.

Lemma wp_modify {S} (f : S → S) (Q : unit → S → Prop) s : Q tt (f s) → wp (modify f) Q s.
Proof. intros HQ. exists tt, (f s). done. Qed.

Lemma wp_index {S A} (l : list A) (i : Z) (Q : A → S → Prop) s :
  0 ≤ i < Z.of_nat (length l) →
  (∀ x, l !! Z.to_nat i = Some x → Q x s) → wp (index l i) Q s.
Proof.
  intros Hi HQ. unfold index.
  destruct (i <? 0) eqn:Hneg; [lia|].
  destruct (l !! Z.to_nat i) as [x|] eqn:Hx.
  - apply wp_ret. auto.
  - apply lookup_ge_None in Hx. lia.
Qed.

(** A loop establishes [φ] of every value it collects when each round
    does, from any state it can be in ([I] is the loop invariant). *)
Lemma wp_for_each {S A B} (xs : list A) (body : A → M S B)
    (I : S → Prop) (φ : A → B → Prop) s :
  I s →
  (∀ x s, x ∈ xs → I s → wp (body x) (λ b s', φ x b ∧ I s') s) →
  wp (for_each xs body) (λ bs s', Forall2 φ xs bs ∧ I s') s.
Proof.
  revert s. induction xs as [|x xs IH]; intros s HI Hbody; simpl.
  - apply wp_ret. split; [constructor | done].
  - apply wp_bind. eapply wp_mono; [apply Hbody; [left | done] |].
    intros b s1 [Hb HI1]. simpl.
    apply wp_bind. eapply wp_mono.
    { apply IH; [done |]. intros y s2 Hy. apply Hbody. by right. }
    intros bs s2 [Hbs HI2]. simpl. apply wp_ret. split; [by constructor | done].
Qed.

(** ** Computations that only draw random numbers *)

Arguments random.random : simpl never.
Arguments random.randbelow : simpl never.
Arguments random.choice : simpl never.
Arguments random.randint : simpl never.
Arguments random.sample : simpl never.
Arguments index : simpl never.
Arguments and_then : simpl never.

Section Logic.
Context {G : Type} `{!PyRandom G}.

(** [frame w w']: [w'] differs from [w] in the state of the random
    generator at most. *)
Definition frame (w w' : World G) : Prop :=
  set_order w' = set_order w
  ∧ generated_upids w' = generated_upids w
  ∧ generated_skus w' = generated_skus w.

Lemma frame_refl w : frame w w.
Proof. done. Qed.

Lemma frame_trans w1 w2 w3 : frame w1 w2 → frame w2 w3 → frame w1 w3.
Proof. unfold frame. intros (-> & -> & ->) (-> & -> & ->). done. Qed.

Lemma frame_set_random_state g w : frame w (set_random_state g w).
Proof. done. Qed.

(** [draws φ m]: [m] returns normally from every state, changes nothing but
    the state of the random generator, and its value satisfies [φ]. *)
Definition draws {A} (φ : A → Prop) (m : M (World G) A) : Prop :=
  ∀ w, wp m (λ a w', φ a ∧ frame w w') w.

Lemma draws_ret {A} (φ : A → Prop) a : φ a → draws φ (ret a).
Proof. intros Ha w. apply wp_ret. split; [done | apply frame_refl]. Qed.

Lemma draws_bind {A B} (ψ : A → Prop) (φ : B → Prop) m (k : A → M (World G) B) :
  draws ψ m → (∀ a, ψ a → draws φ (k a)) → draws φ (bind m k).
Proof.
  intros Hm Hk w. apply wp_bind. eapply wp_mono; [apply Hm |].
  intros a w1 [Ha Hf1]. simpl. eapply wp_mono; [apply (Hk a Ha) |].
  intros b w2 [Hb Hf2]. simpl. split; [done | by eapply frame_trans].
Qed.

Lemma draws_weaken {A} (ψ φ : A → Prop) m :
  draws ψ m → (∀ a, ψ a → φ a) → draws φ m.
Proof.
  intros Hm Himp w. eapply wp_mono; [apply Hm |]. intros a w' [Ha Hf]. auto.
Qed.

Lemma draws_any {A} (ψ : A → Prop) m : draws ψ m → draws (λ _, True) m.
Proof. intros Hm. eapply draws_weaken; [exact Hm | done]. Qed.

Lemma draws_if {A} (φ : A → Prop) (b : bool) (m1 m2 : M (World G) A) :
  draws φ m1 → draws φ m2 → draws φ (if b then m1 else m2).
Proof. by destruct b. Qed.

Lemma wp_draws {A} (φ : A → Prop) m (Q : A → World G → Prop) w :
  draws φ m → (∀ a w', φ a → frame w w' → Q a w') → wp m Q w.
Proof.
  intros Hm HQ. eapply wp_mono; [apply Hm |]. intros a w' [Ha Hf]. auto.
Qed.

Lemma draws_random : draws (λ _, True) random.random.
Proof.
  intros w. unfold random.random.
  destruct (rng_random (random_state w)) as [k g] eqn:Hk.
  exists (Qmake k (2 ^ 53)), (set_random_state g w). rewrite Hk.
  split; [reflexivity | split; [try done | apply frame_set_random_state]].
Qed.

Lemma draws_randbelow n : 0 < n → draws (λ r, 0 ≤ r < n) (random.randbelow n).
Proof.
  intros Hn w. unfold random.randbelow.
  pose proof (rng_randbelow_range n (random_state w) Hn) as Hr.
  destruct (rng_randbelow n (random_state w)) as [r g] eqn:Hk.
  exists r, (set_random_state g w). rewrite Hk.
  split; [reflexivity | split; [try done | apply frame_set_random_state]].
Qed.

Lemma draws_index {A} (l : list A) (i : Z) :
  0 ≤ i < Z.of_nat (length l) → draws (λ x, x ∈ l) (index l i).
Proof.
  intros Hi w. apply wp_index; [done |].
  intros x Hx. split; [by eapply list_elem_of_lookup_2 | apply frame_refl].
Qed.

Lemma draws_choice {A} (seq : list A) : seq ≠ [] → draws (λ x, x ∈ seq) (random.choice seq).
Proof.
  intros Hne. unfold random.choice. destruct seq as [|x0 seq']; [done |].
  eapply draws_bind; [apply draws_randbelow; rewrite length_cons; lia |].
  intros i Hi. simpl in Hi. by apply draws_index.
Qed.

Lemma draws_randint a b : a ≤ b → draws (λ z, a ≤ z ≤ b) (random.randint a b).
Proof.
  intros Hab. unfold random.randint.
  destruct (0 <? b + 1 - a) eqn:Hw; [| lia].
  eapply draws_bind; [apply draws_randbelow; lia |].
  intros i Hi. simpl in Hi. apply draws_ret. lia.
Qed.

Lemma draws_sample_loop {A} (k : nat) (pool : list A) (n : Z) :
  Z.of_nat k ≤ n ≤ Z.of_nat (length pool) →
  draws (λ l, length l = k) (random.sample_loop k pool n).
Proof.
  revert pool n. induction k as [|k IH]; intros pool n Hn; simpl.
  - by apply draws_ret.
  - eapply draws_bind; [apply draws_randbelow; lia |].
    intros j Hj. simpl in Hj. eapply draws_bind; [apply draws_index; lia |].
    intros x _. eapply draws_bind; [apply draws_index; lia |].
    intros y _. eapply draws_bind.
    { apply IH. rewrite length_insert. lia. }
    intros rest Hrest. simpl in Hrest. apply draws_ret. simpl. by rewrite Hrest.
Qed.

Lemma draws_sample {A} (population : list A) (k : Z) :
  0 ≤ k ≤ Z.of_nat (length population) →
  draws (λ l, Z.of_nat (length l) = k) (random.sample population k).
Proof.
  intros Hk. unfold random.sample.
  destruct (0 <=? k) eqn:H0; [| lia].
  destruct (k <=? Z.of_nat (length population)) eqn:H1; [| lia]. simpl.
  eapply draws_weaken; [apply draws_sample_loop; lia |].
  intros l Hl. simpl in Hl. lia.
Qed.

End Logic.

(* ===================================================================== *)
(** * generate-test-data.py: what each method returns *)
(* ===================================================================== *)

Section TestDataSpecs.
Context {G : Type} `{!PyRandom G}.
Import GenerateTestData.

Lemma draws_chance p : draws (λ _, True) (chance p).
Proof.
  unfold chance. eapply draws_bind; [apply draws_random |].
  intros r _. by apply draws_ret.
Qed.

Lemma draws_and_then {φ : bool → Prop} (a : bool) (m : M (World G) bool) :
  draws φ m → draws (λ b, b = true → a = true) (and_then a m).
Proof.
  intros Hm. destruct a; unfold and_then.
  - eapply draws_weaken; [exact Hm | done].
  - by apply draws_ret.
Qed.

Lemma append_nonempty_r (s t : string) : t ≠ "" → s +:+ t ≠ "".
Proof. destruct s; [done | discriminate]. Qed.

Lemma PRODUCT_TYPES_nonempty ptype : ptype ∈ PRODUCT_TYPES → ptype ≠ "".
Proof.
  intros Hin ->. revert Hin. unfold PRODUCT_TYPES.
  rewrite !elem_of_cons, elem_of_nil. intros H. repeat (destruct H as [H|H]; [discriminate |]). done.
Qed.

Lemma draws_generate_product_name invalid :
  draws (λ name, invalid = false → name ≠ "") (generate_product_name invalid).
Proof.
  unfold generate_product_name. destruct invalid.
  - eapply draws_bind; [by apply draws_choice |].
    intros kind _. repeat apply draws_if; by apply draws_ret.
  - eapply draws_bind; [by apply draws_choice |]. intros style _.
    eapply draws_bind; [by apply draws_choice |]. intros ptype Hptype.
    eapply draws_bind; [by apply draws_choice |]. intros material _.
    apply PRODUCT_TYPES_nonempty in Hptype.
    eapply draws_weaken; [by apply draws_choice |].
    intros name Hname _. revert Hname.
    rewrite !elem_of_cons, elem_of_nil.
    intros [-> | [-> | [-> | [-> | []]]]]; auto using append_nonempty_r.
Qed.

Lemma draws_generate_description invalid : draws (λ _, True) (generate_description invalid).
Proof.
  unfold generate_description. destruct invalid; [by apply draws_ret |].
  eapply draws_bind; [by apply draws_choice |]. intros template _.
  eapply draws_bind; [by apply draws_choice |]. intros product _.
  eapply draws_bind; [by apply draws_choice |]. intros material _.
  eapply draws_bind; [by apply draws_choice |]. intros style _.
  eapply draws_bind; [by apply draws_choice |]. intros season _.
  by apply draws_ret.
Qed.

Lemma draws_generate_url invalid : draws (λ _, True) (generate_url invalid).
Proof.
  unfold generate_url. destruct invalid; [by apply draws_ret |].
  eapply draws_bind; [apply draws_randint; lia |]. intros n _.
  eapply draws_bind; [by apply draws_choice |]. intros domain _.
  by apply draws_ret.
Qed.

(** Every entry of [MATERIALS] is a pair. *)
Lemma MATERIALS_pairs : Forall (λ m, is_pair m = true) MATERIALS.
Proof. unfold MATERIALS. repeat constructor. Qed.

(** [generate_materials], whatever stands in its [else] branch, returns as
    many percentages as names, and at most two of each. *)
Lemma draws_generate_materials_with otherwise invalid :
  draws (λ mp, length mp.2 = length mp.1 ∧ (length mp.1 ≤ 2)%nat)
        (generate_materials_with otherwise invalid).
Proof.
  unfold generate_materials_with. destruct invalid.
  - apply draws_ret. simpl. lia.
  - eapply draws_bind; [by apply draws_choice |]. intros combo Hcombo. simpl in Hcombo.
    pose proof (proj1 (Forall_forall _ _) MATERIALS_pairs combo Hcombo) as Hpair.
    simpl in Hpair. rewrite Hpair.
    unfold is_pair in Hpair. apply Nat.eqb_eq in Hpair.
    eapply draws_bind; [apply draws_index; lia |]. intros name _.
    eapply draws_bind; [apply draws_index; lia |]. intros percentage _.
    apply draws_ret. simpl. lia.
Qed.

Lemma draws_error_disposition self row_number :
  draws (λ d, (scenario self = "valid" → d.2 = None)
              ∧ (scenario self = "duplicates" → d.2 = Some "duplicate")
              ∧ (scenario self = "invalid_formats" → d.2 = Some "invalid")
              ∧ (is_kind d.2 "missing" = true →
                 scenario self = "missing_fields" ∨ scenario self = "mixed")
              ∧ (is_kind d.2 "duplicate" = true →
                 scenario self = "duplicates" ∨ scenario self = "mixed"))
        (error_disposition self row_number).
Proof.
  unfold error_disposition.
  destruct (String.eqb_spec (scenario self) "duplicates") as [-> | Hd].
  { apply draws_ret. simpl. repeat split; try done; auto. }
  destruct (String.eqb_spec (scenario self) "missing_fields") as [-> | Hm].
  { eapply draws_bind; [apply draws_random |]. intros r _.
    apply draws_ret. simpl. repeat split; try done; auto. }
  destruct (String.eqb_spec (scenario self) "invalid_formats") as [-> | Hi].
  { eapply draws_bind; [apply draws_random |]. intros r _.
    apply draws_ret. simpl. repeat split; try done; auto. }
  destruct (String.eqb_spec (scenario self) "mixed") as [-> | Hx].
  { eapply draws_bind; [apply draws_random |]. intros r _.
    eapply draws_bind; [by apply draws_choice |]. intros kind _.
    apply draws_ret. simpl. repeat split; try done; auto. }
  apply draws_ret. simpl. repeat split; try done.
Qed.

(** [list(s)] of a non-empty set lists its members, and at least one. *)
Lemma wp_list_of_set (X : gset string) (Q : list string → World G → Prop) w :
  (∀ l, (∀ x, x ∈ l ↔ x ∈ X) → (X ≠ ∅ → l ≠ []) → Q l w) → wp (list_of_set X) Q w.
Proof.
  intros HQ. exists (listing (set_order w) X), w. split; [done |].
  pose proof (listing_perm (set_order w) X) as Hperm.
  apply HQ.
  - intros x. rewrite Hperm. apply elem_of_elements.
  - intros HX Hnil. rewrite Hnil in Hperm.
    apply Permutation_nil_l in Hperm. symmetry in Hperm.
    by apply elements_empty_inv, leibniz_equiv in Hperm.
Qed.

(** [generate_upid] returns an identifier that is in the set afterwards,
    and adds nothing else to it; without [allow_duplicate] it is never
    empty. *)
Lemma wp_generate_upid allow_duplicate (Q : string → World G → Prop) w :
  (∀ upid w',
     set_order w' = set_order w →
     generated_skus w' = generated_skus w →
     generated_upids w' = {[upid]} ∪ generated_upids w →
     (allow_duplicate = false → upid ≠ "") →
     Q upid w') →
  wp (generate_upid allow_duplicate) Q w.
Proof.
  intros HQ. unfold generate_upid.
  apply wp_bind, wp_gets. simpl.
  assert (∀ w1, frame w w1 →
    wp (n ← random.randint 100000 999999;
        let upid := "UPID-" +:+ zfill 6 n in
        _ ← modify (λ w, set_generated_upids ({[upid]} ∪ generated_upids w) w);
        ret upid) Q w1) as Hfresh.
  { intros w1 (Ho1 & Hu1 & Hk1).
    apply wp_bind. eapply wp_draws; [apply draws_randint; lia |].
    intros n w2 _ (Ho2 & Hu2 & Hk2). simpl.
    apply wp_bind, wp_modify. simpl. apply wp_ret.
    apply HQ; simpl; try congruence. done. }
  destruct (allow_duplicate && bool_decide (generated_upids w ≠ ∅)) eqn:Hdup.
  - apply andb_prop in Hdup as [-> Hne]. apply bool_decide_eq_true in Hne.
    apply wp_bind, wp_bind. eapply wp_draws; [apply draws_random |].
    intros r w1 _ Hf1. simpl.
    destruct (float_lt r (lit 3 10)).
    + apply wp_bind, wp_list_of_set. intros pool Hpool Hnil.
      apply wp_bind. eapply wp_draws; [apply draws_choice; auto |].
      intros upid w2 Hupid Hf2. simpl. apply wp_ret. simpl. apply wp_ret.
      destruct (frame_trans _ _ _ Hf1 Hf2) as (Ho & Hu & Hk).
      apply HQ; try done.
      apply Hpool in Hupid. rewrite Hu. symmetry.
      by apply subseteq_union_1_L, singleton_subseteq_l.
    + apply wp_ret. simpl. by apply Hfresh.
  - apply wp_bind, wp_ret. simpl. apply Hfresh, frame_refl.
Qed.

Lemma wp_generate_sku allow_duplicate (Q : string → World G → Prop) w :
  (∀ sku w',
     set_order w' = set_order w →
     generated_upids w' = generated_upids w →
     generated_skus w' = {[sku]} ∪ generated_skus w →
     Q sku w') →
  wp (generate_sku allow_duplicate) Q w.
Proof.
  intros HQ. unfold generate_sku.
  apply wp_bind, wp_gets. simpl.
  assert (∀ w1, frame w w1 →
    wp (prefix ← random.choice ["TSH"; "PNT"; "JKT"; "DRS"];
        n ← random.randint 10000 99999;
        let sku := "SKU-" +:+ prefix +:+ "-" +:+ str n in
        _ ← modify (λ w, set_generated_skus ({[sku]} ∪ generated_skus w) w);
        ret sku) Q w1) as Hfresh.
  { intros w1 Hf1.
    apply wp_bind. eapply wp_draws; [by apply draws_choice |].
    intros prefix w2 _ Hf2. simpl.
    apply wp_bind. eapply wp_draws; [apply draws_randint; lia |].
    intros n w3 _ Hf3. simpl.
    destruct (frame_trans _ _ _ (frame_trans _ _ _ Hf1 Hf2) Hf3) as (Ho & Hu & Hk).
    apply wp_bind, wp_modify. simpl. apply wp_ret.
    apply HQ; simpl; congruence. }
  destruct (allow_duplicate && bool_decide (generated_skus w ≠ ∅)) eqn:Hdup.
  - apply andb_prop in Hdup as [-> Hne]. apply bool_decide_eq_true in Hne.
    apply wp_bind, wp_bind. eapply wp_draws; [apply draws_random |].
    intros r w1 _ Hf1. simpl.
    destruct (float_lt r (lit 3 10)).
    + apply wp_bind, wp_list_of_set. intros pool Hpool Hnil.
      apply wp_bind. eapply wp_draws; [apply draws_choice; auto |].
      intros sku w2 Hsku Hf2. simpl. apply wp_ret. simpl. apply wp_ret.
      destruct (frame_trans _ _ _ Hf1 Hf2) as (Ho & Hu & Hk).
      apply HQ; try done.
      apply Hpool in Hsku. rewrite Hk. symmetry.
      by apply subseteq_union_1_L, singleton_subseteq_l.
    + apply wp_ret. simpl. by apply Hfresh.
  - apply wp_bind, wp_ret. simpl. apply Hfresh, frame_refl.
Qed.

(** What a row's identifiers did to the identifier sets: either both are
    empty strings and the sets are as before (only when the row's error
    kind is "missing"), or each is in its set afterwards. *)
Definition ids_recorded (self : TestDataGenerator) (w w' : World G) (upid sku : string) : Prop :=
  (upid = "" ∧ sku = ""
   ∧ (scenario self = "missing_fields" ∨ scenario self = "mixed")
   ∧ generated_upids w' = generated_upids w
   ∧ generated_skus w' = generated_skus w)
  ∨ (generated_upids w' = {[upid]} ∪ generated_upids w
     ∧ generated_skus w' = {[sku]} ∪ generated_skus w
     ∧ (scenario self = "valid" → upid ≠ "")).

Lemma draws_bind_any {A B} (φ : B → Prop) (m : M (World G) A) (k : A → M (World G) B) :
  draws (λ _, True) m → (∀ a, draws φ (k a)) → draws φ (bind m k).
Proof. intros Hm Hk. eapply draws_bind; [exact Hm | auto]. Qed.

Lemma draws_any_choice {A} (seq : list A) : seq ≠ [] → draws (λ _, True) (random.choice seq).
Proof. intros. eapply draws_any. by apply draws_choice. Qed.

Lemma draws_any_and_then a (m : M (World G) bool) :
  draws (λ _, True) m → draws (λ _, True) (and_then a m).
Proof. intros. eapply draws_any. by eapply draws_and_then. Qed.

Lemma draws_any_randint a b : a ≤ b → draws (λ _, True) (random.randint a b).
Proof. intros. eapply draws_any. by apply draws_randint. Qed.

Lemma draws_any_ret {A} (a : A) : draws (λ _ : A, True) (ret a : M (World G) A).
Proof. by apply draws_ret. Qed.

Lemma draws_any_generate_product_name invalid :
  draws (λ _, True) (generate_product_name invalid).
Proof. eapply draws_any, draws_generate_product_name. Qed.

(** [draws_any_tac] shows that a block of statements only draws random
    numbers and cannot raise. *)
Ltac draws_any_step :=
  lazymatch goal with
  | |- draws _ (ret _) => apply draws_any_ret
  | |- draws _ (if _ then _ else _) => apply draws_if
  | |- draws _ (bind _ _) => apply draws_bind_any; [| intros ?]
  | |- draws _ (chance _) => apply draws_chance
  | |- draws _ random.random => apply draws_random
  | |- draws _ (and_then _ _) => apply draws_any_and_then
  | |- draws _ (generate_description _) => apply draws_generate_description
  | |- draws _ (generate_url _) => apply draws_generate_url
  | |- draws _ (generate_product_name _) => apply draws_any_generate_product_name
  | |- draws _ (random.choice _) => apply draws_any_choice; discriminate
  | |- draws _ (random.randint _ _) => apply draws_any_randint; lia
  end.

Ltac draws_any_tac := repeat draws_any_step.

(** [merge_frame H]: chains the frame [H] of the last statement onto the
    frame accumulated so far. *)
Ltac merge_frame H :=
  lazymatch type of H with
  | frame ?w1 ?w2 =>
      lazymatch goal with
      | Hprev : frame ?w0 w1 |- _ =>
          let Hn := fresh "Hframe" in
          pose proof (frame_trans _ _ _ Hprev H) as Hn; clear Hprev H
      end
  end.

(** [wp_any]: the next statement only draws random numbers; continue with
    its value and the state after it. *)
Ltac wp_any :=
  apply wp_bind; eapply wp_draws; [solve [draws_any_tac] |];
  let a := fresh "v" in let w' := fresh "w" in let Hf := fresh "Hf" in
  intros a w' _ Hf; merge_frame Hf; simpl.

(** [generate_row]: returns normally in every scenario; the record has the
    nineteen keys in column order, and its name and identifiers are as
    follows. *)
Lemma wp_generate_row self row_number (Q : Row → World G → Prop) w :
  (∀ row w' name upid sku,
     keys row = fieldnames →
     field row "product_name" = PStr name →
     field row "upid" = PStr upid →
     field row "sku" = PStr sku →
     set_order w' = set_order w →
     ids_recorded self w w' upid sku →
     (scenario self = "valid" → name ≠ "") →
     Q row w') →
  wp (generate_row self row_number) Q w.
Proof.
  intros HQ. unfold generate_row.
  (* the error disposition *)
  apply wp_bind. eapply wp_draws; [apply draws_error_disposition |].
  intros [should_have_error error_type] w1 (Hvalid & Hdup & _ & Hmiss & _) Hf1. simpl in *.
  (* UPID and SKU *)
  apply wp_bind. eapply wp_draws; [apply (draws_and_then _ _ (draws_chance _)) |].
  intros missing_ids w2 Hmissing_ids Hf2. simpl in Hmissing_ids. simpl.
  apply wp_bind. eapply wp_mono with
    (Q := λ ids w3, set_order w3 = set_order w ∧ ids_recorded self w w3 ids.1 ids.2).
  { destruct (frame_trans _ _ _ Hf1 Hf2) as (Ho & Hu & Hk). destruct missing_ids.
    - apply wp_ret. split; [done |]. left. simpl. auto 6.
    - apply wp_bind, wp_generate_upid. intros upid w3 Ho3 Hk3 Hu3 Hupid. simpl.
      apply wp_bind, wp_generate_sku. intros sku w4 Ho4 Hu4 Hk4. simpl.
      apply wp_ret. split; [congruence |]. right. simpl.
      split; [congruence |]. split; [congruence |].
      intros Hv. apply Hupid. by rewrite (Hvalid Hv). }
  intros [upid sku] w3 [Ho3 Hids]. simpl in Hids. simpl.
  (* product name *)
  apply wp_bind. eapply wp_draws; [apply (draws_and_then _ _ (draws_chance _)) |].
  intros missing_name w4 Hmissing_name Hf4. simpl in Hmissing_name. simpl.
  apply wp_bind. eapply wp_draws with (φ := λ name, scenario self = "valid" → name ≠ "").
  { destruct missing_name.
    - apply draws_ret. intros Hv. rewrite (Hvalid Hv) in Hmissing_name.
      by specialize (Hmissing_name eq_refl).
    - eapply draws_bind; [apply (draws_and_then _ _ (draws_chance _)) |].
      intros invalid Hinvalid. simpl in Hinvalid.
      eapply draws_weaken; [apply draws_generate_product_name |].
      intros name Hname Hv. apply Hname. rewrite (Hvalid Hv) in Hinvalid.
      destruct invalid; [by specialize (Hinvalid eq_refl) | done]. }
  intros product_name w5 Hname Hf5. merge_frame Hf5. clear Hf1 Hf2. simpl.
  (* optional fields *)
  do 11 wp_any.
  (* materials *)
  wp_any.
  apply wp_bind. eapply wp_draws; [apply draws_generate_materials_with |].
  intros composition wa [Hlen2 Hlen1] Hf. merge_frame Hf. simpl.
  (* care codes and eco claims *)
  wp_any.
  apply wp_bind. eapply wp_draws with (φ := λ k, 0 ≤ k ≤ 4).
  { apply draws_if; [| apply draws_ret; lia].
    eapply draws_weaken; [apply draws_randint; lia |]. simpl. lia. }
  intros num_care_codes wb Hcare Hf. merge_frame Hf. simpl.
  apply wp_bind. eapply wp_draws with (φ := λ _, True).
  { apply draws_if; [| by apply draws_ret].
    eapply draws_bind; [apply draws_sample; simpl; lia |]. intros codes _. by apply draws_ret. }
  intros care_codes wc _ Hf. merge_frame Hf. simpl.
  wp_any.
  apply wp_bind. eapply wp_draws with (φ := λ k, 0 ≤ k ≤ 3).
  { apply draws_if; [| apply draws_ret; lia].
    eapply draws_weaken; [apply draws_randint; lia |]. simpl. lia. }
  intros num_eco_claims wd Heco Hf. merge_frame Hf. simpl.
  apply wp_bind. eapply wp_draws with (φ := λ _, True).
  { apply draws_if; [| by apply draws_ret].
    eapply draws_bind; [apply draws_sample; simpl; lia |]. intros claims _. by apply draws_ret. }
  intros eco_claims we _ Hf. merge_frame Hf. simpl.
  do 2 wp_any.
  (* the record *)
  apply wp_bind, wp_index; [rewrite length_app, length_replicate; lia |]. intros material_1_name _. simpl.
  apply wp_bind, wp_index; [rewrite length_app, length_replicate; lia |]. intros material_1_percentage _. simpl.
  apply wp_bind, wp_index; [rewrite length_app, length_replicate; lia |]. intros material_2_name _. simpl.
  apply wp_bind, wp_index; [rewrite length_app, length_replicate; lia |]. intros material_2_percentage _. simpl.
  apply wp_bind, wp_index; [rewrite length_app, length_replicate; lia |]. intros material_3_name _. simpl.
  apply wp_bind, wp_index; [rewrite length_app, length_replicate; lia |]. intros material_3_percentage _. simpl.
  apply wp_ret.
  lazymatch goal with Hframe : frame w3 _ |- _ => destruct Hframe as (Ho & Hu & Hk) end.
  apply (HQ _ _ product_name upid sku); try done.
  - congruence.
  - destruct Hids as [(-> & -> & Hsc & Hu3 & Hk3) | (Hu3 & Hk3 & Hne)].
    + left. repeat split; try done; congruence.
    + right. repeat split; try done; congruence.
Qed.

(** [TestDataGenerator.__init__] empties both identifier sets and keeps the
    arguments; the seed it stores is the argument when that is truthy and a
    draw from [1, 1000000] otherwise. *)
Lemma wp_init scenario rows seed (Q : TestDataGenerator → World G → Prop) w :
  (∀ self w',
     GenerateTestData.scenario self = scenario →
     GenerateTestData.rows self = rows →
     (seed_truthy seed = true → Some (GenerateTestData.seed self) = seed) →
     (seed_truthy seed = false → 1 ≤ GenerateTestData.seed self ≤ 1000000) →
     random_state w' = rng_seed (GenerateTestData.seed self) →
     set_order w' = set_order w →
     generated_upids w' = ∅ → generated_skus w' = ∅ →
     Q self w') →
  wp (init scenario rows seed) Q w.
Proof.
  intros HQ. unfold init.
  apply wp_bind. eapply wp_draws with
    (φ := λ s, (seed_truthy seed = true → Some s = seed)
               ∧ (seed_truthy seed = false → 1 ≤ s ≤ 1000000)).
  { destruct seed as [s|]; simpl.
    - destruct (s =? 0) eqn:Hs; simpl.
      + eapply draws_weaken; [apply draws_randint; lia |]. simpl. intros z Hz. done.
      + apply draws_ret. done.
    - eapply draws_weaken; [apply draws_randint; lia |]. simpl. done. }
  intros s w1 [Hs1 Hs2] (Ho & _ & _). simpl.
  apply wp_bind, wp_modify. simpl.
  apply wp_bind, wp_modify. simpl.
  apply wp_bind, wp_modify. simpl.
  apply wp_ret. by apply HQ.
Qed.

(** A run returns one record per requested row, each as [wp_generate_row]
    describes it. *)
Lemma wp_generate self (φ : Row → Prop) (Q : list Row → World G → Prop) w :
  (∀ i w, wp (generate_row self i) (λ row _, φ row) w) →
  (∀ data w', length data = Z.to_nat (GenerateTestData.rows self) → Forall φ data → Q data w') →
  wp (generate self) Q w.
Proof.
  intros Hrow HQ. unfold generate.
  eapply wp_mono.
  { apply (wp_for_each _ _ (λ _, True) (λ _ row, φ row)); [done |].
    intros i w1 _ _. eapply wp_mono; [apply Hrow |]. simpl. auto. }
  intros data w' [Hdata _]. simpl. apply HQ.
  - apply Forall2_length in Hdata. unfold range in Hdata.
    by rewrite length_fmap, length_seq in Hdata.
  - clear HQ. induction Hdata; constructor; auto.
Qed.

End TestDataSpecs.

(* ===================================================================== *)
(** * generate_test_csvs.py: what each function returns *)
(* ===================================================================== *)

Section TestCsvsSpecs.
Context {G : Type} `{!PyRandom G}.
Import GenerateTestCsvs.

Lemma draws_above p : draws (λ _, True) (above p).
Proof.
  unfold above. eapply draws_bind; [apply draws_random |].
  intros r _. by apply draws_ret.
Qed.

Lemma draws_below p : draws (λ _, True) (below p).
Proof.
  unfold below. eapply draws_bind; [apply draws_random |].
  intros r _. by apply draws_ret.
Qed.

Lemma draws_csvs_generate_sku index : draws (λ sku, sku ≠ "") (generate_sku index).
Proof.
  unfold generate_sku. eapply draws_bind; [by apply draws_choice |].
  intros prefix _. by apply draws_ret.
Qed.

Lemma draws_csvs_generate_product_name : draws (λ name, name ≠ "") generate_product_name.
Proof.
  unfold generate_product_name.
  eapply draws_bind; [by apply draws_choice |]. intros style _.
  eapply draws_bind; [by apply draws_choice |]. intros material _.
  eapply draws_bind; [by apply draws_choice |]. intros product _.
  apply draws_ret. auto using append_nonempty_r.
Qed.

Lemma draws_csvs_generate_description : draws (λ _, True) generate_description.
Proof.
  unfold generate_description.
  eapply draws_bind; [by apply draws_choice |]. intros template _.
  eapply draws_bind; [by apply draws_choice |]. intros material _.
  eapply draws_bind; [by apply draws_choice |]. intros product _.
  eapply draws_bind; [by apply draws_choice |]. intros season _.
  eapply draws_bind; [by apply draws_choice |]. intros style _.
  by apply draws_ret.
Qed.

Lemma draws_generate_image_url product_id : draws (λ _, True) (generate_image_url product_id).
Proof.
  unfold generate_image_url.
  eapply draws_bind; [by apply draws_choice |]. intros domain _.
  by apply draws_ret.
Qed.

Lemma draws_if_included (condition : bool) (value : M (World G) string) φ :
  draws φ value → draws (λ _, True) (if_included condition value).
Proof.
  intros Hv. unfold if_included. destruct condition.
  - by eapply draws_any.
  - by apply draws_ret.
Qed.

Lemma draws_joined_sample (population : list string) (a b : Z) :
  a ≤ b → 0 ≤ a → b ≤ Z.of_nat (length population) →
  draws (λ _, True)
    (k ← random.randint a b; l ← random.sample population k; ret (str_join "," l)).
Proof.
  intros Hab Ha Hb.
  eapply draws_bind; [by apply draws_randint |]. intros k Hk. simpl in Hk.
  eapply draws_bind; [apply draws_sample; lia |]. intros l _.
  by apply draws_ret.
Qed.

(** What every base row is: the nineteen columns in order, the UPID of its
    index, and a name and a SKU that are not empty. *)
Definition base_row_of (index : Z) (row : Row) : Prop :=
  keys row = get_base_headers
  ∧ field row "upid" = PStr (generate_upid index)
  ∧ (∃ name, field row "product_name" = PStr name ∧ name ≠ "")
  ∧ (∃ sku, field row "sku" = PStr sku ∧ sku ≠ "").

Lemma draws_generate_base_row index use_valid_values :
  draws (base_row_of index) (generate_base_row index use_valid_values).
Proof.
  unfold generate_base_row.
  do 9 (apply draws_bind_any; [apply draws_above | intros ?]).
  eapply draws_bind; [apply draws_csvs_generate_product_name |]. intros name Hname.
  eapply draws_bind; [apply draws_csvs_generate_sku |]. intros sku Hsku.
  simpl in Hname, Hsku.
  apply draws_bind_any; [eapply draws_if_included, draws_csvs_generate_description | intros ?].
  apply draws_bind_any; [eapply draws_if_included, draws_choice; by destruct use_valid_values | intros ?].
  apply draws_bind_any; [eapply draws_if_included, draws_choice; done | intros ?].
  apply draws_bind_any; [eapply draws_if_included, draws_generate_image_url | intros ?].
  apply draws_bind_any; [eapply draws_if_included, draws_choice; by destruct use_valid_values | intros ?].
  apply draws_bind_any; [eapply draws_if_included, draws_choice; by destruct use_valid_values | intros ?].
  apply draws_bind_any; [apply draws_any_and_then, draws_above | intros ?].
  apply draws_bind_any; [eapply draws_if_included, draws_generate_image_url | intros ?].
  apply draws_bind_any; [by apply draws_any_choice | intros ?].
  apply draws_bind_any; [by apply draws_any_choice | intros ?].
  apply draws_bind_any; [apply draws_above | intros ?].
  apply draws_bind_any; [eapply draws_if_included, draws_choice; done | intros ?].
  apply draws_bind_any; [apply draws_above | intros ?].
  apply draws_bind_any.
  { eapply draws_if_included. eapply draws_bind; [by apply draws_choice |].
    intros p _. by apply (draws_ret (λ _, True)). }
  intros ?.
  apply draws_bind_any; [eapply draws_if_included, draws_joined_sample; simpl; lia | intros ?].
  apply draws_bind_any; [eapply draws_if_included, draws_joined_sample; simpl; lia | intros ?].
  apply draws_bind_any.
  { eapply draws_if_included. eapply draws_bind; [apply draws_randint; lia |].
    intros p _. by apply (draws_ret (λ _, True)). }
  intros ?.
  apply draws_ret. unfold base_row_of. simpl. eauto 10.
Qed.

End TestCsvsSpecs.

(* ===================================================================== *)
(** * Records *)
(* ===================================================================== *)

Lemma keys_dict_set key v (row : Row) : key ∈ keys row → keys (dict_set key v row) = keys row.
Proof.
  unfold keys. induction row as [|[k x] row IH]; intros Hin.
  - by apply elem_of_nil in Hin.
  - cbn [dict_set]. rewrite fmap_cons in Hin. cbn [fst] in Hin.
    destruct (String.eqb_spec k key) as [-> | Hne]; rewrite !fmap_cons; [done |].
    apply elem_of_cons in Hin as [-> | Hin]; [done |]. cbn [fst]. by rewrite IH.
Qed.

Lemma field_dict_set key v (row : Row) : key ∈ keys row → field (dict_set key v row) key = v.
Proof.
  unfold keys, field, dict_get. induction row as [|[k x] row IH]; intros Hin.
  - by apply elem_of_nil in Hin.
  - cbn [dict_set]. rewrite fmap_cons in Hin. cbn [fst] in Hin.
    destruct (String.eqb_spec k key) as [-> | Hne]; cbn [find fst].
    + by rewrite String.eqb_refl.
    + apply elem_of_cons in Hin as [-> | Hin]; [done |].
      apply String.eqb_neq in Hne. rewrite Hne. auto.
Qed.

Lemma field_dict_set_ne key key' v (row : Row) :
  key ≠ key' → field (dict_set key v row) key' = field row key'.
Proof.
  intros Hne. unfold field, dict_get. apply String.eqb_neq in Hne.
  induction row as [|[k x] row IH]; cbn [dict_set find fst].
  - by rewrite Hne.
  - destruct (String.eqb_spec k key) as [-> | Hk]; cbn [find fst].
    + by rewrite Hne.
    + destruct (String.eqb k key'); [done | exact IH].
Qed.

Section RecordKeys.
Context {G : Type} `{!PyRandom G}.
Import GenerateTestCsvs.

(** Overwriting columns of a base row leaves its columns as they are. *)
Lemma base_keys_dict_set key v row :
  keys row = get_base_headers → key ∈ get_base_headers →
  keys (dict_set key v row) = get_base_headers.
Proof. intros Hk Hin. rewrite keys_dict_set; [done | by rewrite Hk]. Qed.

Lemma in_base_headers key : bool_decide (key ∈ get_base_headers) = true → key ∈ get_base_headers.
Proof. apply bool_decide_eq_true. Qed.

Ltac base_keys :=
  repeat (apply base_keys_dict_set; [| by apply in_base_headers]); try done.

Lemma draws_valid_row i : draws (λ row, keys row = get_base_headers) (valid_row i).
Proof.
  eapply draws_weaken; [apply draws_generate_base_row |]. by intros row (? & _).
Qed.

Lemma draws_unmapped_row i : draws (λ row, keys row = get_base_headers) (unmapped_row i).
Proof.
  eapply draws_weaken; [apply draws_generate_base_row |]. by intros row (? & _).
Qed.

Lemma draws_duplicates_row i :
  draws (λ row, keys row = get_base_headers
                ∧ field row "upid" = PStr (generate_upid
                     (if (0 <? i) && (i mod 100 =? 0) then i - 50 else i)))
    (duplicates_row i).
Proof.
  unfold duplicates_row.
  eapply draws_bind; [apply draws_generate_base_row |]. intros row (Hkeys & Hupid & _).
  destruct ((0 <? i) && (i mod 100 =? 0)).
  - eapply draws_bind; [apply draws_csvs_generate_sku |]. intros sku _.
    apply draws_ret. split; [base_keys |].
    rewrite field_dict_set_ne by done. apply field_dict_set. rewrite Hkeys. by apply in_base_headers.
  - by apply draws_ret.
Qed.

Lemma draws_missing_required_row i :
  draws (λ row, keys row = get_base_headers) (missing_required_row i).
Proof.
  unfold missing_required_row.
  eapply draws_bind; [apply draws_generate_base_row |]. intros row (Hkeys & _).
  repeat apply draws_if; apply draws_ret; base_keys.
Qed.

Lemma draws_field_length_violations_row i :
  draws (λ row, keys row = get_base_headers) (field_length_violations_row i).
Proof.
  unfold field_length_violations_row.
  eapply draws_bind; [apply draws_generate_base_row |]. intros row (Hkeys & _).
  repeat apply draws_if; apply draws_ret; base_keys.
Qed.

Lemma draws_mixed_errors_row i :
  draws (λ row, keys row = get_base_headers) (mixed_errors_row i).
Proof.
  unfold mixed_errors_row.
  apply draws_bind_any; [apply draws_above |]. intros use_valid.
  eapply draws_bind; [apply draws_generate_base_row |]. intros row (Hkeys & _).
  apply draws_bind_any; [apply draws_random |]. intros error_roll.
  repeat apply draws_if; try (apply draws_ret; base_keys).
  - apply draws_bind_any; [apply draws_any_randint; lia |]. intros back.
    apply draws_ret. base_keys.
  - apply draws_bind_any; [apply draws_above |]. intros first.
    apply draws_if; apply draws_ret; base_keys.
  - apply draws_bind_any; [apply draws_above |]. intros first.
    apply draws_if; apply draws_ret; base_keys.
Qed.

Lemma draws_minimal_row i : draws (λ row, keys row = get_base_headers) (minimal_row i).
Proof.
  unfold minimal_row.
  apply draws_bind_any; [eapply draws_any, draws_csvs_generate_product_name |]. intros name.
  apply draws_bind_any; [eapply draws_any, draws_csvs_generate_sku |]. intros sku.
  apply draws_bind_any; [by apply draws_any_choice |]. intros material.
  apply draws_ret. base_keys.
Qed.

Lemma draws_large_mixed_row i : draws (λ row, keys row = get_base_headers) (large_mixed_row i).
Proof.
  unfold large_mixed_row.
  apply draws_bind_any; [apply draws_below |]. intros use_valid.
  eapply draws_weaken; [apply draws_generate_base_row |]. by intros row (? & _).
Qed.

(** The record written under the renamed headers has those as its keys,
    and under each the value of the column it renames. *)
Lemma draws_wrong_headers_row i :
  draws (λ row, keys row = wrong_headers) (wrong_headers_row i).
Proof.
  unfold wrong_headers_row.
  eapply draws_bind; [apply draws_generate_base_row |]. intros row _.
  by apply draws_ret.
Qed.

End RecordKeys.

(* ===================================================================== *)
(** * Properties of the records *)
(* ===================================================================== *)

Section Properties.
Context {G : Type} `{!PyRandom G}.
Import GenerateTestData GenerateTestCsvs.

Lemma truthy_nonempty (s : string) : s ≠ "" → truthy (PStr s) = true.
Proof. intros Hs. simpl. by destruct (String.eqb_spec s ""). Qed.

(** C8, as the code has it.  The records of [generate_row], for every
    scenario, row number and state of the generator, those of
    [generate_base_row], for every index and either catalogue, and those of
    every loop of generate_test_csvs.py that writes under the standard
    headers, have exactly the nineteen field names as their keys, in
    column order.  (Values may be empty strings.)  The records that
    [generate_wrong_headers_csv] writes are the exception: their keys are
    the nineteen renamed headers, none of which is a field name. *)
Theorem records_have_the_standard_or_the_renamed_keys :
  (∀ (self : TestDataGenerator) (row_number : Z) (w : World G),
     wp (generate_row self row_number) (λ row _, keys row = fieldnames) w)
  ∧ (∀ (index : Z) (use_valid_values : bool) (w : World G),
       wp (generate_base_row index use_valid_values)
          (λ row _, keys row = get_base_headers) w)
  ∧ Forall (λ body : Z → M (World G) Row,
              ∀ i w, wp (body i) (λ row _, keys row = get_base_headers) w)
      [valid_row; duplicates_row; unmapped_row; missing_required_row;
       field_length_violations_row; mixed_errors_row; minimal_row; large_mixed_row]
  ∧ (∀ (i : Z) (w : World G),
       wp (wrong_headers_row i) (λ row _, keys row = wrong_headers) w)
  ∧ get_base_headers = fieldnames
  ∧ length fieldnames = 19%nat
  ∧ NoDup fieldnames
  ∧ length wrong_headers = 19%nat
  ∧ NoDup wrong_headers
  ∧ Forall (λ key, key ∉ fieldnames) wrong_headers.
Proof.
  split; [| split; [| split; [| split; [| split; [| split; [| split; [| split; [| split]]]]]]]].
  - intros self row_number w. apply wp_generate_row. auto.
  - intros index use_valid_values w.
    eapply wp_draws; [apply draws_generate_base_row |]. by intros row w' (? & _) _.
  - repeat constructor; intros i w.
    + eapply wp_draws; [apply draws_valid_row |]. auto.
    + eapply wp_draws; [apply draws_duplicates_row |]. by intros row w' (? & _) _.
    + eapply wp_draws; [apply draws_unmapped_row |]. auto.
    + eapply wp_draws; [apply draws_missing_required_row |]. auto.
    + eapply wp_draws; [apply draws_field_length_violations_row |]. auto.
    + eapply wp_draws; [apply draws_mixed_errors_row |]. auto.
    + eapply wp_draws; [apply draws_minimal_row |]. auto.
    + eapply wp_draws; [apply draws_large_mixed_row |]. auto.
  - intros i w. eapply wp_draws; [apply draws_wrong_headers_row |]. auto.
  - reflexivity.
  - reflexivity.
  - apply (bool_decide_unpack _). vm_compute. exact I.
  - reflexivity.
  - apply (bool_decide_unpack _). vm_compute. exact I.
  - apply (bool_decide_unpack _). vm_compute. exact I.
Qed.

(** C3. In scenario "valid" no record lacks both identifiers and none
    lacks its name, for every row count, seed argument and state of the
    process; the same holds of the rows of [generate_valid_csv], for every
    row count and state. *)
Theorem valid_rows_have_name_and_identifier :
  (∀ (rows : Z) (seed : option Z) (w : World G),
     wp (run "valid" rows seed)
        (λ data _, length data = Z.to_nat rows
                   ∧ Forall (λ row, missing_upid_sku row = false
                                    ∧ missing_name row = false) data) w)
  ∧ (∀ (num_rows : Z) (w : World G),
       wp (rows_of valid_row num_rows)
          (λ data _, length data = Z.to_nat num_rows
                     ∧ Forall (λ row, missing_upid_sku row = false
                                      ∧ missing_name row = false) data) w).
Proof.
  split.
  - intros rows seed w. unfold run.
    apply wp_bind, wp_init. intros self w1 Hscenario Hrows _ _ _ _ _ _.
    eapply wp_generate with
      (φ := λ row, missing_upid_sku row = false ∧ missing_name row = false).
    + intros i w2. apply wp_generate_row.
      intros row w3 name upid sku _ Hname Hupid _ _ Hids Hvalid.
      unfold missing_upid_sku, missing_name. rewrite Hname, Hupid.
      rewrite (truthy_nonempty name) by auto.
      destruct Hids as [(_ & _ & [Hs | Hs] & _) | (_ & _ & Hne)]; [congruence.. |].
      by rewrite (truthy_nonempty upid) by auto.
    + intros data w' Hlen Hdata. by rewrite <- Hrows.
  - intros num_rows w. unfold rows_of.
    eapply wp_mono.
    { apply (wp_for_each _ _ (λ _, True)
               (λ _ row, missing_upid_sku row = false ∧ missing_name row = false)); [done |].
      intros i w1 _ _. eapply wp_draws; [apply draws_generate_base_row |].
      intros row w2 (_ & Hupid & (name & Hname & Hne) & _) _. split; [| done].
      unfold missing_upid_sku, missing_name. rewrite Hname, Hupid.
      by rewrite (truthy_nonempty name) by done. }
    intros data w' [Hdata _]. split.
    + apply Forall2_length in Hdata. unfold range in Hdata.
      by rewrite length_fmap, length_seq in Hdata.
    + clear -Hdata. induction Hdata; constructor; auto.
Qed.

(** The draws of [random.random()] that fall below 0.2, and below 0.1:
    the comparison with the float literal is a comparison of the 53-bit
    numerator with a constant. *)
Lemma below_fifth (k : Z) :
  float_lt (Qmake k (2 ^ 53)) (lit 2 10) = (k <? 1801439850948199).
Proof.
  unfold float_lt. replace (lit 2 10) with (Qmake 7205759403792794 (2 ^ 55)) by (by vm_compute).
  unfold Qcompare. cbn [Qnum Qden].
  destruct (Z.compare_spec (k * Z.pos (2 ^ 55)) (7205759403792794 * Z.pos (2 ^ 53)));
    symmetry; [apply Z.ltb_ge | apply Z.ltb_lt | apply Z.ltb_ge]; lia.
Qed.

Lemma below_tenth (k : Z) :
  float_lt (Qmake k (2 ^ 53)) (lit 1 10) = (k <? 900719925474100).
Proof.
  unfold float_lt. replace (lit 1 10) with (Qmake 7205759403792794 (2 ^ 56)) by (by vm_compute).
  unfold Qcompare. cbn [Qnum Qden].
  destruct (Z.compare_spec (k * Z.pos (2 ^ 56)) (7205759403792794 * Z.pos (2 ^ 53)));
    symmetry; [apply Z.ltb_ge | apply Z.ltb_lt | apply Z.ltb_ge]; lia.
Qed.

(** C4. The error disposition of a row, by scenario, in terms of the
    53-bit draw [k] behind [random.random()] and the index [i] that
    [random.choice] draws among three: "duplicates" decides by
    [row_number > 10] and never draws; "missing_fields" and
    "invalid_formats" decide by [k / 2^53 < 0.2], which holds for
    1801439850948199 of the 2^53 values of [k]; "mixed" decides by
    [k / 2^53 < 0.1], which holds for 900719925474100 of them, and takes
    the kind at index [i] of duplicate, missing, invalid; "valid" has no
    error and no kind.  The draw [k] ranges over [0, 2^53) and the index
    [i] over [0, 3); the generator is taken to draw each uniformly. *)
Theorem error_disposition_by_scenario (rows seed row_number : Z) (w : World G) :
  let self := λ name, {| scenario := name; GenerateTestData.rows := rows;
                         GenerateTestData.seed := seed |} in
  let '(k, g) := rng_random (random_state w) in
  let '(i, g') := rng_randbelow 3 g in
  error_disposition (self "duplicates") row_number w
    = (Ok (10 <? row_number, Some "duplicate"), w)
  ∧ error_disposition (self "missing_fields") row_number w
    = (Ok (k <? 1801439850948199, Some "missing"), set_random_state g w)
  ∧ error_disposition (self "invalid_formats") row_number w
    = (Ok (k <? 1801439850948199, Some "invalid"), set_random_state g w)
  ∧ error_disposition (self "mixed") row_number w
    = (Ok (k <? 900719925474100, ["duplicate"; "missing"; "invalid"] !! Z.to_nat i),
       set_random_state g' w)
  ∧ error_disposition (self "valid") row_number w = (Ok (false, None), w)
  ∧ 0 ≤ k < 2 ^ 53
  ∧ 0 ≤ i < 3
  ∧ 0 < 5 * 1801439850948199 - 2 ^ 53 < 5
  ∧ 0 < 10 * 900719925474100 - 2 ^ 53 < 10.
Proof.
  intros self.
  pose proof (rng_random_range (random_state w)) as Hrange.
  destruct (rng_random (random_state w)) as [k g] eqn:Hk. simpl in Hrange.
  pose proof (rng_randbelow_range 3 g ltac:(lia)) as Hi.
  destruct (rng_randbelow 3 g) as [i g'] eqn:Hi'. simpl in Hi.
  repeat split; try lia.
  - unfold error_disposition, self, bind, random.random, ret. simpl.
    by rewrite Hk, below_fifth.
  - unfold error_disposition, self, bind, random.random, ret. simpl.
    by rewrite Hk, below_fifth.
  - unfold error_disposition, self, random.choice, random.random,
      random.randbelow, index, bind, ret. simpl.
    rewrite Hk. simpl. change (Z.of_nat 3) with 3. rewrite Hi'. rewrite below_tenth.
    assert (i = 0 ∨ i = 1 ∨ i = 2) as [-> | [-> | ->]] by lia; reflexivity.
Qed.

(** C10. Every entry of [MATERIALS] is a 2-tuple, so [generate_materials]
    without the invalid flag always takes its first branch: whatever stands
    in the [else] branch, it returns normally one name and one percentage,
    and they are the two components of the entry that [random.choice]
    drew, the one at the index [i] that the generator gives below the
    length of the table.  Nothing else is drawn: the state left is the one
    after that draw.  The branch that rescales several materials is never
    run. *)
Theorem generate_materials_returns_one_pair :
  Forall (λ m, is_pair m = true) GenerateTestData.MATERIALS
  ∧ ∀ (otherwise : M (World G) (list pyval * list pyval)) (w : World G),
      let '(i, g) := rng_randbelow (Z.of_nat (length GenerateTestData.MATERIALS))
                       (random_state w) in
      ∃ name percentage,
        GenerateTestData.MATERIALS !! Z.to_nat i = Some [name; percentage]
        ∧ random.choice GenerateTestData.MATERIALS w
          = (Ok [name; percentage], set_random_state g w)
        ∧ generate_materials_with otherwise false w
          = (Ok ([name], [percentage]), set_random_state g w)
        ∧ generate_materials false w
          = (Ok ([name], [percentage]), set_random_state g w).
Proof.
  split; [apply MATERIALS_pairs |].
  intros otherwise w.
  pose proof (rng_randbelow_range (Z.of_nat (length GenerateTestData.MATERIALS))
                (random_state w) ltac:(simpl; lia)) as Hi.
  destruct (rng_randbelow _ (random_state w)) as [i g] eqn:Hdraw. simpl in Hi.
  destruct (lookup_lt_is_Some_2 GenerateTestData.MATERIALS (Z.to_nat i) ltac:(simpl; lia))
    as [combo Hcombo].
  pose proof (proj1 (Forall_forall _ _) MATERIALS_pairs combo
                (list_elem_of_lookup_2 _ _ _ Hcombo)) as Hpair.
  assert (random.choice GenerateTestData.MATERIALS w = (Ok combo, set_random_state g w))
    as Hchoice.
  { unfold random.choice, GenerateTestData.MATERIALS at 1, bind, random.randbelow.
    rewrite Hdraw. unfold index.
    destruct (Z.ltb_spec i 0); [lia |]. by rewrite Hcombo. }
  destruct combo as [|name [|percentage [|]]]; try discriminate.
  exists name, percentage. split; [done |]. split; [done |].
  assert (∀ branch, generate_materials_with branch false w
                    = (Ok ([name], [percentage]), set_random_state g w)) as Hfirst.
  { intros branch. unfold generate_materials_with, bind. by rewrite Hchoice. }
  split; [apply Hfirst |]. apply Hfirst.
Qed.

End Properties.

(** C8, refuted as stated: the first record that
    [generate_wrong_headers_csv] writes has nineteen keys, ProductName
    through EnvScore, and not one of them is among the nineteen field
    names. *)
Lemma wrong_headers_record_has_no_field_name :
  ∃ row,
    (GenerateTestCsvs.wrong_headers_row 0 (cpython 0)).1 = Ok row
    ∧ keys row = GenerateTestCsvs.wrong_headers
    ∧ length (keys row) = 19%nat
    ∧ keys row ≠ GenerateTestData.fieldnames
    ∧ Forall (λ key, key ∉ GenerateTestData.fieldnames) (keys row).
Proof.
  destruct (GenerateTestCsvs.wrong_headers_row 0 (cpython 0)) as [[row | e] w] eqn:Hrow;
    [| by vm_compute in Hrow].
  exists row. split; [done |].
  assert (keys row = GenerateTestCsvs.wrong_headers) as Hkeys.
  { apply (f_equal fst) in Hrow. vm_compute in Hrow. by injection Hrow as <-. }
  rewrite Hkeys. split; [done |]. split; [done |]. split; [done |].
  apply (bool_decide_unpack _). vm_compute. exact I.
Qed.

(** C2, at a concrete run: [--scenario valid --rows 1 --seed 1] yields one
    record whose only material is Wool at 80 percent; the other two slots
    are empty, and the percentages sum to 80. *)
Theorem valid_row_with_80_percent :
  (λ row, (field row "material_1_name", field row "material_1_percentage",
           field row "material_2_percentage", field row "material_3_percentage",
           percentage_total row))
    <$> records (run "valid" 1 (Some 1) (cpython 0))
  = [(PStr "Wool", PInt 80, PStr "", PStr "", 80)].
Proof. vm_compute. reflexivity. Qed.

(** C9. A [seed] argument of 0 is treated as no seed at all:
    [__init__] with [seed=0] is [__init__] with [seed=None], the seed it
    stores is drawn from [1, 1000000] out of the generator's state at that
    moment, and two processes that differ in that state produce different
    records from the same arguments with seed 0. *)
Theorem seed_zero_is_no_seed :
  (∀ G (R : PyRandom G) scenario rows (w : World G),
     GenerateTestData.init scenario rows (Some 0) w
     = GenerateTestData.init scenario rows None w)
  ∧ (∀ G (R : PyRandom G) scenario rows (w : World G),
       wp (GenerateTestData.init scenario rows (Some 0))
          (λ self w', 1 ≤ GenerateTestData.seed self ≤ 1000000
                      ∧ random_state w' = rng_seed (GenerateTestData.seed self)) w)
  ∧ column "upid" (records (run "valid" 1 (Some 0) (cpython 7))) = [PStr "UPID-474285"]
  ∧ column "upid" (records (run "valid" 1 (Some 0) (cpython 8))) = [PStr "UPID-984813"].
Proof.
  split; [| split; [| split]].
  - reflexivity.
  - intros G R scenario rows w. apply wp_init.
    intros self w' _ _ _ Hseed Hstate _ _ _. split; [by apply Hseed | done].
  - vm_compute. reflexivity.
  - vm_compute. reflexivity.
Qed.



(** A loop establishes [J] of the list of values it has collected so far
    and the state it has reached. *)
Lemma wp_for_each_acc {S A B} (xs : list A) (body : A → M S B)
    (J : list B → S → Prop) (acc : list B) s :
  J acc s →
  (∀ x bs s, J bs s → wp (body x) (λ b s', J (bs ++ [b]) s') s) →
  wp (for_each xs body) (λ bs s', J (acc ++ bs) s' ∧ length bs = length xs) s.
Proof.
  revert acc s. induction xs as [|x xs IH]; intros acc s HJ Hbody; simpl.
  - apply wp_ret. by rewrite app_nil_r.
  - apply wp_bind. eapply wp_mono; [by apply Hbody |].
    intros b s1 Hb. simpl.
    apply wp_bind. eapply wp_mono; [by apply (IH (acc ++ [b])) |].
    intros bs s2 [Hbs Hlen]. simpl. apply wp_ret.
    rewrite <- app_assoc in Hbs. simpl in Hbs. split; [done | by rewrite length_cons, Hlen].
Qed.

Lemma range_lookup (n : Z) (i : nat) : Z.of_nat i < n → range n !! i = Some (Z.of_nat i).
Proof.
  intros Hi. unfold range. rewrite list_lookup_fmap, lookup_seq_lt by lia. done.
Qed.

Lemma wp_random_exact {G} `{!PyRandom G} (Q : Q → World G → Prop) w k g :
  rng_random (random_state w) = (k, g) →
  Q (Qmake k (2 ^ 53)) (set_random_state g w) → wp random.random Q w.
Proof.
  intros Hk HQ. exists (Qmake k (2 ^ 53)), (set_random_state g w).
  unfold random.random. by rewrite Hk.
Qed.

Lemma list_to_set_snoc (l : list string) (x : string) :
  list_to_set (l ++ [x]) =@{gset string} {[x]} ∪ list_to_set l.
Proof.
  rewrite list_to_set_app_L. simpl. rewrite union_empty_r_L. apply union_comm_L.
Qed.

Section Duplicates.
Context {G : Type} `{!PyRandom G}.

(** C6, as the code has it.  In generate_test_csvs.py the duplicates file
    repeats, at every row that is a positive multiple of 100, the UPID of
    the row 50 back: with more than 100 rows, rows 50 and 100 carry the
    same UPID, whatever the generator draws.  In generate-test-data.py the
    two sets hold exactly the identifiers emitted so far, and a row
    re-emits a recorded identifier when the set is not empty and the draw
    [k / 2^53] falls below 0.3: a repeat is possible from the second row
    on, and nothing forces one. *)
Theorem duplicates_by_back_reference_and_by_resampling :
  (∀ (num_rows : Z) (w : World G),
     100 < num_rows →
     wp (GenerateTestCsvs.rows_of GenerateTestCsvs.duplicates_row num_rows)
        (λ data _, ∃ row50 row100,
           data !! 50%nat = Some row50 ∧ data !! 100%nat = Some row100
           ∧ field row50 "upid" = PStr "UPID-100050"
           ∧ field row100 "upid" = PStr "UPID-100050") w)
  ∧ (∀ (rows : Z) (seed : option Z) (w : World G),
       wp (run "duplicates" rows seed)
          (λ data w', length data = Z.to_nat rows
                      ∧ generated_upids w' = list_to_set (identifiers "upid" data)
                      ∧ generated_skus w' = list_to_set (identifiers "sku" data)) w)
  ∧ (∀ (w : World G) (k : Z) (g : G),
       generated_upids w ≠ ∅ →
       rng_random (random_state w) = (k, g) →
       float_lt (Qmake k (2 ^ 53)) (lit 3 10) = true →
       wp (GenerateTestData.generate_upid true)
          (λ upid w', upid ∈ generated_upids w
                      ∧ generated_upids w' = generated_upids w) w).
Proof.
  split; [| split].
  - intros num_rows w Hn. unfold GenerateTestCsvs.rows_of.
    eapply wp_mono.
    { apply (wp_for_each _ _ (λ _, True)
        (λ i row, field row "upid" = PStr (GenerateTestCsvs.generate_upid
                    (if (0 <? i) && (i mod 100 =? 0) then i - 50 else i)))); [done |].
      intros i w1 _ _. eapply wp_draws; [apply draws_duplicates_row |].
      by intros row w2 [_ Hupid] _. }
    intros data w' [Hdata _]. simpl.
    destruct (Forall2_lookup_l _ _ _ 50%nat 50 Hdata) as (row50 & H50 & Hu50);
      [apply (range_lookup _ 50); lia |].
    destruct (Forall2_lookup_l _ _ _ 100%nat 100 Hdata) as (row100 & H100 & Hu100);
      [apply (range_lookup _ 100); lia |].
    exists row50, row100. auto.
  - intros rows seed w. unfold run.
    apply wp_bind, wp_init. intros self w1 Hscenario Hrows _ _ _ _ Hu Hk.
    unfold GenerateTestData.generate.
    eapply wp_mono.
    { apply (wp_for_each_acc _ _
        (λ data w', generated_upids w' = list_to_set (identifiers "upid" data)
                    ∧ generated_skus w' = list_to_set (identifiers "sku" data)) []).
      { by rewrite Hu, Hk. }
      intros i data w2 [Hu2 Hk2]. apply wp_generate_row.
      intros row w3 name upid sku _ _ Hupid Hsku _ Hids _.
      destruct Hids as [(_ & _ & [Hs | Hs] & _) | (Hu3 & Hk3 & _)]; [congruence.. |].
      unfold identifiers, column in *. rewrite !fmap_app. simpl.
      rewrite !list_to_set_snoc, Hupid, Hsku, Hu3, Hk3, Hu2, Hk2. done. }
    intros data w' [[Hu' Hk'] Hlen]. simpl in *. split; [| done].
    unfold range in Hlen. rewrite length_fmap, length_seq in Hlen. by rewrite <- Hrows.
  - intros w k g Hne Hk Hlt. unfold GenerateTestData.generate_upid.
    apply wp_bind, wp_gets. simpl.
    rewrite bool_decide_true by done.
    apply wp_bind, wp_bind. eapply wp_random_exact; [exact Hk |]. simpl. rewrite Hlt.
    apply wp_bind, wp_list_of_set. intros pool Hpool Hnil.
    apply wp_bind. eapply wp_draws; [apply draws_choice; auto |].
    intros upid w2 Hupid (_ & Hu2 & _). simpl. apply wp_ret. simpl. apply wp_ret.
    split; [by apply Hpool | done].
Qed.

End Duplicates.

(** C6, applied: the duplicates file of generate_test_csvs.py, at its
    10000 rows. *)
Lemma duplicates_file_has_a_repeated_upid :
  100 < GenerateTestCsvs.NUM_ROWS
  ∧ wp (GenerateTestCsvs.rows_of GenerateTestCsvs.duplicates_row GenerateTestCsvs.NUM_ROWS)
       (λ data _, ∃ row50 row100,
          data !! 50%nat = Some row50 ∧ data !! 100%nat = Some row100
          ∧ field row50 "upid" = PStr "UPID-100050"
          ∧ field row100 "upid" = PStr "UPID-100050") (cpython 0).
Proof.
  split; [reflexivity |].
  apply (proj1 duplicates_by_back_reference_and_by_resampling). reflexivity.
Defined.

(** C6, refuted as stated: [--scenario duplicates --rows 11 --seed 867]
    yields eleven records with eleven different UPIDs and eleven different
    SKUs. *)
Lemma duplicates_run_without_a_repeat :
  let data := records (run "duplicates" 11 (Some 867) (cpython 0)) in
  length data = 11%nat
  ∧ NoDup (column "upid" data)
  ∧ NoDup (column "sku" data).
Proof.
  split; [by vm_compute |].
  split; apply (bool_decide_unpack _); vm_compute; exact I.
Qed.

(* ===================================================================== *)
(** * Strings *)
(* ===================================================================== *)

Lemma append_cons (c : ascii) (a b : string) : String c a +:+ b = String c (a +:+ b).
Proof. reflexivity. Qed.








(** [str] loses nothing: the decimal text of an [int] reads back as it. *)
Lemma to_int_not_nil (z : Z) :
  Z.to_int z ≠ Decimal.Pos Decimal.Nil ∧ Z.to_int z ≠ Decimal.Neg Decimal.Nil.
Proof.
  destruct z as [|p|p]; simpl; split; try discriminate;
    intros [= Hp]; by apply DecimalPos.Unsigned.to_uint_nonnil in Hp.
Qed.

Lemma int_of_str (z : Z) : Z.of_int <$> NilZero.int_of_string (str z) = Some z.
Proof.
  unfold str. destruct (to_int_not_nil z) as [Hp Hn].
  rewrite NilZero.isi by done. simpl. by rewrite DecimalZ.of_to.
Qed.

Lemma str_inj (a b : Z) : str a = str b → a = b.
Proof.
  intros H. pose proof (int_of_str a) as Ha. rewrite H, int_of_str in Ha. by injection Ha.
Qed.


(* ===================================================================== *)
(** * [random.sample] selects without repetition *)
(* ===================================================================== *)

Lemma insert_snoc_Permutation {A} (l : list A) (j : nat) (x y : A) :
  l !! j = Some x → l ++ [y] ≡ₚ x :: <[j := y]> l.
Proof.
  revert j. induction l as [|a l IH]; intros [|j] Hj; simplify_eq/=.
  - constructor. symmetry. apply Permutation_cons_append.
  - rewrite (IH j Hj). apply perm_swap.
Qed.

(** One round of the selection loop: the eligible entries are the one
    taken and the eligible entries of the next round. *)
Lemma take_pool_Permutation {A} (pool : list A) (n j : nat) (x y : A) :
  (j < n)%nat → pool !! j = Some x → pool !! (n - 1)%nat = Some y →
  take n pool ≡ₚ x :: take (n - 1) (<[j := y]> pool).
Proof.
  intros Hj Hx Hy. destruct n as [|n]; [lia |].
  replace (S n - 1)%nat with n in * by lia.
  rewrite (take_S_r _ _ _ Hy).
  destruct (decide (j = n)) as [-> | Hne].
  - rewrite take_insert_ge by lia. assert (x = y) as -> by congruence.
    symmetry. apply Permutation_cons_append.
  - rewrite take_insert_lt by lia. apply insert_snoc_Permutation.
    rewrite lookup_take_lt by lia. done.
Qed.

Section Sample.
Context {G : Type} `{!PyRandom G}.

Lemma draws_index_lookup {A} (l : list A) (i : Z) :
  0 ≤ i < Z.of_nat (length l) → draws (λ x, l !! Z.to_nat i = Some x) (index l i : M (World G) A).
Proof.
  intros Hi w. apply wp_index; [done |]. intros x Hx. split; [done | apply frame_refl].
Qed.

Lemma draws_sample_loop_submseteq {A} (k : nat) (pool : list A) (n : Z) :
  Z.of_nat k ≤ n ≤ Z.of_nat (length pool) →
  draws (λ l, length l = k ∧ l ⊆+ take (Z.to_nat n) pool) (random.sample_loop k pool n).
Proof.
  revert pool n. induction k as [|k IH]; intros pool n Hn; simpl.
  - apply draws_ret. split; [done | apply submseteq_nil_l].
  - eapply draws_bind; [apply draws_randbelow; lia |].
    intros j Hj. simpl in Hj. eapply draws_bind; [apply draws_index_lookup; lia |].
    intros x Hx. simpl in Hx. eapply draws_bind; [apply draws_index_lookup; lia |].
    intros y Hy. simpl in Hy. eapply draws_bind.
    { apply (IH (<[Z.to_nat j := y]> pool) (n - 1)). rewrite length_insert. lia. }
    intros rest [Hlen Hrest]. apply draws_ret. split; [simpl; by rewrite Hlen |].
    rewrite (take_pool_Permutation pool (Z.to_nat n) (Z.to_nat j) x y); [| lia | done |].
    + apply submseteq_skip. by replace (Z.to_nat n - 1)%nat with (Z.to_nat (n - 1)) by lia.
    + by replace (Z.to_nat n - 1)%nat with (Z.to_nat (n - 1)) by lia.
Qed.

(** [random.sample(population, k)] for [0 <= k <= len(population)] returns
    [k] entries taken at different positions: a population without
    repetitions gives a sample without repetitions. *)
Lemma draws_sample_distinct {A} (population : list A) (k : Z) :
  NoDup population → 0 ≤ k ≤ Z.of_nat (length population) →
  draws (λ l, Z.of_nat (length l) = k ∧ NoDup l ∧ l ⊆ population)
        (random.sample population k).
Proof.
  intros Hnd Hk. unfold random.sample.
  destruct (0 <=? k) eqn:H0; [| lia].
  destruct (k <=? Z.of_nat (length population)) eqn:H1; [| lia]. simpl.
  eapply draws_weaken; [apply draws_sample_loop_submseteq; lia |].
  intros l [Hl Hsub]. simpl in Hsub.
  rewrite Nat2Z.id, firstn_all in Hsub.
  split; [lia |]. split.
  - apply submseteq_sublist_r in Hsub as (l2 & Hperm & Hsl).
    rewrite Hperm. by eapply sublist_NoDup.
  - intros x Hx. by eapply elem_of_submseteq.
Qed.

End Sample.

(* ===================================================================== *)
(** * generate_test_csvs.py: the fields of a base row *)
(* ===================================================================== *)

(** A field that is left empty or filled with a string of a given kind. *)
Definition blank_or (φ : string → Prop) (v : pyval) : Prop :=
  ∃ s, v = PStr s ∧ (s = "" ∨ φ s).

(** The comma-joined text of between one and [most] different entries of
    [population]. *)
Definition joined_sample (population : list string) (most : Z) (s : string) : Prop :=
  ∃ l, NoDup l ∧ l ⊆ population ∧ 1 ≤ Z.of_nat (length l) ≤ most ∧ s = str_join "," l.

Module BaseRow.
Import GenerateTestCsvs.

Definition is_product_name (name : string) : Prop :=
  ∃ style material product,
    style ∈ STYLES ∧ material ∈ MATERIALS ∧ product ∈ PRODUCT_TYPES
    ∧ name = style +:+ " " +:+ material +:+ " " +:+ product.

Definition sku_prefixes : list string := ["TSH"; "PNT"; "JKT"; "DRS"; "SHT"].

Definition is_sku (index : Z) (sku : string) : Prop :=
  ∃ prefix, prefix ∈ sku_prefixes ∧ sku = "SKU-" +:+ prefix +:+ "-" +:+ str (10000 + index).

Definition is_description (text : string) : Prop :=
  ∃ template material product season style,
    template ∈ DESCRIPTIONS ∧ material ∈ MATERIALS ∧ product ∈ PRODUCT_TYPES
    ∧ season ∈ ["spring"; "summer"; "fall"; "winter"] ∧ style ∈ STYLES
    ∧ text = format template [("material", lower material); ("product", lower product);
                              ("season", season); ("style", lower style)].

Definition image_domains : list string :=
  ["cdn.example.com"; "assets.fashion-brand.com"; "images.product-store.com"].

Definition is_image_url (product_id : Z) (url : string) : Prop :=
  ∃ domain, domain ∈ image_domains
    ∧ url = "https://" +:+ domain +:+ "/products/product-" +:+ str product_id +:+ ".jpg".

Definition is_number (choices : list Z) (s : string) : Prop :=
  ∃ p, p ∈ choices ∧ s = str p.

Definition is_score (s : string) : Prop := ∃ z, 50 ≤ z ≤ 100 ∧ s = str z.

(** What [generate_base_row(index, use_valid_values)] puts in each column. *)
Record fields (index : Z) (use_valid_values : bool) (row : Row) : Prop := {
  columns : keys row = get_base_headers;
  product_name : ∃ name, field row "product_name" = PStr name ∧ is_product_name name;
  upid : field row "upid" = PStr (generate_upid index);
  sku : ∃ sku, field row "sku" = PStr sku ∧ is_sku index sku;
  description : blank_or is_description (field row "description");
  category_name :
    blank_or (.∈ if use_valid_values then VALID_CATEGORIES else UNMAPPED_CATEGORIES)
             (field row "category_name");
  season : blank_or (.∈ SEASONS) (field row "season");
  primary_image_url : blank_or (is_image_url index) (field row "primary_image_url");
  color_name :
    blank_or (.∈ if use_valid_values then VALID_COLORS else UNMAPPED_COLORS)
             (field row "color_name");
  size_name :
    blank_or (.∈ if use_valid_values then VALID_SIZES else UNMAPPED_SIZES)
             (field row "size_name");
  product_image_url :
    blank_or (is_image_url (index + 1000)) (field row "product_image_url");
  second_image_needs_first :
    field row "primary_image_url" = PStr "" → field row "product_image_url" = PStr "";
  material_1_name : ∃ m, field row "material_1_name" = PStr m ∧ m ∈ MATERIALS;
  material_1_percentage :
    ∃ s, field row "material_1_percentage" = PStr s
         ∧ is_number [100; 95; 80; 70; 60; 50; 40; 35; 30] s;
  material_2_name : blank_or (.∈ MATERIALS) (field row "material_2_name");
  material_2_percentage :
    blank_or (is_number [20; 15; 10; 5]) (field row "material_2_percentage");
  material_3_name : field row "material_3_name" = PStr "";
  material_3_percentage : field row "material_3_percentage" = PStr "";
  care_codes : blank_or (joined_sample CARE_CODES 3) (field row "care_codes");
  eco_claims : blank_or (joined_sample ECO_CLAIMS 3) (field row "eco_claims");
  environment_score : blank_or is_score (field row "environment_score")
}.

End BaseRow.

Section BaseRowSpecs.
Context {G : Type} `{!PyRandom G}.
Import GenerateTestCsvs.

Lemma draws_if_included_blank (φ : string → Prop) (condition : bool)
    (value : M (World G) string) :
  draws φ value →
  draws (λ s, if condition then φ s else s = "") (if_included condition value).
Proof.
  intros Hv. unfold if_included. destruct condition; [done | by apply draws_ret].
Qed.

Lemma blank_or_intro (φ : string → Prop) (condition : bool) (s : string) :
  (if condition then φ s else s = "") → blank_or φ (PStr s).
Proof. intros Hs. exists s. split; [done |]. destruct condition; auto. Qed.

Lemma draws_is_product_name : draws BaseRow.is_product_name generate_product_name.
Proof.
  unfold generate_product_name.
  eapply draws_bind; [by apply draws_choice |]. intros style Hstyle.
  eapply draws_bind; [by apply draws_choice |]. intros material Hmaterial.
  eapply draws_bind; [by apply draws_choice |]. intros product Hproduct.
  apply draws_ret. by exists style, material, product.
Qed.

Lemma draws_is_sku index : draws (BaseRow.is_sku index) (generate_sku index).
Proof.
  unfold generate_sku.
  eapply draws_bind; [by apply draws_choice |]. intros prefix Hprefix.
  apply draws_ret. by exists prefix.
Qed.

Lemma draws_is_description : draws BaseRow.is_description generate_description.
Proof.
  unfold generate_description.
  eapply draws_bind; [by apply draws_choice |]. intros template Ht.
  eapply draws_bind; [by apply draws_choice |]. intros material Hm.
  eapply draws_bind; [by apply draws_choice |]. intros product Hp.
  eapply draws_bind; [by apply draws_choice |]. intros season Hs.
  eapply draws_bind; [by apply draws_choice |]. intros style Hst.
  apply draws_ret. by exists template, material, product, season, style.
Qed.

Lemma draws_is_image_url product_id :
  draws (BaseRow.is_image_url product_id) (generate_image_url product_id).
Proof.
  unfold generate_image_url.
  eapply draws_bind; [by apply draws_choice |]. intros domain Hd.
  apply draws_ret. by exists domain.
Qed.

Lemma draws_joined_sample_distinct (population : list string) (most : Z) :
  NoDup population → 1 ≤ most ≤ Z.of_nat (length population) →
  draws (joined_sample population most)
    (k ← random.randint 1 most; l ← random.sample population k; ret (str_join "," l)).
Proof.
  intros Hnd Hmost.
  eapply draws_bind; [apply draws_randint; lia |]. intros k Hk. simpl in Hk.
  eapply draws_bind; [apply draws_sample_distinct; [done | lia] |].
  intros l (Hlen & Hl & Hsub). apply draws_ret.
  exists l. repeat split; try done; lia.
Qed.

Lemma NoDup_CARE_CODES : NoDup CARE_CODES.
Proof. apply (bool_decide_unpack _). vm_compute. exact I. Qed.

Lemma NoDup_ECO_CLAIMS : NoDup ECO_CLAIMS.
Proof. apply (bool_decide_unpack _). vm_compute. exact I. Qed.

Lemma image_url_nonempty product_id url : BaseRow.is_image_url product_id url → url ≠ "".
Proof. intros (domain & _ & ->). discriminate. Qed.

(** [generate_base_row] returns normally from every state, and its record
    is as [BaseRow.fields] describes. *)
Lemma draws_generate_base_row_fields index use_valid_values :
  draws (BaseRow.fields index use_valid_values) (generate_base_row index use_valid_values).
Proof.
  unfold generate_base_row.
  apply draws_bind_any; [apply draws_above | intros include_description].
  apply draws_bind_any; [apply draws_above | intros include_category].
  apply draws_bind_any; [apply draws_above | intros include_season].
  apply draws_bind_any; [apply draws_above | intros include_images].
  apply draws_bind_any; [apply draws_above | intros include_color].
  apply draws_bind_any; [apply draws_above | intros include_size].
  apply draws_bind_any; [apply draws_above | intros include_care].
  apply draws_bind_any; [apply draws_above | intros include_eco].
  apply draws_bind_any; [apply draws_above | intros include_env_score].
  eapply draws_bind; [apply draws_is_product_name |]. intros name Hname.
  eapply draws_bind; [apply draws_is_sku |]. intros sku Hsku.
  eapply draws_bind; [apply draws_if_included_blank, draws_is_description |].
  intros description Hdescription.
  eapply draws_bind.
  { apply draws_if_included_blank, draws_choice. by destruct use_valid_values. }
  intros category Hcategory.
  eapply draws_bind; [by apply draws_if_included_blank, draws_choice |].
  intros season Hseason.
  eapply draws_bind; [apply draws_if_included_blank, draws_is_image_url |].
  intros primary Hprimary.
  eapply draws_bind.
  { apply draws_if_included_blank, draws_choice. by destruct use_valid_values. }
  intros color Hcolor.
  eapply draws_bind.
  { apply draws_if_included_blank, draws_choice. by destruct use_valid_values. }
  intros size Hsize.
  eapply draws_bind; [apply (draws_and_then _ _ (draws_above _)) |].
  intros second_image Hsecond.
  eapply draws_bind; [apply draws_if_included_blank, draws_is_image_url |].
  intros image Himage.
  eapply draws_bind; [by apply draws_choice |]. intros material_1 Hmaterial_1.
  eapply draws_bind; [by apply draws_choice |]. intros percentage_1 Hpercentage_1.
  apply draws_bind_any; [apply draws_above | intros with_material_2].
  eapply draws_bind; [by apply draws_if_included_blank, draws_choice |].
  intros material_2 Hmaterial_2.
  apply draws_bind_any; [apply draws_above | intros with_percentage_2].
  eapply draws_bind.
  { apply draws_if_included_blank with (φ := BaseRow.is_number [20; 15; 10; 5]).
    eapply draws_bind; [by apply draws_choice |]. intros p Hp.
    apply draws_ret. by exists p. }
  intros percentage_2 Hpercentage_2.
  eapply draws_bind.
  { apply draws_if_included_blank, draws_joined_sample_distinct;
      [apply NoDup_CARE_CODES | simpl; lia]. }
  intros care Hcare.
  eapply draws_bind.
  { apply draws_if_included_blank, draws_joined_sample_distinct;
      [apply NoDup_ECO_CLAIMS | simpl; lia]. }
  intros eco Heco.
  eapply draws_bind.
  { apply draws_if_included_blank with (φ := BaseRow.is_score).
    eapply draws_bind; [apply draws_randint; lia |]. intros z Hz.
    apply draws_ret. by exists z. }
  intros score Hscore.
  apply draws_ret. simpl in *.
  constructor; unfold field; cbn [dict_get find fst snd String.eqb Ascii.eqb Bool.eqb fmap option_fmap option_map default];
    eauto using blank_or_intro.
  - intros [= ->]. destruct include_images.
    + by apply image_url_nonempty in Hprimary.
    + destruct second_image; [by specialize (Hsecond eq_refl) | by rewrite Himage].
  - exists (str percentage_1). split; [done |]. by exists percentage_1.
Qed.

End BaseRowSpecs.

Section CsvsRows.
Context {G : Type} `{!PyRandom G}.
Import GenerateTestCsvs.

(** The loop of a generator: one record per index below [num_rows], the
    record at position [i] being what the loop body makes of index [i]. *)
Lemma wp_rows_of (body : Z → M (World G) Row) (φ : Z → Row → Prop) (num_rows : Z)
    (Q : list Row → World G → Prop) w :
  (∀ i, draws (φ i) (body i)) →
  (∀ data w', length data = Z.to_nat num_rows →
     (∀ (i : nat) row, data !! i = Some row → φ (Z.of_nat i) row) → Q data w') →
  wp (rows_of body num_rows) Q w.
Proof.
  intros Hbody HQ. unfold rows_of. eapply wp_mono.
  { apply (wp_for_each _ _ (λ _, True) φ); [done |].
    intros i w1 _ _. eapply wp_draws; [apply Hbody |]. auto. }
  intros data w' [Hdata _]. simpl. apply HQ.
  - apply Forall2_length in Hdata. unfold range in Hdata.
    by rewrite length_fmap, length_seq in Hdata.
  - intros i row Hrow.
    destruct (Forall2_lookup_r _ _ _ _ _ Hdata Hrow) as (x & Hx & Hφ).
    unfold range in Hx. rewrite list_lookup_fmap in Hx.
    destruct (seq 0 (Z.to_nat num_rows) !! i) as [k|] eqn:Hk; [| done].
    apply lookup_seq in Hk as [-> _]. simpl in Hx. by injection Hx as <-.
Qed.

Lemma generate_upid_inj (i j : Z) : generate_upid i = generate_upid j → i = j.
Proof.
  unfold generate_upid. rewrite !append_cons. intros [= H%str_inj]. lia.
Qed.

Lemma generate_upid_nonempty (i : Z) : generate_upid i ≠ "".
Proof. discriminate. Qed.

Lemma is_sku_index (i j : Z) (sku : string) :
  BaseRow.is_sku i sku → BaseRow.is_sku j sku → i = j.
Proof.
  intros (p & Hp & ->) (q & Hq & Heq). revert Hp Hq Heq.
  unfold BaseRow.sku_prefixes. rewrite !elem_of_cons, !elem_of_nil.
  intros [-> | [-> | [-> | [-> | [-> | []]]]]] [-> | [-> | [-> | [-> | [-> | []]]]]];
    rewrite !append_cons; intros [= H]; try discriminate;
    apply str_inj in H; lia.
Qed.

Lemma base_sku_nonempty (i : Z) (sku : string) : BaseRow.is_sku i sku → sku ≠ "".
Proof. intros (p & _ & ->). discriminate. Qed.

Lemma is_product_name_nonempty (name : string) : BaseRow.is_product_name name → name ≠ "".
Proof.
  intros (style & material & product & _ & _ & _ & ->).
  apply append_nonempty_r. discriminate.
Qed.

(** A column has no repeated value when the value at each position
    determines the position. *)
Lemma NoDup_column (key : string) (data : list Row) (φ : Z → pyval → Prop) :
  (∀ (i : nat) row, data !! i = Some row → φ (Z.of_nat i) (field row key)) →
  (∀ i j v, φ i v → φ j v → i = j) →
  NoDup (column key data).
Proof.
  intros Hφ Hinj. apply NoDup_alt. intros i j v. unfold column.
  rewrite !list_lookup_fmap.
  destruct (data !! i) as [ri|] eqn:Hi; [| done].
  destruct (data !! j) as [rj|] eqn:Hj; [| done].
  simpl. intros [= <-] [= Hv].
  apply Hφ in Hi, Hj. rewrite Hv in Hj.
  apply Nat2Z.inj. by eapply Hinj.
Qed.

End CsvsRows.

(* ===================================================================== *)
(** * generate_test_csvs.py: the rows of each file *)
(* ===================================================================== *)

Module CsvsBounds.
Import GenerateTestCsvs.

(** Every name and every description the script can compose. *)
Definition all_product_names : list string :=
  STYLES ≫= λ style, MATERIALS ≫= λ material, PRODUCT_TYPES ≫= λ product,
  [style +:+ " " +:+ material +:+ " " +:+ product].

Definition all_descriptions : list string :=
  DESCRIPTIONS ≫= λ template, MATERIALS ≫= λ material, PRODUCT_TYPES ≫= λ product,
  ["spring"; "summer"; "fall"; "winter"] ≫= λ season, STYLES ≫= λ style,
  [format template [("material", lower material); ("product", lower product);
                    ("season", season); ("style", lower style)]].

Lemma base_product_name_listed name : BaseRow.is_product_name name → name ∈ all_product_names.
Proof.
  intros (style & material & product & Hs & Hm & Hp & ->). unfold all_product_names.
  apply list_elem_of_bind. exists style. split; [| done].
  apply list_elem_of_bind. exists material. split; [| done].
  apply list_elem_of_bind. exists product. split; [| done].
  apply list_elem_of_singleton. done.
Qed.

Lemma base_description_listed text : BaseRow.is_description text → text ∈ all_descriptions.
Proof.
  intros (template & material & product & season & style & Ht & Hm & Hp & Hs & Hst & ->).
  unfold all_descriptions.
  apply list_elem_of_bind. exists template. split; [| done].
  apply list_elem_of_bind. exists material. split; [| done].
  apply list_elem_of_bind. exists product. split; [| done].
  apply list_elem_of_bind. exists season. split; [| done].
  apply list_elem_of_bind. exists style. split; [| done].
  apply list_elem_of_singleton. done.
Qed.

Lemma product_names_short :
  forallb (λ s, (String.length s <=? 100)%nat) all_product_names = true.
Proof. vm_compute. reflexivity. Qed.

Lemma descriptions_short :
  forallb (λ s, (String.length s <=? 2000)%nat) all_descriptions = true.
Proof. vm_compute. reflexivity. Qed.

Lemma product_name_short name :
  BaseRow.is_product_name name → (String.length name ≤ 100)%nat.
Proof.
  intros Hname%base_product_name_listed%list_elem_of_In.
  apply (proj1 (forallb_forall _ _) product_names_short) in Hname.
  by apply Nat.leb_le in Hname.
Qed.

Lemma description_short text :
  BaseRow.is_description text → (String.length text ≤ 2000)%nat.
Proof.
  intros Htext%base_description_listed%list_elem_of_In.
  apply (proj1 (forallb_forall _ _) descriptions_short) in Htext.
  by apply Nat.leb_le in Htext.
Qed.

End CsvsBounds.

Section CsvsFiles.
Context {G : Type} `{!PyRandom G}.
Import GenerateTestCsvs.

(** A row that carries the identifiers of its own index. *)
Definition own_identifiers (i : Z) (row : Row) : Prop :=
  field row "upid" = PStr (generate_upid i)
  ∧ ∃ sku, field row "sku" = PStr sku ∧ BaseRow.is_sku i sku.

Lemma fields_own_identifiers i use_valid row :
  BaseRow.fields i use_valid row → own_identifiers i row.
Proof. intros Hrow. split; [apply (BaseRow.upid _ _ _ Hrow) | apply (BaseRow.sku _ _ _ Hrow)]. Qed.

Lemma own_identifiers_unique (data : list Row) :
  (∀ (i : nat) row, data !! i = Some row → own_identifiers (Z.of_nat i) row) →
  NoDup (column "upid" data) ∧ NoDup (column "sku" data).
Proof.
  intros Hdata. split.
  - apply (NoDup_column _ _ (λ i v, v = PStr (generate_upid i))).
    + intros i row Hrow. by destruct (Hdata i row Hrow).
    + intros i j v -> Hij. apply generate_upid_inj. congruence.
  - apply (NoDup_column _ _ (λ i v, ∃ sku, v = PStr sku ∧ BaseRow.is_sku i sku)).
    + intros i row Hrow. by destruct (Hdata i row Hrow).
    + intros i j v (s & -> & Hs) (s' & [= <-] & Hs'). by eapply is_sku_index.
Qed.

Lemma draws_valid_row_fields i : draws (BaseRow.fields i true) (valid_row i).
Proof. apply draws_generate_base_row_fields. Qed.

Lemma draws_unmapped_row_fields i : draws (BaseRow.fields i false) (unmapped_row i).
Proof. apply draws_generate_base_row_fields. Qed.

Lemma draws_large_mixed_row_fields i :
  draws (λ row, ∃ use_valid, BaseRow.fields i use_valid row) (large_mixed_row i).
Proof.
  unfold large_mixed_row.
  apply draws_bind_any; [apply draws_below |]. intros use_valid.
  eapply draws_weaken; [apply draws_generate_base_row_fields |]. eauto.
Qed.

(** What [generate_minimal_csv] fills in: the name, the two identifiers and
    one material at 100 percent; the other fourteen columns stay empty. *)
Definition minimal_fields (i : Z) (row : Row) : Prop :=
  keys row = get_base_headers
  ∧ (∃ name, field row "product_name" = PStr name ∧ BaseRow.is_product_name name)
  ∧ own_identifiers i row
  ∧ (∃ m, field row "material_1_name" = PStr m ∧ m ∈ MATERIALS)
  ∧ field row "material_1_percentage" = PStr "100"
  ∧ Forall (λ key, field row key = PStr "")
      ["description"; "category_name"; "season"; "primary_image_url"; "color_name";
       "size_name"; "product_image_url"; "material_2_name"; "material_2_percentage";
       "material_3_name"; "material_3_percentage"; "care_codes"; "eco_claims";
       "environment_score"].

Lemma draws_minimal_row_fields i : draws (minimal_fields i) (minimal_row i).
Proof.
  unfold minimal_row.
  eapply draws_bind; [apply draws_is_product_name |]. intros name Hname.
  eapply draws_bind; [apply draws_is_sku |]. intros sku Hsku.
  eapply draws_bind; [by apply draws_choice |]. intros material Hmaterial.
  apply draws_ret. unfold minimal_fields, own_identifiers. simpl.
  repeat split; eauto. repeat constructor.
Qed.

(** X1. The files whose rows carry no injected error have no repeated UPID
    and no repeated SKU: in [generate_valid_csv], [generate_unmapped_csv],
    [generate_minimal_csv] and [generate_large_mixed_csv], for every row
    count and every state of the generator, both columns are free of
    duplicates (the number in each identifier is the row index). *)
Theorem files_without_injected_errors_have_unique_identifiers :
  Forall (λ body : Z → M (World G) Row,
            ∀ (num_rows : Z) (w : World G),
              wp (rows_of body num_rows)
                 (λ data _, length data = Z.to_nat num_rows
                            ∧ NoDup (column "upid" data)
                            ∧ NoDup (column "sku" data)) w)
    [valid_row; unmapped_row; minimal_row; large_mixed_row].
Proof.
  repeat constructor; intros num_rows w.
  - apply (wp_rows_of _ _ _ _ _ draws_valid_row_fields).
    intros data w' Hlen Hdata. split; [done |]. apply own_identifiers_unique.
    intros i row Hrow. eapply fields_own_identifiers, Hdata, Hrow.
  - apply (wp_rows_of _ _ _ _ _ draws_unmapped_row_fields).
    intros data w' Hlen Hdata. split; [done |]. apply own_identifiers_unique.
    intros i row Hrow. eapply fields_own_identifiers, Hdata, Hrow.
  - apply (wp_rows_of _ _ _ _ _ draws_minimal_row_fields).
    intros data w' Hlen Hdata. split; [done |]. apply own_identifiers_unique.
    intros i row Hrow. apply (Hdata i row Hrow).
  - apply (wp_rows_of _ _ _ _ _ draws_large_mixed_row_fields).
    intros data w' Hlen Hdata. split; [done |]. apply own_identifiers_unique.
    intros i row Hrow. destruct (Hdata i row Hrow) as [use_valid Hfields].
    by eapply fields_own_identifiers.
Qed.

(** X7. [generate_minimal_csv] populates the required columns only: each
    row has a composed name, the UPID and SKU of its index, one material of
    the table at "100" percent, and the empty string in each of the other
    fourteen columns. *)
Theorem minimal_rows_fill_required_columns_only (num_rows : Z) (w : World G) :
  wp (rows_of minimal_row num_rows)
     (λ data _, length data = Z.to_nat num_rows
                ∧ ∀ (i : nat) row, data !! i = Some row → minimal_fields (Z.of_nat i) row) w.
Proof. apply (wp_rows_of _ _ _ _ _ draws_minimal_row_fields). auto. Qed.

End CsvsFiles.

(** Settles the cases of a statement "this field is blank exactly at these
    indices". *)
Ltac settle_by_index :=
  repeat split; intros;
  first [ done
        | by auto
        | Z.div_mod_to_equations; lia
        | exfalso; Z.div_mod_to_equations; lia ].

Section CsvsErrors.
Context {G : Type} `{!PyRandom G}.
Import GenerateTestCsvs.

Lemma in_keys_base (key : string) (row : Row) :
  keys row = get_base_headers → bool_decide (key ∈ get_base_headers) = true → key ∈ keys row.
Proof. intros -> Hin. by apply bool_decide_eq_true in Hin. Qed.

(** [duplicates_row]: the UPID is that of the row 50 back at every positive
    multiple of 100 and the row's own elsewhere; the SKU is always the
    row's own. *)
Lemma draws_duplicates_row_identifiers i :
  draws (λ row, field row "upid"
                = PStr (generate_upid (if (0 <? i) && (i mod 100 =? 0) then i - 50 else i))
                ∧ ∃ sku, field row "sku" = PStr sku ∧ BaseRow.is_sku i sku)
        (duplicates_row i).
Proof.
  unfold duplicates_row.
  eapply draws_bind; [apply draws_generate_base_row_fields |]. intros row Hrow.
  pose proof (BaseRow.columns _ _ _ Hrow) as Hkeys.
  destruct ((0 <? i) && (i mod 100 =? 0)).
  - eapply draws_bind; [apply draws_is_sku |]. intros sku Hsku.
    apply draws_ret. split.
    + rewrite field_dict_set_ne by done. apply field_dict_set. by apply in_keys_base.
    + exists sku. split; [| done]. apply field_dict_set.
      rewrite keys_dict_set by (by apply in_keys_base). by apply in_keys_base.
  - apply draws_ret. split; [apply (BaseRow.upid _ _ _ Hrow) | apply (BaseRow.sku _ _ _ Hrow)].
Qed.

(** X2. In the file of [generate_duplicates_csv] two rows share a UPID
    exactly when the later one stands at a multiple of 100 and the earlier
    one 50 rows before it; no SKU is repeated.  This holds for every row
    count and every state of the generator. *)
Theorem duplicates_file_repeats_only_the_back_references (num_rows : Z) (w : World G) :
  wp (rows_of duplicates_row num_rows)
     (λ data _,
        length data = Z.to_nat num_rows
        ∧ NoDup (column "sku" data)
        ∧ ∀ (i j : nat) ri rj,
            (i < j)%nat → data !! i = Some ri → data !! j = Some rj →
            (field ri "upid" = field rj "upid"
             ↔ Z.of_nat j mod 100 = 0 ∧ j = (i + 50)%nat)) w.
Proof.
  apply (wp_rows_of _ _ _ _ _ draws_duplicates_row_identifiers).
  intros data w' Hlen Hdata. split; [done |]. split.
  - apply (NoDup_column _ _ (λ i v, ∃ sku, v = PStr sku ∧ BaseRow.is_sku i sku)).
    + intros i row Hrow. by destruct (Hdata i row Hrow).
    + intros i j v (s & -> & Hs) (s' & [= <-] & Hs'). by eapply is_sku_index.
  - intros i j ri rj Hij Hi Hj.
    destruct (Hdata i ri Hi) as [-> _]. destruct (Hdata j rj Hj) as [-> _].
    split.
    + intros Heq.
      assert (∀ a b, PStr (generate_upid a) = PStr (generate_upid b) → a = b) as Hinj
        by (intros a b Hab; apply generate_upid_inj; congruence).
      apply Hinj in Heq. clear Hinj. revert Heq.
      destruct (Z.ltb_spec 0 (Z.of_nat i)), (Z.eqb_spec (Z.of_nat i mod 100) 0),
        (Z.ltb_spec 0 (Z.of_nat j)), (Z.eqb_spec (Z.of_nat j mod 100) 0);
        cbn [andb]; intros Heq; Z.div_mod_to_equations; lia.
    + intros [Hj100 ->].
      destruct (Z.ltb_spec 0 (Z.of_nat i)), (Z.eqb_spec (Z.of_nat i mod 100) 0),
        (Z.ltb_spec 0 (Z.of_nat (i + 50))), (Z.eqb_spec (Z.of_nat (i + 50) mod 100) 0);
        cbn [andb]; try (do 2 f_equal; lia); exfalso; Z.div_mod_to_equations; lia.
Qed.

(** [missing_required_row]: what is blanked, by the row index. *)
Definition missing_required_fields (i : Z) (row : Row) : Prop :=
  (field row "product_name" = PStr "" ↔ i mod 15 = 0)
  ∧ (field row "upid" = PStr "" ↔ i mod 15 = 5 ∨ i mod 15 = 10)
  ∧ (field row "sku" = PStr "" ↔ i mod 15 = 10)
  ∧ (field row "upid" = PStr "" ∨ field row "upid" = PStr (generate_upid i)).

Lemma PStr_nonempty (s : string) : s ≠ "" → PStr s ≠ PStr "".
Proof. congruence. Qed.

Lemma draws_missing_required_row_fields i :
  draws (missing_required_fields i) (missing_required_row i).
Proof.
  unfold missing_required_row.
  eapply draws_bind; [apply draws_generate_base_row_fields |]. intros row Hrow.
  pose proof (BaseRow.columns _ _ _ Hrow) as Hkeys.
  destruct (BaseRow.product_name _ _ _ Hrow) as (name & Hname & Hname_ok%is_product_name_nonempty).
  destruct (BaseRow.sku _ _ _ Hrow) as (sku & Hsku & Hsku_ok%base_sku_nonempty).
  pose proof (BaseRow.upid _ _ _ Hrow) as Hupid.
  apply PStr_nonempty in Hname_ok, Hsku_ok.
  pose proof (PStr_nonempty _ (generate_upid_nonempty i)) as Hupid_ok.
  unfold missing_required_fields.
  destruct (Z.eqb_spec (i mod 5) 0) as [H5 | H5].
  - destruct (Z.eqb_spec (i mod 3) 0) as [H3 | H3]; [| destruct (Z.eqb_spec (i mod 3) 1) as [H31 | H31];
      [| destruct (Z.eqb_spec (i mod 3) 2) as [H32 | H32]]]; apply draws_ret.
    + rewrite field_dict_set by (by apply in_keys_base).
      rewrite !field_dict_set_ne by done. rewrite Hupid, Hsku.
      settle_by_index.
    + rewrite !field_dict_set_ne by done.
      rewrite !field_dict_set
        by (rewrite ?keys_dict_set by (by apply in_keys_base); by apply in_keys_base).
      rewrite Hname.
      settle_by_index.
    + rewrite field_dict_set by (by apply in_keys_base).
      rewrite !field_dict_set_ne by done. rewrite Hname, Hsku.
      settle_by_index.
    + exfalso. Z.div_mod_to_equations. lia.
  - apply draws_ret. rewrite Hname, Hupid, Hsku.
    settle_by_index.
Qed.

(** X3. In the file of [generate_missing_required_csv] the row at index [i]
    has an empty name exactly when [i] is a multiple of 15, an empty UPID
    exactly when [i mod 15] is 5 or 10, and an empty SKU exactly when
    [i mod 15] is 10; a UPID that is not empty is the row's own.  So a row
    lacks a name or a UPID exactly when its index is a multiple of 5. *)
Theorem missing_required_file_blanks_by_index (num_rows : Z) (w : World G) :
  wp (rows_of missing_required_row num_rows)
     (λ data _,
        length data = Z.to_nat num_rows
        ∧ ∀ (i : nat) row, data !! i = Some row →
            missing_required_fields (Z.of_nat i) row
            ∧ (field row "product_name" = PStr "" ∨ field row "upid" = PStr ""
               ↔ Z.of_nat i mod 5 = 0)) w.
Proof.
  apply (wp_rows_of _ _ _ _ _ draws_missing_required_row_fields).
  intros data w' Hlen Hdata. split; [done |].
  intros i row Hrow. specialize (Hdata i row Hrow). split; [done |].
  destruct Hdata as (-> & -> & _). Z.div_mod_to_equations. lia.
Qed.

End CsvsErrors.

Section CsvsLengths.
Context {G : Type} `{!PyRandom G}.
Import GenerateTestCsvs.

Lemma long_name_of_field (row : Row) (name : string) :
  field row "product_name" = PStr name →
  long_name row = (100 <? String.length name)%nat.
Proof. intros Hname. unfold long_name, text_length. by rewrite Hname. Qed.

Lemma long_description_of_field (row : Row) (text : string) :
  field row "description" = PStr text →
  long_description row = (2000 <? String.length text)%nat.
Proof. intros Htext. unfold long_description, text_length. by rewrite Htext. Qed.

(** A base row has no name over 100 characters and no description over
    2000. *)
Lemma base_row_within_limits i use_valid row :
  BaseRow.fields i use_valid row → long_name row = false ∧ long_description row = false.
Proof.
  intros Hrow.
  destruct (BaseRow.product_name _ _ _ Hrow) as (name & Hname & Hname_ok%CsvsBounds.product_name_short).
  destruct (BaseRow.description _ _ _ Hrow) as (text & Htext & Htext_ok).
  rewrite (long_name_of_field _ _ Hname), (long_description_of_field _ _ Htext).
  split; apply Nat.ltb_ge; [done |].
  destruct Htext_ok as [-> | Htext_ok%CsvsBounds.description_short]; [simpl; lia | done].
Qed.

Lemma length_str_mul_1 (c : Ascii.ascii) (n : nat) :
  String.length (str_mul (String c EmptyString) n) = n.
Proof.
  induction n as [|n IH]; [done |].
  change (str_mul (String c EmptyString) (S n))
    with (String c (str_mul (String c EmptyString) n)).
  cbn [String.length]. by rewrite IH.
Qed.

Definition field_length_fields (i : Z) (row : Row) : Prop :=
  (long_name row = true ↔ i mod 20 = 0)
  ∧ (long_description row = true ↔ i mod 20 = 10)
  ∧ (i mod 20 = 0 → field row "product_name" = PStr (str_mul "A" 150))
  ∧ (i mod 20 = 10 → field row "description" = PStr (str_mul "B" 2500)).

Lemma draws_field_length_violations_row_fields i :
  draws (field_length_fields i) (field_length_violations_row i).
Proof.
  unfold field_length_violations_row.
  eapply draws_bind; [apply draws_generate_base_row_fields |]. intros row Hrow.
  pose proof (BaseRow.columns _ _ _ Hrow) as Hkeys.
  destruct (base_row_within_limits _ _ _ Hrow) as [Hname Hdescription].
  unfold field_length_fields.
  destruct (Z.eqb_spec (i mod 10) 0) as [H10 | H10];
    [destruct (Z.eqb_spec (i mod 20) 0) as [H20 | H20] |]; apply draws_ret.
  - unfold long_name, long_description, text_length in *.
    rewrite field_dict_set by (by apply in_keys_base).
    rewrite !field_dict_set_ne by done. rewrite Hdescription. cbn [csv.text_of].
    rewrite length_str_mul_1. change (100 <? 150)%nat with true.
    settle_by_index.
  - unfold long_name, long_description, text_length in *.
    rewrite field_dict_set by (by apply in_keys_base).
    rewrite !field_dict_set_ne by done. rewrite Hname. cbn [csv.text_of].
    rewrite length_str_mul_1. change (2000 <? 2500)%nat with true.
    settle_by_index.
  - rewrite Hname, Hdescription. settle_by_index.
Qed.

(** X4. In the file of [generate_field_length_violations_csv] the row at
    index [i] has a name over 100 characters exactly when [i] is a
    multiple of 20 (the name is then 150 times "A"), and a description over
    2000 characters exactly when [i mod 20] is 10 (2500 times "B"); every
    other name and description is within its limit. *)
Theorem field_length_file_violates_by_index (num_rows : Z) (w : World G) :
  wp (rows_of field_length_violations_row num_rows)
     (λ data _,
        length data = Z.to_nat num_rows
        ∧ ∀ (i : nat) row, data !! i = Some row → field_length_fields (Z.of_nat i) row) w.
Proof. apply (wp_rows_of _ _ _ _ _ draws_field_length_violations_row_fields). auto. Qed.

End CsvsLengths.

Section CsvsOther.
Context {G : Type} `{!PyRandom G}.
Import GenerateTestCsvs.

(** Under the renamed headers a record reads, column by column, as the
    base row does under the standard ones. *)
Lemma rename_headers_columns (row : Row) :
  keys row = get_base_headers →
  keys (rename_headers row) = wrong_headers
  ∧ csv.dict_to_list wrong_headers (rename_headers row)
    = csv.dict_to_list get_base_headers row.
Proof.
  intros Hkeys. unfold get_base_headers, keys in Hkeys.
  repeat (destruct row as [|[? ?] row]; [discriminate Hkeys |]).
  destruct row; [| discriminate Hkeys].
  simpl in Hkeys. simplify_eq. split; vm_compute; reflexivity.
Qed.

(** X5. [generate_wrong_headers_csv] changes the header line and nothing
    else: the record it writes for a row has the nineteen renamed headers
    as keys, and the fields the writer reads from it under those headers
    are the fields it would read from the base row under the standard
    ones.  None of the renamed headers is a standard header. *)
Theorem wrong_headers_file_differs_in_its_header_only (i : Z) (w : World G) :
  (∃ row w',
     generate_base_row i true w = (Ok row, w')
     ∧ wrong_headers_row i w = (Ok (rename_headers row), w')
     ∧ keys (rename_headers row) = wrong_headers
     ∧ csv.dict_to_list wrong_headers (rename_headers row)
       = csv.dict_to_list get_base_headers row)
  ∧ length wrong_headers = length get_base_headers
  ∧ Forall (λ header, header ∉ get_base_headers) wrong_headers.
Proof.
  split; [| split; [reflexivity |]].
  - destruct (draws_generate_base_row_fields i true w) as (row & w' & Hrun & Hrow & _).
    exists row, w'. split; [done |]. split.
    + unfold wrong_headers_row, bind. by rewrite Hrun.
    + apply rename_headers_columns, (BaseRow.columns _ _ _ Hrow).
  - apply (bool_decide_unpack _). vm_compute. exact I.
Qed.

(** The six shapes of a row of [generate_mixed_errors_csv]: a base row
    with at most one injected error. *)
Definition mixed_errors_fields (i : Z) (row : Row) : Prop :=
  ∃ use_valid base,
    BaseRow.fields i use_valid base
    ∧ (row = base
       ∨ (100 < i ∧ ∃ back, 50 ≤ back ≤ 100
                     ∧ row = dict_set "upid" (PStr (generate_upid (i - back))) base)
       ∨ row = dict_set "product_name" (PStr "") base
       ∨ row = dict_set "sku" (PStr "") (dict_set "upid" (PStr "") base)
       ∨ row = dict_set "product_name" (PStr (str_mul "X" 150)) base
       ∨ row = dict_set "description" (PStr (str_mul "Y" 2500)) base).

Lemma draws_mixed_errors_row_fields i : draws (mixed_errors_fields i) (mixed_errors_row i).
Proof.
  unfold mixed_errors_row, mixed_errors_fields.
  apply draws_bind_any; [apply draws_above |]. intros use_valid.
  eapply draws_bind; [apply draws_generate_base_row_fields |]. intros base Hbase.
  apply draws_bind_any; [apply draws_random |]. intros error_roll.
  destruct (float_lt error_roll (lit 5 100)).
  { destruct (Z.ltb_spec 100 i) as [Hi | Hi].
    - eapply draws_bind; [apply draws_randint; lia |]. intros back Hback.
      simpl in Hback. apply draws_ret. exists use_valid, base. split; [done |].
      right. left. split; [done |]. by exists back.
    - apply draws_ret. exists use_valid, base. auto. }
  destruct (float_lt error_roll (lit 10 100)).
  { apply draws_bind_any; [apply draws_above |]. intros first.
    destruct first; apply draws_ret; exists use_valid, base; auto 10. }
  destruct (float_lt error_roll (lit 12 100)).
  { apply draws_bind_any; [apply draws_above |]. intros first.
    destruct first; apply draws_ret; exists use_valid, base; auto 10. }
  apply draws_ret. exists use_valid, base. auto.
Qed.

(** X6. Every row of [generate_mixed_errors_csv] is a base row with at
    most one injected error: a UPID taken from between 50 and 100 rows
    back (only in rows past index 100, so the row referred to exists), an
    empty name, an empty UPID and SKU, a name of 150 characters, or a
    description of 2500.  The UPID of each row is therefore empty or the
    UPID of a row index between 1 and its own. *)
Theorem mixed_errors_rows_carry_at_most_one_error (num_rows : Z) (w : World G) :
  wp (rows_of mixed_errors_row num_rows)
     (λ data _,
        length data = Z.to_nat num_rows
        ∧ ∀ (i : nat) row, data !! i = Some row →
            mixed_errors_fields (Z.of_nat i) row
            ∧ (field row "upid" = PStr ""
               ∨ ∃ j, field row "upid" = PStr (generate_upid j)
                      ∧ (j = Z.of_nat i ∨ 1 ≤ j ≤ Z.of_nat i - 50))) w.
Proof.
  apply (wp_rows_of _ _ _ _ _ draws_mixed_errors_row_fields).
  intros data w' Hlen Hdata. split; [done |].
  intros i row Hrow. specialize (Hdata i row Hrow). split; [done |].
  destruct Hdata as (use_valid & base & Hbase & Hshape).
  pose proof (BaseRow.columns _ _ _ Hbase) as Hkeys.
  pose proof (BaseRow.upid _ _ _ Hbase) as Hupid.
  destruct Hshape as [-> | [(Hi & back & Hback & ->) | [-> | [-> | [-> | ->]]]]].
  - right. exists (Z.of_nat i). auto.
  - right. exists (Z.of_nat i - back).
    rewrite field_dict_set by (by apply in_keys_base). split; [done | lia].
  - right. exists (Z.of_nat i). rewrite field_dict_set_ne by done. auto.
  - left. rewrite field_dict_set_ne by done. apply field_dict_set. by apply in_keys_base.
  - right. exists (Z.of_nat i). rewrite field_dict_set_ne by done. auto.
  - right. exists (Z.of_nat i). rewrite field_dict_set_ne by done. auto.
Qed.

(** The catalogue columns of a row. *)
Definition catalog_fields (colors sizes categories : list string) (row : Row) : Prop :=
  blank_or (.∈ colors) (field row "color_name")
  ∧ blank_or (.∈ sizes) (field row "size_name")
  ∧ blank_or (.∈ categories) (field row "category_name").

(** X8. The catalogue columns follow [use_valid_values]: every row of
    [generate_valid_csv] has a colour, size and category that is empty or
    from the valid tables, every row of [generate_unmapped_csv] one that is
    empty or from the unmapped tables, and no value belongs to both a valid
    and an unmapped table. *)
Theorem catalog_columns_follow_use_valid_values :
  (∀ (num_rows : Z) (w : World G),
     wp (rows_of valid_row num_rows)
        (λ data _, Forall (catalog_fields VALID_COLORS VALID_SIZES VALID_CATEGORIES) data) w)
  ∧ (∀ (num_rows : Z) (w : World G),
       wp (rows_of unmapped_row num_rows)
          (λ data _,
             Forall (catalog_fields UNMAPPED_COLORS UNMAPPED_SIZES UNMAPPED_CATEGORIES) data) w)
  ∧ Forall (λ v, v ∉ UNMAPPED_COLORS) VALID_COLORS
  ∧ Forall (λ v, v ∉ UNMAPPED_SIZES) VALID_SIZES
  ∧ Forall (λ v, v ∉ UNMAPPED_CATEGORIES) VALID_CATEGORIES.
Proof.
  split; [| split; [| split; [| split]]].
  - intros num_rows w. apply (wp_rows_of _ _ _ _ _ draws_valid_row_fields).
    intros data w' _ Hdata. apply Forall_lookup. intros i row Hrow.
    specialize (Hdata i row Hrow). split; [| split]; apply Hdata.
  - intros num_rows w. apply (wp_rows_of _ _ _ _ _ draws_unmapped_row_fields).
    intros data w' _ Hdata. apply Forall_lookup. intros i row Hrow.
    specialize (Hdata i row Hrow). split; [| split]; apply Hdata.
  - apply (bool_decide_unpack _). vm_compute. exact I.
  - apply (bool_decide_unpack _). vm_compute. exact I.
  - apply (bool_decide_unpack _). vm_compute. exact I.
Qed.

End CsvsOther.


(* ===================================================================== *)
(** * generate-test-data.py: the fields of a row *)
(* ===================================================================== *)

Module TestDataRow.
Import GenerateTestData.

(** The scenarios in which a row can be given the error kind "missing",
    and those in which it can be given the kind "invalid". *)
Definition may_be_missing (scenario_name : string) : Prop :=
  scenario_name = "missing_fields" ∨ scenario_name = "mixed".

Definition may_be_invalid (scenario_name : string) : Prop :=
  scenario_name = "invalid_formats" ∨ scenario_name = "mixed".

Definition is_composed_name (name : string) : Prop :=
  ∃ style ptype material,
    style ∈ PRODUCT_STYLES ∧ ptype ∈ PRODUCT_TYPES ∧ material ∈ PRODUCT_MATERIALS_PRIMARY
    ∧ name ∈ [style +:+ " " +:+ ptype; material +:+ " " +:+ ptype;
              style +:+ " " +:+ material +:+ " " +:+ ptype; ptype].

Definition invalid_names : list string := [str_mul "A" 150; ""; "Product@#$%^&*()"].

Definition is_description (text : string) : Prop :=
  ∃ template product material style season,
    template ∈ description_templates ∧ product ∈ PRODUCT_TYPES
    ∧ material ∈ PRODUCT_MATERIALS_PRIMARY ∧ style ∈ PRODUCT_STYLES
    ∧ season ∈ ["spring"; "summer"; "fall"; "winter"]
    ∧ text = format template [("product", lower product); ("material", lower material);
                              ("style", lower style); ("season", season)].

Definition url_domains : list string :=
  ["cdn.example.com"; "images.product-store.com"; "assets.fashion-brand.com"].

Definition is_url (url : string) : Prop :=
  ∃ n domain, 1000 ≤ n ≤ 9999 ∧ domain ∈ url_domains
    ∧ url = "https://" +:+ domain +:+ "/products/" +:+ "product-" +:+ str n +:+ ".jpg".

(** The four columns [generate_row] fills or leaves empty together. *)
Definition optional_columns : list string :=
  ["description"; "category_name"; "season"; "primary_image_url"].

(** What [generate_row] puts in each column, given the scenario and the
    identifiers it obtained for the row. *)
Record fields (scenario_name : string) (upid sku : string) (row : Row) : Prop := {
  columns : keys row = fieldnames;
  product_name :
    ∃ name, field row "product_name" = PStr name
            ∧ (is_composed_name name
               ∨ (name = "" ∧ may_be_missing scenario_name)
               ∨ (name ∈ invalid_names ∧ may_be_invalid scenario_name));
  upid_column : field row "upid" = PStr upid;
  sku_column : field row "sku" = PStr sku;
  description :
    ∃ text, field row "description" = PStr text
            ∧ (text = "" ∨ is_description text
               ∨ (text = str_mul "D" 2500 ∧ may_be_invalid scenario_name));
  category_name : blank_or (.∈ CATEGORIES) (field row "category_name");
  season : blank_or (.∈ SEASONS) (field row "season");
  primary_image_url :
    ∃ url, field row "primary_image_url" = PStr url
           ∧ (url = "" ∨ is_url url ∨ (url = "not-a-valid-url" ∧ may_be_invalid scenario_name));
  optional_together :
    Forall (λ key, field row key = PStr "") optional_columns
    ∨ Forall (λ key, field row key ≠ PStr "") optional_columns;
  optional_when_invalid :
    scenario_name = "invalid_formats" →
    Forall (λ key, field row key ≠ PStr "") optional_columns;
  color_name : blank_or (.∈ COLORS) (field row "color_name");
  size_name : blank_or (.∈ SIZES) (field row "size_name");
  product_image_url :
    ∃ url, field row "product_image_url" = PStr url
           ∧ (url = "" ∨ is_url url ∨ (url = "not-a-valid-url" ∧ may_be_invalid scenario_name));
  materials :
    (∃ name percentage,
       [name; percentage] ∈ MATERIALS
       ∧ field row "material_1_name" = name
       ∧ field row "material_1_percentage" = percentage
       ∧ field row "material_2_name" = PStr ""
       ∧ field row "material_2_percentage" = PStr "")
    ∨ (may_be_invalid scenario_name
       ∧ field row "material_1_name" = PStr "Cotton"
       ∧ field row "material_1_percentage" = PInt 65
       ∧ field row "material_2_name" = PStr "Polyester"
       ∧ field row "material_2_percentage" = PInt 50);
  material_3 :
    field row "material_3_name" = PStr "" ∧ field row "material_3_percentage" = PStr "";
  care_codes : blank_or (joined_sample CARE_CODES 4) (field row "care_codes");
  eco_claims : blank_or (joined_sample ECO_CLAIMS 3) (field row "eco_claims");
  environment_score :
    field row "environment_score" = PStr ""
    ∨ ∃ z, 50 ≤ z ≤ 100 ∧ field row "environment_score" = PInt z
}.

(** Every name and every description the script can compose. *)
Definition all_composed_names : list string :=
  PRODUCT_STYLES ≫= λ style, PRODUCT_TYPES ≫= λ ptype,
  PRODUCT_MATERIALS_PRIMARY ≫= λ material,
  [style +:+ " " +:+ ptype; material +:+ " " +:+ ptype;
   style +:+ " " +:+ material +:+ " " +:+ ptype; ptype].

Definition all_descriptions : list string :=
  description_templates ≫= λ template, PRODUCT_TYPES ≫= λ product,
  PRODUCT_MATERIALS_PRIMARY ≫= λ material, PRODUCT_STYLES ≫= λ style,
  ["spring"; "summer"; "fall"; "winter"] ≫= λ season,
  [format template [("product", lower product); ("material", lower material);
                    ("style", lower style); ("season", season)]].

Lemma composed_name_listed name : is_composed_name name → name ∈ all_composed_names.
Proof.
  intros (style & ptype & material & Hs & Hp & Hm & Hname). unfold all_composed_names.
  apply list_elem_of_bind. exists style. split; [| done].
  apply list_elem_of_bind. exists ptype. split; [| done].
  apply list_elem_of_bind. exists material. split; [| done]. done.
Qed.

Lemma description_listed text : is_description text → text ∈ all_descriptions.
Proof.
  intros (template & product & material & style & season & Ht & Hp & Hm & Hst & Hs & ->).
  unfold all_descriptions.
  apply list_elem_of_bind. exists template. split; [| done].
  apply list_elem_of_bind. exists product. split; [| done].
  apply list_elem_of_bind. exists material. split; [| done].
  apply list_elem_of_bind. exists style. split; [| done].
  apply list_elem_of_bind. exists season. split; [| done].
  apply list_elem_of_singleton. done.
Qed.

Definition within (low high : nat) (s : string) : bool :=
  (low <=? String.length s)%nat && (String.length s <=? high)%nat.

Lemma composed_names_checked : forallb (within 1 100) all_composed_names = true.
Proof. vm_compute. reflexivity. Qed.

Lemma descriptions_checked : forallb (within 1 2000) all_descriptions = true.
Proof. vm_compute. reflexivity. Qed.

Lemma within_bounds low high s :
  within low high s = true → (low ≤ String.length s ≤ high)%nat.
Proof.
  unfold within. intros [H1 H2]%andb_prop.
  apply Nat.leb_le in H1, H2. done.
Qed.

Lemma composed_name_bounds name :
  is_composed_name name → (1 ≤ String.length name ≤ 100)%nat.
Proof.
  intros Hname%composed_name_listed%list_elem_of_In.
  by apply within_bounds, (proj1 (forallb_forall _ _) composed_names_checked).
Qed.

Lemma description_bounds text :
  is_description text → (1 ≤ String.length text ≤ 2000)%nat.
Proof.
  intros Htext%description_listed%list_elem_of_In.
  by apply within_bounds, (proj1 (forallb_forall _ _) descriptions_checked).
Qed.

Lemma is_url_nonempty url : is_url url → url ≠ "".
Proof. intros (n & domain & _ & _ & ->). discriminate. Qed.

End TestDataRow.

Module TestDataIds.

(** The identifiers [generate_upid] and [generate_sku] compose. *)
Definition is_upid (upid : string) : Prop :=
  ∃ n, 100000 ≤ n ≤ 999999 ∧ upid = "UPID-" +:+ zfill 6 n.

Definition sku_prefixes : list string := ["TSH"; "PNT"; "JKT"; "DRS"].

Definition is_sku (sku : string) : Prop :=
  ∃ (prefix : string) (n : Z), prefix ∈ sku_prefixes ∧ 10000 ≤ n ≤ 99999
              ∧ sku = "SKU-" +:+ prefix +:+ "-" +:+ str n.

End TestDataIds.

Section TestDataRowSpecs.
Context {G : Type} `{!PyRandom G}.
Import GenerateTestData TestDataRow TestDataIds.

Lemma draws_product_name_kind (invalid : bool) :
  draws (λ name, if invalid then name ∈ invalid_names else is_composed_name name)
        (generate_product_name invalid).
Proof.
  unfold generate_product_name. destruct invalid.
  - eapply draws_bind; [by apply draws_choice |]. intros kind _. unfold invalid_names.
    destruct (String.eqb kind "too_long"); [apply draws_ret; rewrite !elem_of_cons; auto |].
    destruct (String.eqb kind "empty"); apply draws_ret; rewrite !elem_of_cons; auto.
  - eapply draws_bind; [by apply draws_choice |]. intros style Hstyle.
    eapply draws_bind; [by apply draws_choice |]. intros ptype Hptype.
    eapply draws_bind; [by apply draws_choice |]. intros material Hmaterial.
    eapply draws_weaken; [by apply draws_choice |].
    intros name Hname. by exists style, ptype, material.
Qed.

Lemma draws_description_kind (invalid : bool) :
  draws (λ text, if invalid then text = str_mul "D" 2500 else is_description text)
        (generate_description invalid).
Proof.
  unfold generate_description. destruct invalid; [by apply draws_ret |].
  eapply draws_bind; [by apply draws_choice |]. intros template Ht.
  eapply draws_bind; [by apply draws_choice |]. intros product Hp.
  eapply draws_bind; [by apply draws_choice |]. intros material Hm.
  eapply draws_bind; [by apply draws_choice |]. intros style Hst.
  eapply draws_bind; [by apply draws_choice |]. intros season Hs.
  apply draws_ret. by exists template, product, material, style, season.
Qed.

Lemma draws_url_kind (invalid : bool) :
  draws (λ url, if invalid then url = "not-a-valid-url" else is_url url)
        (generate_url invalid).
Proof.
  unfold generate_url. destruct invalid; [by apply draws_ret |].
  eapply draws_bind; [apply draws_randint; lia |]. intros n Hn.
  eapply draws_bind; [by apply draws_choice |]. intros domain Hdomain.
  apply draws_ret. by exists n, domain.
Qed.

Lemma draws_materials_kind (invalid : bool) :
  draws (λ mp, if invalid then mp = ([PStr "Cotton"; PStr "Polyester"], [PInt 65; PInt 50])
               else ∃ name percentage,
                      [name; percentage] ∈ GenerateTestData.MATERIALS
                      ∧ mp = ([name], [percentage]))
        (generate_materials invalid).
Proof.
  unfold generate_materials, generate_materials_with. destruct invalid; [by apply draws_ret |].
  eapply draws_bind; [by apply draws_choice |]. intros combo Hcombo. simpl in Hcombo.
  pose proof (proj1 (Forall_forall _ _) MATERIALS_pairs combo Hcombo) as Hpair.
  simpl in Hpair. rewrite Hpair.
  destruct combo as [|name [|percentage [|]]]; try discriminate.
  eapply draws_bind; [apply draws_index_lookup; simpl; lia |]. intros name' [= <-].
  eapply draws_bind; [apply draws_index_lookup; simpl; lia |]. intros percentage' [= <-].
  apply draws_ret. eauto.
Qed.

Lemma draws_error_kind self row_number :
  draws (λ d, (is_kind d.2 "missing" = true → may_be_missing (scenario self))
              ∧ (is_kind d.2 "invalid" = true → may_be_invalid (scenario self))
              ∧ (is_kind d.2 "duplicate" = true →
                 scenario self = "duplicates" ∨ scenario self = "mixed")
              ∧ (scenario self = "invalid_formats" → is_kind d.2 "invalid" = true))
        (error_disposition self row_number).
Proof.
  unfold error_disposition, may_be_missing, may_be_invalid.
  destruct (String.eqb_spec (scenario self) "duplicates") as [-> | Hd].
  { apply draws_ret. simpl. repeat split; try done; auto. }
  destruct (String.eqb_spec (scenario self) "missing_fields") as [-> | Hm].
  { eapply draws_bind; [apply draws_random |]. intros r _.
    apply draws_ret. simpl. repeat split; try done; auto. }
  destruct (String.eqb_spec (scenario self) "invalid_formats") as [-> | Hi].
  { eapply draws_bind; [apply draws_random |]. intros r _.
    apply draws_ret. simpl. repeat split; try done; auto. }
  destruct (String.eqb_spec (scenario self) "mixed") as [-> | Hx].
  { eapply draws_bind; [apply draws_random |]. intros r _.
    eapply draws_bind; [by apply draws_choice |]. intros kind _.
    apply draws_ret. simpl. repeat split; try done; auto. }
  apply draws_ret. simpl. repeat split; try done.
Qed.

(** [generate_upid]: the identifier returned is composed afresh, or, with
    [allow_duplicate], taken from the set; either way it is in the set
    afterwards. *)
Lemma wp_generate_upid_form allow_duplicate (Q : string → World G → Prop) w :
  (∀ upid w',
     set_order w' = set_order w →
     generated_skus w' = generated_skus w →
     generated_upids w' = {[upid]} ∪ generated_upids w →
     is_upid upid ∨ (allow_duplicate = true ∧ upid ∈ generated_upids w) →
     Q upid w') →
  wp (generate_upid allow_duplicate) Q w.
Proof.
  intros HQ. unfold generate_upid.
  apply wp_bind, wp_gets. simpl.
  assert (∀ w1, frame w w1 →
    wp (n ← random.randint 100000 999999;
        let upid := "UPID-" +:+ zfill 6 n in
        _ ← modify (λ w, set_generated_upids ({[upid]} ∪ generated_upids w) w);
        ret upid) Q w1) as Hfresh.
  { intros w1 (Ho1 & Hu1 & Hk1).
    apply wp_bind. eapply wp_draws; [apply draws_randint; lia |].
    intros n w2 Hn (Ho2 & Hu2 & Hk2). simpl in Hn. simpl.
    apply wp_bind, wp_modify. simpl. apply wp_ret.
    apply HQ; simpl; try congruence. left. by exists n. }
  destruct (allow_duplicate && bool_decide (generated_upids w ≠ ∅)) eqn:Hdup.
  - apply andb_prop in Hdup as [-> Hne]. apply bool_decide_eq_true in Hne.
    apply wp_bind, wp_bind. eapply wp_draws; [apply draws_random |].
    intros r w1 _ Hf1. simpl.
    destruct (float_lt r (lit 3 10)).
    + apply wp_bind, wp_list_of_set. intros pool Hpool Hnil.
      apply wp_bind. eapply wp_draws; [apply draws_choice; auto |].
      intros upid w2 Hupid Hf2. simpl. apply wp_ret. simpl. apply wp_ret.
      destruct (frame_trans _ _ _ Hf1 Hf2) as (Ho & Hu & Hk).
      apply Hpool in Hupid. apply HQ; try done; [| auto].
      rewrite Hu. symmetry. by apply subseteq_union_1_L, singleton_subseteq_l.
    + apply wp_ret. simpl. by apply Hfresh.
  - apply wp_bind, wp_ret. simpl. apply Hfresh, frame_refl.
Qed.

Lemma wp_generate_sku_form allow_duplicate (Q : string → World G → Prop) w :
  (∀ sku w',
     set_order w' = set_order w →
     generated_upids w' = generated_upids w →
     generated_skus w' = {[sku]} ∪ generated_skus w →
     is_sku sku ∨ (allow_duplicate = true ∧ sku ∈ generated_skus w) →
     Q sku w') →
  wp (generate_sku allow_duplicate) Q w.
Proof.
  intros HQ. unfold generate_sku.
  apply wp_bind, wp_gets. simpl.
  assert (∀ w1, frame w w1 →
    wp (prefix ← random.choice ["TSH"; "PNT"; "JKT"; "DRS"];
        n ← random.randint 10000 99999;
        let sku := "SKU-" +:+ prefix +:+ "-" +:+ str n in
        _ ← modify (λ w, set_generated_skus ({[sku]} ∪ generated_skus w) w);
        ret sku) Q w1) as Hfresh.
  { intros w1 Hf1.
    apply wp_bind. eapply wp_draws; [by apply draws_choice |].
    intros prefix w2 Hprefix Hf2. simpl.
    apply wp_bind. eapply wp_draws; [apply draws_randint; lia |].
    intros n w3 Hn Hf3. simpl in Hn. simpl.
    destruct (frame_trans _ _ _ (frame_trans _ _ _ Hf1 Hf2) Hf3) as (Ho & Hu & Hk).
    apply wp_bind, wp_modify. simpl. apply wp_ret.
    apply HQ; simpl; try congruence. left. by exists prefix, n. }
  destruct (allow_duplicate && bool_decide (generated_skus w ≠ ∅)) eqn:Hdup.
  - apply andb_prop in Hdup as [-> Hne]. apply bool_decide_eq_true in Hne.
    apply wp_bind, wp_bind. eapply wp_draws; [apply draws_random |].
    intros r w1 _ Hf1. simpl.
    destruct (float_lt r (lit 3 10)).
    + apply wp_bind, wp_list_of_set. intros pool Hpool Hnil.
      apply wp_bind. eapply wp_draws; [apply draws_choice; auto |].
      intros sku w2 Hsku Hf2. simpl. apply wp_ret. simpl. apply wp_ret.
      destruct (frame_trans _ _ _ Hf1 Hf2) as (Ho & Hu & Hk).
      apply Hpool in Hsku. apply HQ; try done; [| auto].
      rewrite Hk. symmetry. by apply subseteq_union_1_L, singleton_subseteq_l.
    + apply wp_ret. simpl. by apply Hfresh.
  - apply wp_bind, wp_ret. simpl. apply Hfresh, frame_refl.
Qed.

End TestDataRowSpecs.

Lemma listed_nonempty (l : list string) (s : string) :
  forallb (λ x, negb (String.eqb x "")) l = true → s ∈ l → s ≠ "".
Proof.
  intros Hl Hs%list_elem_of_In ->.
  by apply (proj1 (forallb_forall _ _) Hl) in Hs.
Qed.

Lemma str_mul_nonempty (c : Ascii.ascii) (n : nat) :
  (0 < n)%nat → str_mul (String c EmptyString) n ≠ "".
Proof. destruct n; [lia | discriminate]. Qed.

Section TestDataRowMaster.
Context {G : Type} `{!PyRandom G}.
Import GenerateTestData TestDataRow TestDataIds.

(** What a row's identifiers did to the two sets: both are empty strings
    and the sets are as before (only when the row's error kind is
    "missing"), or each is in its set afterwards, composed afresh or taken
    from the set as it was. *)
Definition identifiers_recorded (scenario_name : string) (w w' : World G)
    (upid sku : string) : Prop :=
  (upid = "" ∧ sku = "" ∧ may_be_missing scenario_name
   ∧ generated_upids w' = generated_upids w ∧ generated_skus w' = generated_skus w)
  ∨ (generated_upids w' = {[upid]} ∪ generated_upids w
     ∧ generated_skus w' = {[sku]} ∪ generated_skus w
     ∧ (is_upid upid ∨ upid ∈ generated_upids w)
     ∧ (is_sku sku ∨ sku ∈ generated_skus w)).

Lemma NoDup_data_CARE_CODES : NoDup GenerateTestData.CARE_CODES.
Proof. apply (bool_decide_unpack _). vm_compute. exact I. Qed.

Lemma NoDup_data_ECO_CLAIMS : NoDup GenerateTestData.ECO_CLAIMS.
Proof. apply (bool_decide_unpack _). vm_compute. exact I. Qed.

Lemma draws_joined_codes (population : list string) (most k : Z) :
  NoDup population → 0 ≤ k ≤ most → most ≤ Z.of_nat (length population) →
  draws (λ s, s = "" ∨ joined_sample population most s)
    (if 0 <? k then codes ← random.sample population k; ret (str_join "," codes)
     else ret "" : M (World G) string).
Proof.
  intros Hnd Hk Hmost. destruct (Z.ltb_spec 0 k); [| apply draws_ret; by left].
  eapply draws_bind; [apply draws_sample_distinct; [done | lia] |].
  intros codes (Hlen & Hcodes & Hsub). apply draws_ret. right.
  exists codes. repeat split; try done; lia.
Qed.

(** [generate_row]: returns normally in every scenario and from every
    state; the record is as [TestDataRow.fields] describes, and the
    identifier sets have changed as [identifiers_recorded] describes. *)
Lemma wp_generate_row_fields self row_number (Q : Row → World G → Prop) w :
  (∀ row w' upid sku,
     fields (scenario self) upid sku row →
     set_order w' = set_order w →
     identifiers_recorded (scenario self) w w' upid sku →
     Q row w') →
  wp (generate_row self row_number) Q w.
Proof.
  intros HQ. unfold generate_row.
  apply wp_bind. eapply wp_draws; [apply draws_error_kind |].
  intros [should_have_error error_type] w1 (Hmiss & Hinv & Hdup & Hforce) Hf1.
  cbn [fst snd] in Hmiss, Hinv, Hdup, Hforce. cbn beta iota.
  apply wp_bind. eapply wp_draws; [apply (draws_and_then _ _ (draws_chance _)) |].
  intros missing_ids w2 Hmissing_ids Hf2. cbn beta in Hmissing_ids. cbn beta.
  apply wp_bind. eapply wp_mono with
    (Q := λ ids w3, set_order w3 = set_order w
                    ∧ identifiers_recorded (scenario self) w w3 ids.1 ids.2).
  { destruct (frame_trans _ _ _ Hf1 Hf2) as (Ho & Hu & Hk). destruct missing_ids.
    - apply wp_ret. split; [done |]. left. cbn [fst snd]. auto 6.
    - apply wp_bind, wp_generate_upid_form. intros upid w3 Ho3 Hk3 Hu3 Hupid. cbn beta.
      apply wp_bind, wp_generate_sku_form. intros sku w4 Ho4 Hu4 Hk4 Hsku. cbn beta.
      apply wp_ret. split; [congruence |]. right. cbn [fst snd].
      split; [congruence |]. split; [congruence |]. split.
      + destruct Hupid as [? | [_ Hin]]; [by left | right; by rewrite <- Hu].
      + destruct Hsku as [? | [_ Hin]]; [by left | right]. by rewrite <- Hk, <- Hk3. }
  intros [upid sku] w3 [Ho3 Hids]. cbn [fst snd] in Hids. cbn beta iota.
  eapply wp_draws with (φ := fields (scenario self) upid sku); cycle 1.
  { intros row w4 Hrow (Ho4 & Hu4 & Hk4). apply (HQ row w4 upid sku); [done | congruence |].
    destruct Hids as [(? & ? & ? & ? & ?) | (? & ? & ? & ?)]; [left | right];
      repeat split; try done; congruence. }
  clear HQ Hids Ho3 Hf1 Hf2 Hmissing_ids Hdup w w1 w2 w3 missing_ids.
  (* the product name *)
  eapply draws_bind; [apply (draws_and_then _ _ (draws_chance _)) |].
  intros missing_name Hmissing_name. cbn beta in Hmissing_name.
  eapply draws_bind with
    (ψ := λ name, is_composed_name name ∨ (name = "" ∧ may_be_missing (scenario self))
                  ∨ (name ∈ invalid_names ∧ may_be_invalid (scenario self))).
  { destruct missing_name.
    - apply draws_ret. right. left. auto.
    - eapply draws_bind; [apply (draws_and_then _ _ (draws_chance _)) |].
      intros invalid Hinvalid. cbn beta in Hinvalid.
      eapply draws_weaken; [apply draws_product_name_kind |].
      intros name Hname. destruct invalid; [right; right; auto | by left]. }
  intros product_name Hproduct_name.
  (* the optional block *)
  apply draws_bind_any; [apply draws_chance |]. intros half. cbv zeta.
  set (include_optional := half || is_kind error_type "invalid").
  eapply draws_bind with
    (ψ := λ text, if include_optional
                  then is_description text ∨ (text = str_mul "D" 2500 ∧ may_be_invalid (scenario self))
                  else text = "").
  { destruct include_optional; [| by apply draws_ret].
    eapply draws_bind; [apply (draws_and_then _ _ (draws_chance _)) |].
    intros invalid Hinvalid. cbn beta in Hinvalid.
    eapply draws_weaken; [apply draws_description_kind |].
    intros text Htext. destruct invalid; [right; auto | by left]. }
  intros description Hdescription.
  eapply draws_bind with (ψ := λ c, if include_optional then c ∈ CATEGORIES else c = "").
  { destruct include_optional; [by apply draws_choice | by apply draws_ret]. }
  intros category Hcategory.
  eapply draws_bind with (ψ := λ c, if include_optional then c ∈ SEASONS else c = "").
  { destruct include_optional; [by apply draws_choice | by apply draws_ret]. }
  intros season Hseason.
  eapply draws_bind with
    (ψ := λ url, if include_optional
                 then is_url url ∨ (url = "not-a-valid-url" ∧ may_be_invalid (scenario self))
                 else url = "").
  { destruct include_optional; [| by apply draws_ret].
    eapply draws_bind; [apply (draws_and_then _ _ (draws_chance _)) |].
    intros invalid Hinvalid. cbn beta in Hinvalid.
    eapply draws_weaken; [apply draws_url_kind |].
    intros url Hurl. destruct invalid; [right; auto | by left]. }
  intros primary Hprimary.
  (* colour, size, second image *)
  apply draws_bind_any; [apply draws_chance |]. intros with_color.
  eapply draws_bind with (ψ := λ c, if with_color then c ∈ COLORS else c = "").
  { destruct with_color; [by apply draws_choice | by apply draws_ret]. }
  intros color Hcolor.
  apply draws_bind_any; [apply draws_chance |]. intros with_size.
  eapply draws_bind with (ψ := λ c, if with_size then c ∈ SIZES else c = "").
  { destruct with_size; [by apply draws_choice | by apply draws_ret]. }
  intros size Hsize.
  apply draws_bind_any; [apply draws_chance |]. intros with_image.
  eapply draws_bind with
    (ψ := λ url, if with_image
                 then is_url url ∨ (url = "not-a-valid-url" ∧ may_be_invalid (scenario self))
                 else url = "").
  { destruct with_image; [| by apply draws_ret].
    eapply draws_bind; [apply (draws_and_then _ _ (draws_chance _)) |].
    intros invalid Hinvalid. cbn beta in Hinvalid.
    eapply draws_weaken; [apply draws_url_kind |].
    intros url Hurl. destruct invalid; [right; auto | by left]. }
  intros image Himage.
  (* materials *)
  eapply draws_bind; [apply (draws_and_then _ _ (draws_chance _)) |].
  intros invalid_materials Hinvalid_materials. cbn beta in Hinvalid_materials.
  eapply draws_bind; [apply draws_materials_kind |].
  intros composition Hcomposition. cbn beta in Hcomposition.
  (* care codes, eco claims, score *)
  apply draws_bind_any; [apply draws_chance |]. intros with_care.
  eapply draws_bind with (ψ := λ k, 0 ≤ k ≤ 4).
  { destruct with_care; [| apply draws_ret; lia].
    eapply draws_weaken; [apply draws_randint; lia |]. cbn beta. lia. }
  intros num_care_codes Hnum_care.
  eapply draws_bind;
    [apply (draws_joined_codes _ 4); [apply NoDup_data_CARE_CODES | done | simpl; lia] |].
  intros care_codes Hcare_codes.
  apply draws_bind_any; [apply draws_chance |]. intros with_eco.
  eapply draws_bind with (ψ := λ k, 0 ≤ k ≤ 3).
  { destruct with_eco; [| apply draws_ret; lia].
    eapply draws_weaken; [apply draws_randint; lia |]. cbn beta. lia. }
  intros num_eco_claims Hnum_eco.
  eapply draws_bind;
    [apply (draws_joined_codes _ 3); [apply NoDup_data_ECO_CLAIMS | done | simpl; lia] |].
  intros eco_claims Heco_claims.
  apply draws_bind_any; [apply draws_chance |]. intros with_score.
  eapply draws_bind with (ψ := λ v, v = PStr "" ∨ ∃ z, 50 ≤ z ≤ 100 ∧ v = PInt z).
  { destruct with_score; [| apply draws_ret; by left].
    eapply draws_bind; [apply draws_randint; lia |]. intros z Hz.
    apply draws_ret. right. by exists z. }
  intros environment_score Hscore.
  (* the six material columns *)
  assert (∃ m1 p1 m2 p2,
            pad_materials composition = ([m1; m2; PStr ""], [p1; p2; PStr ""])
            ∧ ((∃ name percentage, [name; percentage] ∈ GenerateTestData.MATERIALS
                  ∧ m1 = name ∧ p1 = percentage ∧ m2 = PStr "" ∧ p2 = PStr "")
               ∨ (may_be_invalid (scenario self) ∧ m1 = PStr "Cotton" ∧ p1 = PInt 65
                  ∧ m2 = PStr "Polyester" ∧ p2 = PInt 50)))
    as (m1 & p1 & m2 & p2 & -> & Hmaterials).
  { destruct invalid_materials.
    - subst composition. eexists _, _, _, _. split; [reflexivity |]. right. auto 6.
    - destruct Hcomposition as (name & percentage & Hin & ->).
      eexists _, _, _, _. split; [reflexivity |]. left. eauto 8. }
  cbn [fst snd].
  eapply draws_bind; [apply draws_index_lookup; simpl; lia |]. intros ? [= <-].
  eapply draws_bind; [apply draws_index_lookup; simpl; lia |]. intros ? [= <-].
  eapply draws_bind; [apply draws_index_lookup; simpl; lia |]. intros ? [= <-].
  eapply draws_bind; [apply draws_index_lookup; simpl; lia |]. intros ? [= <-].
  eapply draws_bind; [apply draws_index_lookup; simpl; lia |]. intros ? [= <-].
  eapply draws_bind; [apply draws_index_lookup; simpl; lia |]. intros ? [= <-].
  apply draws_ret.
  assert (include_optional = true →
          description ≠ "" ∧ category ≠ "" ∧ season ≠ "" ∧ primary ≠ "") as Hfilled.
  { intros Hopt. rewrite Hopt in *. repeat split.
    - destruct Hdescription as [Hd%description_bounds | [-> _]];
        [intros ->; simpl in Hd; lia | by apply str_mul_nonempty; lia].
    - by apply (listed_nonempty CATEGORIES).
    - by apply (listed_nonempty SEASONS).
    - destruct Hprimary as [Hu%is_url_nonempty | [-> _]]; done. }
  constructor; unfold field;
    cbn [dict_get find fst snd String.eqb Ascii.eqb Bool.eqb fmap option_fmap option_map default].
  - reflexivity.
  - eauto.
  - reflexivity.
  - reflexivity.
  - exists description. split; [done |]. destruct include_optional; [by right | by left].
  - exists category. split; [done |]. destruct include_optional; auto.
  - exists season. split; [done |]. destruct include_optional; auto.
  - exists primary. split; [done |]. destruct include_optional; [by right | by left].
  - unfold optional_columns. destruct include_optional.
    + right. destruct (Hfilled eq_refl) as (? & ? & ? & ?).
      repeat constructor; unfold field; cbn; congruence.
    + left. subst. repeat constructor.
  - intros Hscenario. assert (include_optional = true) as Hopt.
    { unfold include_optional. rewrite (Hforce Hscenario). apply orb_true_r. }
    destruct (Hfilled Hopt) as (? & ? & ? & ?).
    repeat constructor; unfold field; cbn; congruence.
  - exists color. split; [done |]. destruct with_color; auto.
  - exists size. split; [done |]. destruct with_size; auto.
  - exists image. split; [done |]. destruct with_image; [by right | by left].
  - done.
  - done.
  - exists care_codes. split; [done |]. done.
  - exists eco_claims. split; [done |]. done.
  - destruct Hscore as [-> | (z & Hz & ->)]; [by left | right; by exists z].
Qed.

End TestDataRowMaster.

(* ===================================================================== *)
(** * generate-test-data.py: the rows of a run *)
(* ===================================================================== *)

(** [f] holds of the [count] integers from [z] on. *)
Fixpoint all_from (count : nat) (z : Z) (f : Z → bool) : bool :=
  match count with
  | O => true
  | S count' => if f z then all_from count' (z + 1) f else false
  end.

Lemma all_from_spec (count : nat) (z : Z) (f : Z → bool) :
  all_from count z f = true → ∀ n, z ≤ n < z + Z.of_nat count → f n = true.
Proof.
  revert z. induction count as [|count IH]; intros z Hall n Hn; simpl in *; [lia |].
  destruct (f z) eqn:Hz; [| done].
  destruct (decide (n = z)) as [-> | Hne]; [done |].
  apply (IH (z + 1)); [done | lia].
Qed.

(** A string of decimal digits. *)
Definition is_digit (c : Ascii.ascii) : bool :=
  existsb (Ascii.eqb c) ["0"; "1"; "2"; "3"; "4"; "5"; "6"; "7"; "8"; "9"]%char.

Fixpoint all_digits (s : string) : bool :=
  match s with
  | EmptyString => true
  | String c s' => is_digit c && all_digits s'
  end.

Lemma all_digits_string_of_uint (d : Decimal.uint) :
  all_digits (NilZero.string_of_uint d) = true.
Proof.
  assert (all_digits (NilEmpty.string_of_uint d) = true) as Hd.
  { induction d as [|d IH|d IH|d IH|d IH|d IH|d IH|d IH|d IH|d IH|d IH];
      cbn [NilEmpty.string_of_uint all_digits]; [done | rewrite IH; reflexivity ..]. }
  by destruct d.
Qed.

(** [str] of a number that is not negative consists of digits. *)
Lemma all_digits_str (n : Z) : 0 ≤ n → all_digits (str n) = true.
Proof.
  intros Hn. unfold str. destruct n as [|p|p]; [done | | lia].
  apply all_digits_string_of_uint.
Qed.

(** The numbers of a UPID are written with six digits and those of a SKU
    with five, by evaluation of [str] on each of them. *)
Lemma six_digits (n : Z) : 100000 ≤ n ≤ 999999 → String.length (str n) = 6%nat.
Proof.
  intros Hn. apply Nat.eqb_eq.
  apply (all_from_spec (Z.to_nat 900000) 100000 (λ n, (String.length (str n) =? 6)%nat));
    [vm_compute; reflexivity | lia].
Qed.

Lemma five_digits (n : Z) : 10000 ≤ n ≤ 99999 → String.length (str n) = 5%nat.
Proof.
  intros Hn. apply Nat.eqb_eq.
  apply (all_from_spec (Z.to_nat 90000) 10000 (λ n, (String.length (str n) =? 5)%nat));
    [vm_compute; reflexivity | lia].
Qed.

(** The zero padding of [f"{n:06d}"] never pads a number of a UPID. *)
Lemma zfill_six (n : Z) : 100000 ≤ n ≤ 999999 → zfill 6 n = str n.
Proof. intros Hn%six_digits. unfold zfill. by rewrite Hn. Qed.

Section TestDataRun.
Context {G : Type} `{!PyRandom G}.
Import GenerateTestData TestDataRow TestDataIds.

Lemma is_upid_nonempty upid : is_upid upid → upid ≠ "".
Proof. intros (n & _ & ->). discriminate. Qed.

Lemma is_sku_nonempty sku : TestDataIds.is_sku sku → sku ≠ "".
Proof. intros (prefix & n & _ & _ & ->). discriminate. Qed.

(** The identifiers of a row: both missing, or both composed by the two
    identifier methods at some time during the run. *)
Definition row_identifiers (scenario_name : string) (upid sku : string) : Prop :=
  (upid = "" ∧ sku = "" ∧ may_be_missing scenario_name)
  ∨ (is_upid upid ∧ TestDataIds.is_sku sku).

Definition row_of_run (scenario_name : string) (row : Row) : Prop :=
  ∃ upid sku, fields scenario_name upid sku row ∧ row_identifiers scenario_name upid sku.

Definition nonempty (s : string) : Prop := s ≠ "".

Lemma identifiers_snoc key (data : list Row) (row : Row) (s : string) :
  field row key = PStr s →
  identifiers key (data ++ [row]) = identifiers key data ++ [s].
Proof.
  intros Hs. unfold identifiers, column. rewrite !fmap_app. simpl. by rewrite Hs.
Qed.

(** A run returns one record per requested row.  Each is as
    [TestDataRow.fields] describes, and the two sets end up holding the
    identifiers of the rows that have them. *)
Lemma wp_run_rows scenario_name rows seed (Q : list Row → World G → Prop) w :
  (∀ data w',
     length data = Z.to_nat rows →
     Forall (row_of_run scenario_name) data →
     generated_upids w' = list_to_set (filter nonempty (identifiers "upid" data)) →
     generated_skus w' = list_to_set (filter nonempty (identifiers "sku" data)) →
     Q data w') →
  wp (run scenario_name rows seed) Q w.
Proof.
  intros HQ. unfold run.
  apply wp_bind, wp_init. intros self w1 Hscenario Hrows _ _ _ _ Hu Hk.
  unfold generate. eapply wp_mono.
  { apply (wp_for_each_acc _ _
      (λ data w',
         generated_upids w' = list_to_set (filter nonempty (identifiers "upid" data))
         ∧ generated_skus w' = list_to_set (filter nonempty (identifiers "sku" data))
         ∧ (∀ u, u ∈ generated_upids w' → is_upid u)
         ∧ (∀ k, k ∈ generated_skus w' → TestDataIds.is_sku k)
         ∧ Forall (row_of_run scenario_name) data) []).
    { rewrite Hu, Hk. repeat split; try done; intros ? ?%elem_of_empty; done. }
    intros i data w2 (Hu2 & Hk2 & Hus & Hks & Hdata). apply wp_generate_row_fields.
    intros row w3 upid sku Hrow _ Hids. rewrite Hscenario in Hrow, Hids.
    rewrite (identifiers_snoc "upid" _ _ upid) by apply Hrow.
    rewrite (identifiers_snoc "sku" _ _ sku) by apply Hrow.
    rewrite !filter_app, !filter_cons, !filter_nil.
    destruct Hids as [(-> & -> & Hmissing & Hu3 & Hk3) | (Hu3 & Hk3 & Hupid & Hsku)].
    - rewrite !decide_False by (unfold nonempty; auto). rewrite !app_nil_r, Hu3, Hk3.
      repeat split; try done; try congruence.
      apply Forall_app. split; [done |]. constructor; [| done].
      exists "", "". split; [done |]. by left.
    - assert (is_upid upid) as Hupid' by (destruct Hupid; auto).
      assert (TestDataIds.is_sku sku) as Hsku' by (destruct Hsku; auto).
      rewrite !decide_True
        by first [by apply is_upid_nonempty | by apply is_sku_nonempty].
      rewrite !list_to_set_snoc, Hu3, Hk3, Hu2, Hk2.
      split; [done |]. split; [done |]. split; [| split].
      + intros u [->%elem_of_singleton | Hin]%elem_of_union; [done |]. apply Hus. by rewrite Hu2.
      + intros k [->%elem_of_singleton | Hin]%elem_of_union; [done |]. apply Hks. by rewrite Hk2.
      + apply Forall_app. split; [done |]. constructor; [| done].
        exists upid, sku. split; [done |]. by right. }
  intros data w' [(Hu' & Hk' & _ & _ & Hdata) Hlen]. cbn [app] in *.
  apply HQ; try done.
  unfold range in Hlen. rewrite length_fmap, length_seq in Hlen. by rewrite <- Hrows.
Qed.

End TestDataRun.



Section TestDataProperties.
Context {G : Type} `{!PyRandom G}.
Import GenerateTestData TestDataRow TestDataIds.

(** X11. The identifiers of a run, for every scenario, row count, seed
    argument and state of the process.  In each record the UPID and the
    SKU are both empty (only in scenarios "missing_fields" and "mixed") or
    both present; a UPID is "UPID-" and six digits (the zero padding of
    the format never applies), a SKU is "SKU-", one of four prefixes, "-"
    and five digits.  At the end [generated_upids] and [generated_skus]
    hold exactly the identifiers that occur in the records. *)
Theorem run_identifiers_are_well_formed_and_recorded
    (scenario_name : string) (rows : Z) (seed : option Z) (w : World G) :
  wp (run scenario_name rows seed)
     (λ data w',
        Forall (λ row,
                  (field row "upid" = PStr "" ∧ field row "sku" = PStr ""
                   ∧ (scenario_name = "missing_fields" ∨ scenario_name = "mixed"))
                  ∨ ∃ (n : Z) (prefix : string) (m : Z),
                      100000 ≤ n ≤ 999999 ∧ prefix ∈ ["TSH"; "PNT"; "JKT"; "DRS"]
                      ∧ 10000 ≤ m ≤ 99999
                      ∧ field row "upid" = PStr ("UPID-" +:+ str n)
                      ∧ String.length (str n) = 6%nat ∧ all_digits (str n) = true
                      ∧ field row "sku" = PStr ("SKU-" +:+ prefix +:+ "-" +:+ str m)
                      ∧ String.length (str m) = 5%nat ∧ all_digits (str m) = true) data
        ∧ generated_upids w' = list_to_set (filter nonempty (identifiers "upid" data))
        ∧ generated_skus w' = list_to_set (filter nonempty (identifiers "sku" data))) w.
Proof.
  apply wp_run_rows. intros data w' _ Hdata Hu Hk. split; [| done].
  eapply Forall_impl; [exact Hdata |].
  intros row (upid & sku & Hrow & Hids). cbn beta.
  rewrite (upid_column _ _ _ _ Hrow), (sku_column _ _ _ _ Hrow).
  destruct Hids as [(-> & -> & Hmissing) | [(n & Hn & ->) (prefix & m & Hprefix & Hm & ->)]].
  - by left.
  - right. exists n, prefix, m. rewrite (zfill_six n Hn).
    repeat split; try done; try lia;
      first [by apply six_digits | by apply five_digits | apply all_digits_str; lia].
Qed.

(** X12. [generate_row] fills the description, the category, the season
    and the primary image together or leaves all four empty, in every
    scenario; in scenario "invalid_formats" all four are always filled. *)
Theorem optional_columns_are_filled_together
    (scenario_name : string) (rows : Z) (seed : option Z) (w : World G) :
  wp (run scenario_name rows seed)
     (λ data _,
        Forall (λ row,
                  (Forall (λ key, field row key = PStr "")
                          ["description"; "category_name"; "season"; "primary_image_url"]
                   ∨ Forall (λ key, field row key ≠ PStr "")
                            ["description"; "category_name"; "season"; "primary_image_url"])
                  ∧ (scenario_name = "invalid_formats" →
                     Forall (λ key, field row key ≠ PStr "")
                            ["description"; "category_name"; "season"; "primary_image_url"]))
               data) w.
Proof.
  apply wp_run_rows. intros data w' _ Hdata _ _.
  eapply Forall_impl; [exact Hdata |].
  intros row (upid & sku & Hrow & _). cbn beta.
  split; [apply (optional_together _ _ _ _ Hrow) | apply (optional_when_invalid _ _ _ _ Hrow)].
Qed.

Lemma not_invalid scenario_name :
  scenario_name ≠ "invalid_formats" → scenario_name ≠ "mixed" → ¬ may_be_invalid scenario_name.
Proof. intros H1 H2 [? | ?]; done. Qed.

(** X13. Outside the scenarios "invalid_formats" and "mixed" no record
    carries an invalid value: the name has at most 100 characters and the
    description at most 2000, each image URL is empty or of the form
    https://domain/products/product-N.jpg, and the materials are one entry
    of the table and nothing else.  A name is empty only in scenario
    "missing_fields". *)
Theorem rows_carry_no_invalid_value_outside_invalid_scenarios
    (scenario_name : string) (rows : Z) (seed : option Z) (w : World G) :
  scenario_name ≠ "invalid_formats" → scenario_name ≠ "mixed" →
  wp (run scenario_name rows seed)
     (λ data _,
        Forall (λ row,
                  long_name row = false
                  ∧ long_description row = false
                  ∧ blank_or is_url (field row "primary_image_url")
                  ∧ blank_or is_url (field row "product_image_url")
                  ∧ (field row "product_name" = PStr "" → scenario_name = "missing_fields")
                  ∧ ∃ name percentage,
                      [name; percentage] ∈ GenerateTestData.MATERIALS
                      ∧ field row "material_1_name" = name
                      ∧ field row "material_1_percentage" = percentage
                      ∧ field row "material_2_name" = PStr ""
                      ∧ field row "material_2_percentage" = PStr "") data) w.
Proof.
  intros Hinvalid Hmixed. pose proof (not_invalid _ Hinvalid Hmixed) as Hnot.
  apply wp_run_rows. intros data w' _ Hdata _ _.
  eapply Forall_impl; [exact Hdata |].
  intros row (upid & sku & Hrow & _). cbn beta.
  destruct (product_name _ _ _ _ Hrow) as (name & Hname & Hname_kind).
  destruct (description _ _ _ _ Hrow) as (text & Htext & Htext_kind).
  destruct (primary_image_url _ _ _ _ Hrow) as (url1 & Hurl1 & Hurl1_kind).
  destruct (product_image_url _ _ _ _ Hrow) as (url2 & Hurl2 & Hurl2_kind).
  rewrite (long_name_of_field _ _ Hname), (long_description_of_field _ _ Htext).
  rewrite Hname, Hurl1, Hurl2.
  split; [| split; [| split; [| split; [| split]]]].
  - apply Nat.ltb_ge.
    destruct Hname_kind as [Hc%composed_name_bounds | [[-> _] | [_ ?]]];
      [lia | simpl; lia | done].
  - apply Nat.ltb_ge.
    destruct Htext_kind as [-> | [Hd%description_bounds | [_ ?]]]; [simpl; lia | lia | done].
  - exists url1. split; [done |]. destruct Hurl1_kind as [? | [? | [_ ?]]]; [by left | by right | done].
  - exists url2. split; [done |]. destruct Hurl2_kind as [? | [? | [_ ?]]]; [by left | by right | done].
  - intros [= ->].
    destruct Hname_kind as [Hc%composed_name_bounds | [[_ [? | ?]] | [_ ?]]];
      [simpl in Hc; lia | done | done | done].
  - destruct (materials _ _ _ _ Hrow) as [Hone | [? _]]; [exact Hone | done].
Qed.

(** An entry of the table: a name that is not empty and a percentage
    between 5 and 100. *)
Definition material_entry (m : list pyval) : bool :=
  match m with
  | [PStr s; PInt p] => negb (String.eqb s "") && (5 <=? p) && (p <=? 100)
  | _ => false
  end.

Lemma MATERIALS_percentages name percentage :
  [name; percentage] ∈ GenerateTestData.MATERIALS →
  (∃ s, name = PStr s ∧ s ≠ "") ∧ ∃ p, 5 ≤ p ≤ 100 ∧ percentage = PInt p.
Proof.
  intros Hin%list_elem_of_In.
  assert (forallb material_entry GenerateTestData.MATERIALS = true) as Htable by reflexivity.
  apply (proj1 (forallb_forall _ _) Htable) in Hin.
  destruct name as [s | ?], percentage as [? | p]; try discriminate. simpl in Hin.
  apply andb_prop in Hin as [[Hs%negb_true_iff%String.eqb_neq H5%Z.leb_le]%andb_prop H100%Z.leb_le].
  split; [by exists s | exists p; split; [lia | done]].
Qed.






End TestDataProperties.

(** A count divided by itself is the float 1. *)
Lemma fdiv_same (n : Z) : 0 < n → fdiv (inject_Z n) (inject_Z n) = Qmake (2 ^ 52) (2 ^ 52).
Proof.
  intros Hn. destruct n as [|p|p]; try lia. clear Hn.
  unfold fdiv, fround.
  cbn [Qdiv Qinv Qmult inject_Z Qnum Qden].
  rewrite Z.mul_1_r, !Pos.mul_1_l.
  change (Z.abs (Z.pos p)) with (Z.pos p). change (Z.pos p =? 0) with false.
  change (Z.sgn (Z.pos p)) with 1. rewrite Z.sub_diag.
  assert (Qle_bool (pow2 0) (Z.pos p # p) = true) as ->.
  { unfold Qle_bool, pow2. cbn. apply Z.leb_le. lia. }
  change (- (0 - 52)) with 52. change (0 - 52) with (-52).
  change (pow2 52) with (inject_Z (2 ^ 52)).
  cbn [Qnum Qden inject_Z]. rewrite Pos.mul_1_r.
  unfold round_half_even.
  rewrite (Z.mul_comm (Z.pos p)), Z.div_mul, Z.mod_mul by done.
  cbn [Z.mul Z.compare].
  reflexivity.
Qed.

Lemma materials_coverage_text : 
  Statistics.format_1f (fmul (Qmake (2 ^ 52) (2 ^ 52)) (inject_Z 100)) = "100.0".
Proof. vm_compute. reflexivity. Qed.

Lemma dict_get_field (row : Row) (key : string) :
  key ∈ keys row → dict_get row key = Some (field row key).
Proof.
  unfold field, dict_get, keys. induction row as [|[k v] row IH]; intros Hin.
  - by apply elem_of_nil in Hin.
  - rewrite fmap_cons in Hin. cbn [find fst].
    destruct (String.eqb_spec k key) as [-> | Hne]; [done |].
    apply elem_of_cons in Hin as [-> | Hin]; [done |].
    specialize (IH Hin). destruct (find _ row); [done | discriminate].
Qed.

Lemma getitem_field (row : Row) (key : string) :
  key ∈ keys row → Statistics.getitem row key = Ok (field row key).
Proof. intros Hin. unfold Statistics.getitem. by rewrite dict_get_field. Qed.

(** The number of rows that satisfy [b]. *)
Definition tally (b : Row → bool) (data : list Row) : Z :=
  foldr (λ row n, (if b row then 1 else 0) + n) 0 data.

Lemma count_tally (condition : Row → result bool Statistics.error) (b : Row → bool)
    (data : list Row) :
  Forall (λ row, condition row = Ok (b row)) data →
  Statistics.count condition data = Ok (tally b data).
Proof.
  induction 1 as [|row data Hrow _ IH]; [done |].
  cbn [Statistics.count tally foldr]. by rewrite Hrow, IH.
Qed.

Lemma tally_all (b : Row → bool) (data : list Row) :
  Forall (λ row, b row = true) data → tally b data = Z.of_nat (length data).
Proof.
  induction 1 as [|row data Hrow _ IH]; [done |].
  cbn [tally foldr length]. fold (tally b data). rewrite Hrow, IH. lia.
Qed.

Lemma tally_none (b : Row → bool) (data : list Row) :
  Forall (λ row, b row = false) data → tally b data = 0.
Proof.
  induction 1 as [|row data Hrow _ IH]; [done |].
  cbn [tally foldr]. fold (tally b data). rewrite Hrow, IH. lia.
Qed.

Section StatisticsSpecs.
Context {G : Type} `{!PyRandom G}.
Import GenerateTestData TestDataRow TestDataIds.

Lemma in_fieldnames (row : Row) (key : string) :
  keys row = fieldnames → bool_decide (key ∈ fieldnames) = true → key ∈ keys row.
Proof. intros -> Hin. by apply bool_decide_eq_true in Hin. Qed.

Lemma lacks_upid_and_sku_field (row : Row) :
  keys row = fieldnames →
  Statistics.lacks_upid_and_sku row = Ok (missing_upid_sku row).
Proof.
  intros Hkeys. unfold Statistics.lacks_upid_and_sku, missing_upid_sku.
  rewrite !getitem_field by (by apply in_fieldnames).
  by destruct (truthy (field row "upid")).
Qed.

Lemma lacks_field (row : Row) (key : string) :
  key ∈ keys row → Statistics.lacks key row = Ok (negb (truthy (field row key))).
Proof. intros Hin. unfold Statistics.lacks. by rewrite getitem_field. Qed.

Lemma has_field (row : Row) (key : string) :
  key ∈ keys row → Statistics.has key row = Ok (truthy (field row key)).
Proof. intros Hin. unfold Statistics.has. by rewrite getitem_field. Qed.

(** X16. [print_statistics] divides by the number of rows: on an empty
    list it prints the seven lines that precede the coverage lines and
    raises [ZeroDivisionError].  A generator constructed with a row count
    below 1 generates the empty list, so its statistics raise ([main]
    rejects such a count before it constructs the generator). *)
Theorem statistics_raise_on_an_empty_list :
  (∀ w : World G,
     Statistics.print_statistics [] w
     = ([ Statistics.newline +:+ "=== Generation Statistics ===";
          "Total rows: 0";
          "Unique UPIDs: " +:+ str (Z.of_nat (size (generated_upids w)));
          "Unique SKUs: " +:+ str (Z.of_nat (size (generated_skus w)));
          "Rows missing both UPID and SKU: 0";
          "Rows missing product_name: 0";
          Statistics.newline +:+ "Optional field coverage:" ],
        Error Statistics.ZeroDivisionError))
  ∧ (∀ (scenario_name : string) (rows : Z) (seed : option Z) (w : World G),
       rows < 1 →
       wp (run scenario_name rows seed)
          (λ data w',
             data = []
             ∧ (Statistics.print_statistics data w').2 = Error Statistics.ZeroDivisionError) w).
Proof.
  split; [reflexivity |].
  intros scenario_name rows seed w Hrows. apply wp_run_rows.
  intros data w' Hlen _ _ _.
  assert (data = []) as -> by (apply nil_length_inv; lia). done.
Qed.

(** X17. The statistics of a run of at least one row: [print_statistics]
    returns normally after printing eleven lines; the total it prints is
    the requested row count, the materials coverage is always all rows at
    100.0%, and outside the scenarios "missing_fields" and "mixed" the
    count of rows missing both identifiers is 0. *)
Theorem statistics_of_a_run
    (scenario_name : string) (rows : Z) (seed : option Z) (w : World G) :
  1 ≤ rows →
  wp (run scenario_name rows seed)
     (λ data w',
        ∃ lines,
          Statistics.print_statistics data w' = (lines, Ok tt)
          ∧ length lines = 11%nat
          ∧ lines !! 1%nat = Some ("Total rows: " +:+ str rows)
          ∧ lines !! 8%nat
            = Some ("  - Materials: " +:+ str rows +:+ "/" +:+ str rows +:+ " (100.0%)")
          ∧ (scenario_name ≠ "missing_fields" → scenario_name ≠ "mixed" →
             lines !! 4%nat = Some "Rows missing both UPID and SKU: 0")) w.
Proof.
  intros Hrows. apply wp_run_rows. intros data w' Hlen Hdata _ _.
  assert (Forall (λ row, keys row = fieldnames) data) as Hkeys.
  { eapply Forall_impl; [exact Hdata |]. intros row (upid & sku & Hrow & _).
    apply (columns _ _ _ _ Hrow). }
  assert (Z.of_nat (length data) = rows) as Htotal by lia.
  unfold Statistics.print_statistics. rewrite Htotal.
  rewrite (count_tally _ missing_upid_sku)
    by (eapply Forall_impl; [exact Hkeys |]; apply lacks_upid_and_sku_field).
  rewrite (count_tally _ missing_name)
    by (eapply Forall_impl; [exact Hkeys |]; intros row Hrow;
        apply lacks_field; by apply in_fieldnames).
  rewrite (count_tally _ (λ row, truthy (field row "description")))
    by (eapply Forall_impl; [exact Hkeys |]; intros row Hrow;
        apply has_field; by apply in_fieldnames).
  rewrite (count_tally _ (λ row, truthy (field row "material_1_name")))
    by (eapply Forall_impl; [exact Hkeys |]; intros row Hrow;
        apply has_field; by apply in_fieldnames).
  rewrite (count_tally _ (λ row, truthy (field row "care_codes")))
    by (eapply Forall_impl; [exact Hkeys |]; intros row Hrow;
        apply has_field; by apply in_fieldnames).
  rewrite (count_tally _ (λ row, truthy (field row "eco_claims")))
    by (eapply Forall_impl; [exact Hkeys |]; intros row Hrow;
        apply has_field; by apply in_fieldnames).
  assert (tally (λ row, truthy (field row "material_1_name")) data = rows) as ->.
  { rewrite tally_all; [done |]. eapply Forall_impl; [exact Hdata |].
    intros row (upid & sku & Hrow & _). cbn beta.
    destruct (materials _ _ _ _ Hrow)
      as [(name & percentage & [(s & -> & Hs) _]%MATERIALS_percentages & -> & _)
         | (_ & -> & _)]; [by apply truthy_nonempty | done]. }
  unfold Statistics.coverage.
  destruct (Z.eqb_spec rows 0) as [? | _]; [lia |].
  rewrite (fdiv_same rows) by lia. rewrite materials_coverage_text.
  eexists. split; [reflexivity |]. split; [reflexivity |]. split; [reflexivity |].
  split; [reflexivity |].
  intros Hmissing Hmixed. cbn [lookup list_lookup app].
  rewrite tally_none; [done |]. eapply Forall_impl; [exact Hdata |].
  intros row (upid & sku & Hrow & Hids). cbn beta. unfold missing_upid_sku.
  rewrite (upid_column _ _ _ _ Hrow).
  destruct Hids as [(_ & _ & [? | ?]) | [Hupid%is_upid_nonempty _]]; [done | done |].
  by rewrite (truthy_nonempty upid).
Qed.

End StatisticsSpecs.

(** X17, applied: three rows of scenario "valid" with seed 1. *)
Lemma statistics_of_three_valid_rows :
  1 ≤ 3
  ∧ wp (run "valid" 3 (Some 1))
       (λ data w',
          ∃ lines,
            Statistics.print_statistics data w' = (lines, Ok tt)
            ∧ length lines = 11%nat
            ∧ lines !! 1%nat = Some ("Total rows: " +:+ str 3)
            ∧ lines !! 8%nat
              = Some ("  - Materials: " +:+ str 3 +:+ "/" +:+ str 3 +:+ " (100.0%)")
            ∧ ("valid" ≠ "missing_fields" → "valid" ≠ "mixed" →
               lines !! 4%nat = Some "Rows missing both UPID and SKU: 0")) (cpython 0).
Proof.
  assert (1 ≤ 3) as Hrows by lia.
  split; [exact Hrows |].
  exact (statistics_of_a_run "valid" 3 (Some 1) (cpython 0) Hrows).
Defined.

(* ===================================================================== *)
(** * generate-test-data.py: the branch of [generate_materials] that
      rescales *)
(* ===================================================================== *)

Lemma sum_app (l k : list Z) : foldr Z.add 0 (l ++ k) = foldr Z.add 0 l + foldr Z.add 0 k.
Proof. induction l as [|x l IH]; simpl; [done | rewrite IH; lia]. Qed.

(** Overwriting the last entry: the sum is that of the entries before it
    and the new entry. *)
Lemma sum_insert_last (l : list Z) (v : Z) :
  l ≠ [] →
  foldr Z.add 0 (<[(length l - 1)%nat := v]> l)
  = foldr Z.add 0 (take (length l - 1) l) + v.
Proof.
  intros Hl. destruct (decide (l = [])) as [? | _]; [done |].
  assert (∃ l' x, l = l' ++ [x]) as (l' & x & ->).
  { destruct (exists_last Hl) as (l' & x & ->). eauto. }
  rewrite length_app. simpl. replace (length l' + 1 - 1)%nat with (length l') by lia.
  rewrite insert_app_r_alt by lia. rewrite Nat.sub_diag. simpl.
  rewrite take_app_length, sum_app. simpl. lia.
Qed.

Section Rescaling.
Context {G : Type} `{!PyRandom G}.
Import GenerateTestData.

Lemma draws_for_each {A B} (xs : list A) (body : A → M (World G) B) (φ : A → B → Prop) :
  (∀ x, x ∈ xs → draws (φ x) (body x)) →
  draws (λ bs, Forall2 φ xs bs) (for_each xs body).
Proof.
  induction xs as [|x xs IH]; intros Hbody; simpl.
  - apply draws_ret. constructor.
  - eapply draws_bind; [apply Hbody; by left |]. intros b Hb.
    eapply draws_bind; [apply IH; intros y Hy; apply Hbody; by right |]. intros bs Hbs.
    apply draws_ret. by constructor.
Qed.

Lemma draws_as_int (p : Z) : draws (λ z, z = p) (as_int (PInt p) : M (World G) Z).
Proof. by apply draws_ret. Qed.

Lemma draws_set_last {A} (l : list A) (v : A) :
  l ≠ [] →
  draws (λ l', l' = <[(length l - 1)%nat := v]> l) (set_last l v : M (World G) (list A)).
Proof. intros Hl. unfold set_last. destruct l; [done |]. by apply draws_ret. Qed.

Lemma draws_sample_subset {A} (population : list A) (k : Z) :
  0 ≤ k ≤ Z.of_nat (length population) →
  draws (λ l, Z.of_nat (length l) = k ∧ l ⊆ population) (random.sample population k).
Proof.
  intros Hk. unfold random.sample.
  destruct (0 <=? k) eqn:H0; [| lia].
  destruct (k <=? Z.of_nat (length population)) eqn:H1; [| lia]. simpl.
  eapply draws_weaken; [apply draws_sample_loop_submseteq; lia |].
  intros l [Hl Hsub]. simpl in Hsub. rewrite Nat2Z.id, firstn_all in Hsub.
  split; [lia |]. intros x Hx. by eapply elem_of_submseteq.
Qed.

(** An entry of the table, read as the code reads it. *)
Lemma MATERIALS_entry (m : list pyval) :
  m ∈ MATERIALS → ∃ s p, m = [PStr s; PInt p] ∧ 5 ≤ p ≤ 100.
Proof.
  intros Hin%list_elem_of_In.
  assert (forallb material_entry MATERIALS = true) as Htable by reflexivity.
  apply (proj1 (forallb_forall _ _) Htable) in Hin.
  destruct m as [|[s | ?] [|[? | p] [|]]]; try discriminate. simpl in Hin.
  apply andb_prop in Hin as [[_ H5%Z.leb_le]%andb_prop H100%Z.leb_le].
  exists s, p. split; [done | lia].
Qed.

Lemma sum_at_least (l : list Z) (low : Z) :
  Forall (λ z, low ≤ z) l → Z.of_nat (length l) * low ≤ foldr Z.add 0 l.
Proof. induction 1 as [|z l Hz _ IH]; simpl; [lia |]. simpl in IH. lia. Qed.

(** X18. The branch of [generate_materials] that picks several materials
    and rescales them returns, whenever it is run, between one and three
    materials with as many percentages, and the percentages sum to exactly
    100.  (No entry of [MATERIALS] ever leads to this branch.) *)
Theorem rescaling_branch_sums_to_100 (w : World G) :
  wp multiple_materials
     (λ composition _,
        ∃ percentages : list Z,
          composition.2 = PInt <$> percentages
          ∧ length composition.1 = length percentages
          ∧ (1 ≤ length percentages ≤ 3)%nat
          ∧ foldr Z.add 0 percentages = 100) w.
Proof.
  eapply wp_draws with
    (φ := λ composition,
            ∃ percentages : list Z,
              composition.2 = PInt <$> percentages
              ∧ length composition.1 = length percentages
              ∧ (1 ≤ length percentages ≤ 3)%nat
              ∧ foldr Z.add 0 percentages = 100); [| auto].
  unfold multiple_materials.
  eapply draws_bind; [by apply draws_choice |]. intros num_materials Hnum.
  assert (1 ≤ num_materials ≤ 3) as Hnum'.
  { revert Hnum. rewrite !elem_of_cons, elem_of_nil. intros [-> | [-> | [-> | []]]]; lia. }
  change (filter (λ m, is_pair m = true) MATERIALS) with MATERIALS.
  replace (Z.min num_materials (Z.of_nat (length MATERIALS))) with num_materials
    by (change (Z.of_nat (length MATERIALS)) with 18; lia).
  eapply draws_bind;
    [apply draws_sample_subset; change (Z.of_nat (length MATERIALS)) with 18; lia |].
  intros selected [Hlen Hselected]. cbv zeta.
  rewrite firstn_all2 by lia.
  eapply draws_bind.
  { apply (draws_for_each _ _ (λ _ _, True)). intros m Hm.
    destruct (MATERIALS_entry m (Hselected m Hm)) as (s & p & -> & _).
    eapply draws_any. apply draws_index. simpl. lia. }
  intros materials Hmaterials%Forall2_length.
  eapply draws_bind.
  { apply (draws_for_each _ _ (λ _ z, 5 ≤ z)). intros m Hm.
    destruct (MATERIALS_entry m (Hselected m Hm)) as (s & p & -> & Hp).
    eapply draws_bind; [apply draws_index_lookup; simpl; lia |]. intros v [= <-].
    eapply draws_weaken; [apply draws_as_int |]. intros z ->. lia. }
  intros percentages Hpercentages.
  assert (length percentages = length selected) as Hlen2
    by (symmetry; by eapply Forall2_length).
  assert (Forall (λ z, 5 ≤ z) percentages) as Hlow.
  { clear -Hpercentages. induction Hpercentages; constructor; auto. }
  apply sum_at_least in Hlow.
  destruct (Z.ltb_spec 0 (foldr Z.add 0 percentages)) as [_ | ?]; [| lia].
  set (scaled := (λ p, int_of_float
                    (fmul (fdiv (inject_Z p) (inject_Z (foldr Z.add 0 percentages)))
                          (inject_Z 100))) <$> percentages).
  assert (length scaled = length percentages) as Hlen3 by apply length_fmap.
  eapply draws_bind; [apply draws_set_last; intros Hnil; rewrite Hnil in Hlen3; simpl in Hlen3; lia |].
  intros percentages' ->. apply draws_ret. cbn [fst snd].
  eexists. split; [reflexivity |].
  rewrite length_insert. split; [lia |]. split; [lia |].
  rewrite sum_insert_last; [lia |].
  intros Hnil. rewrite Hnil in Hlen3. simpl in Hlen3. lia.
Qed.

End Rescaling.

(** X13, applied: three rows of scenario "duplicates" with seed 1. *)
Lemma duplicates_rows_carry_no_invalid_value :
  "duplicates" ≠ "invalid_formats" ∧ "duplicates" ≠ "mixed"
  ∧ wp (run "duplicates" 3 (Some 1))
       (λ data _,
          Forall (λ row,
                    long_name row = false
                    ∧ long_description row = false
                    ∧ blank_or TestDataRow.is_url (field row "primary_image_url")
                    ∧ blank_or TestDataRow.is_url (field row "product_image_url")
                    ∧ (field row "product_name" = PStr "" → "duplicates" = "missing_fields")
                    ∧ ∃ name percentage,
                        [name; percentage] ∈ GenerateTestData.MATERIALS
                        ∧ field row "material_1_name" = name
                        ∧ field row "material_1_percentage" = percentage
                        ∧ field row "material_2_name" = PStr ""
                        ∧ field row "material_2_percentage" = PStr "") data) (cpython 0).
Proof.
  assert ("duplicates" ≠ "invalid_formats") as Hinvalid by discriminate.
  assert ("duplicates" ≠ "mixed") as Hmixed by discriminate.
  split; [exact Hinvalid |]. split; [exact Hmixed |].
  exact (rows_carry_no_invalid_value_outside_invalid_scenarios
           "duplicates" 3 (Some 1) (cpython 0) Hinvalid Hmixed).
Defined.

Section Unchecked.
Context {G : Type} `{!PyRandom G}.
Import GenerateTestData.

(** Without [allow_duplicate] the set is written and never read. *)
Lemma generate_upid_ignores_its_set (w : World G) (known : gset string) :
  (generate_upid false (set_generated_upids known w)).1 = (generate_upid false w).1.
Proof.
  cbv [generate_upid bind gets ret modify random.randint random.randbelow andb Z.ltb]. simpl.
  by destruct (rng_randbelow _ (random_state w)).
Qed.

Lemma generate_sku_ignores_its_set (w : World G) (known : gset string) :
  (generate_sku false (set_generated_skus known w)).1 = (generate_sku false w).1.
Proof.
  cbv [generate_sku bind gets ret modify random.choice random.randint random.randbelow andb Z.ltb]. simpl.
  destruct (rng_randbelow _ (random_state w)) as [i g].
  cbv [index raise ret]. destruct (i <? 0); [done |]. destruct (_ !! _); [| done].
  simpl. by destruct (rng_randbelow _ g).
Qed.
End Unchecked.

(** X19. Without [allow_duplicate] the identifier generators of
    generate-test-data.py never read their set: whatever [generated_upids]
    and [generated_skus] hold, the identifier returned is the same, so an
    identifier already handed out is handed out again when the draws
    repeat.  It happens: with --scenario valid --rows 22 --seed 41 rows 14
    and 22 carry the same SKU under different UPIDs, and [generated_skus]
    ends with 21 members for 22 rows. *)
Theorem fresh_identifiers_are_not_checked_against_the_sets :
  (∀ (G : Type) (R : PyRandom G) (w : World G) (known : gset string),
     (GenerateTestData.generate_upid false (set_generated_upids known w)).1
     = (GenerateTestData.generate_upid false w).1
     ∧ (GenerateTestData.generate_sku false (set_generated_skus known w)).1
       = (GenerateTestData.generate_sku false w).1)
  ∧ (let r := run "valid" 22 (Some 41) (cpython 0) in
     length (records r) = 22%nat
     ∧ identifiers "sku" (records r) !! 13%nat = Some "SKU-TSH-80438"
     ∧ identifiers "sku" (records r) !! 21%nat = Some "SKU-TSH-80438"
     ∧ identifiers "upid" (records r) !! 13%nat = Some "UPID-747525"
     ∧ identifiers "upid" (records r) !! 21%nat = Some "UPID-978035"
     ∧ size (generated_skus r.2) = 21%nat
     ∧ MT19937.stuck (random_state r.2) = false).
Proof.
  split.
  - intros G R w known.
    split; [apply generate_upid_ignores_its_set | apply generate_sku_ignores_its_set].
  - vm_compute. repeat split.
Qed.

Section BaseRowImages.
Context {G : Type} `{!PyRandom G}.
Import GenerateTestCsvs.

(** X20. The image URLs of a base row are numbered by the row: the
    primary image is empty or https://domain/products/product-INDEX.jpg,
    the product image is empty or the same form with INDEX + 1000, each on
    one of three domains, and a row has a product image only if it has a
    primary image. *)
Theorem base_row_images_are_numbered_by_index
    (index : Z) (use_valid_values : bool) (w : World G) :
  wp (generate_base_row index use_valid_values)
     (λ row _,
        (field row "primary_image_url" = PStr ""
         ∨ ∃ domain,
             domain ∈ ["cdn.example.com"; "assets.fashion-brand.com";
                       "images.product-store.com"]
             ∧ field row "primary_image_url"
               = PStr ("https://" +:+ domain +:+ "/products/product-"
                       +:+ str index +:+ ".jpg"))
        ∧ (field row "product_image_url" = PStr ""
           ∨ ∃ domain,
               domain ∈ ["cdn.example.com"; "assets.fashion-brand.com";
                         "images.product-store.com"]
               ∧ field row "product_image_url"
                 = PStr ("https://" +:+ domain +:+ "/products/product-"
                         +:+ str (index + 1000) +:+ ".jpg"))
        ∧ (field row "primary_image_url" = PStr "" →
           field row "product_image_url" = PStr "")) w.
Proof.
  eapply wp_draws; [apply draws_generate_base_row_fields |].
  intros row w' Hrow _.
  destruct (BaseRow.primary_image_url _ _ _ Hrow) as (url1 & Hfield1 & Hurl1).
  destruct (BaseRow.product_image_url _ _ _ Hrow) as (url2 & Hfield2 & Hurl2).
  pose proof (BaseRow.second_image_needs_first _ _ _ Hrow) as Hneeds.
  split; [| split; [| done]].
  - rewrite Hfield1.
    destruct Hurl1 as [-> | (domain & Hdomain & ->)]; [by left | right; by exists domain].
  - rewrite Hfield2.
    destruct Hurl2 as [-> | (domain & Hdomain & ->)]; [by left | right; by exists domain].
Qed.

End BaseRowImages.

(* ===================================================================== *)
(** * The terminal *)
(* ===================================================================== *)














(* ===================================================================== *)
(** * Writing the file *)
(* ===================================================================== *)















Section WriteCsvFile.
Import GenerateTestData.





End WriteCsvFile.

(* ===================================================================== *)
(** * generate-test-data.py: what [main] leaves behind *)
(* ===================================================================== *)

Section Stepping.
Context {G : Type}.








End Stepping.

Section MainSpecs.
Context {G : Type} `{!PyRandom G}.
Import GenerateTestData.








End MainSpecs.

Section WriteCsv.
Context {G : Type} `{!PyRandom G}.
Import GenerateTestData.










End WriteCsv.

Section MainOutcome.
Context {G : Type} `{!PyRandom G}.
Import GenerateTestData.


End MainOutcome.



(** The same run with room for the whole file, by evaluation.  On a UTF-8
    terminal it exits with status 0 and leaves the 337 bytes of the file.
    With a path into a directory that does not exist it exits with status
    1 and creates nothing.  On an ASCII terminal, which cannot encode the
    check mark, it exits with status 1 although the file is complete. *)
Lemma output_file_and_exit_status_by_machine :
  let run_on := λ output h, main "valid" 1 output (Some 1) (cpython 0) h in
  let full := csv.text GenerateTestData.fieldnames
                (records (run "valid" 1 (Some 1) (cpython 0))) in
  ((run_on "test-data.csv" (empty_disk 1000)).1.1,
   files (run_on "test-data.csv" (empty_disk 1000)).2 !! "test-data.csv")
  = (0, Some full)
  ∧ ((run_on "no-such-dir/x.csv" (empty_disk 1000)).1.1,
     files (run_on "no-such-dir/x.csv" (empty_disk 1000)).2)
    = (1, ∅)
  ∧ ((run_on "" (empty_disk 1000)).1.1, files (run_on "" (empty_disk 1000)).2) = (1, ∅)
  ∧ ((run_on "test-data.csv" (with_stdout ascii_stdout (empty_disk 1000))).1.1,
     files (run_on "test-data.csv" (with_stdout ascii_stdout (empty_disk 1000))).2
       !! "test-data.csv")
    = (1, Some full)
  ∧ String.length full = 337%nat.
Proof. vm_compute. done. Qed.

(* ===================================================================== *)
(** * Reproducibility *)
(* ===================================================================== *)

Section Reproducibility.
Context {G : Type} `{!PyRandom G}.
Import GenerateTestData.

(** The same state in a process with another iteration order of sets. *)
Definition with_order (order : SetOrder) (w : World G) : World G :=
  {| random_state := random_state w; set_order := order;
     generated_upids := generated_upids w; generated_skus := generated_skus w |}.

(** [oblivious m]: [m] neither reads nor changes the iteration order. *)
Definition oblivious {A} (m : M (World G) A) : Prop :=
  ∀ order w, m (with_order order w) = ((m w).1, with_order order (m w).2).

Lemma oblivious_ret {A} (a : A) : oblivious (ret a).
Proof. done. Qed.

Lemma oblivious_raise {A} (e : exn) : oblivious (raise e : M (World G) A).
Proof. done. Qed.

(** Sequencing, where the continuation need only be oblivious on the
    values the first part can return. *)
Lemma oblivious_bind_post {A B} (φ : A → Prop) (m : M (World G) A) (k : A → M (World G) B) :
  oblivious m → (∀ w, wp m (λ a _, φ a) w) → (∀ a, φ a → oblivious (k a)) →
  oblivious (bind m k).
Proof.
  intros Hm Hφ Hk order w. unfold bind. rewrite Hm.
  destruct (Hφ w) as (a & w' & Hrun & Ha). rewrite Hrun. simpl.
  by rewrite (Hk a Ha).
Qed.

Lemma oblivious_bind {A B} (m : M (World G) A) (k : A → M (World G) B) :
  oblivious m → (∀ a, oblivious (k a)) → oblivious (bind m k).
Proof.
  intros Hm Hk order w. unfold bind. rewrite Hm.
  destruct (m w) as [[a | e] w']; simpl; [by rewrite Hk | done].
Qed.

Lemma oblivious_if {A} (b : bool) (m1 m2 : M (World G) A) :
  oblivious m1 → oblivious m2 → oblivious (if b then m1 else m2).
Proof. by destruct b. Qed.

Lemma oblivious_random : oblivious random.random.
Proof.
  intros order w. unfold random.random. simpl.
  by destruct (rng_random (random_state w)).
Qed.

Lemma oblivious_randbelow n : oblivious (random.randbelow n).
Proof.
  intros order w. unfold random.randbelow. simpl.
  by destruct (rng_randbelow n (random_state w)).
Qed.

Lemma oblivious_index {A} (l : list A) i : oblivious (index l i).
Proof.
  unfold index. destruct (i <? 0); [apply oblivious_raise |].
  destruct (l !! Z.to_nat i); [apply oblivious_ret | apply oblivious_raise].
Qed.

Lemma oblivious_choice {A} (seq : list A) : oblivious (random.choice seq).
Proof.
  unfold random.choice. destruct seq; [apply oblivious_raise |].
  apply oblivious_bind; [apply oblivious_randbelow |]. intros i. apply oblivious_index.
Qed.

Lemma oblivious_randint a b : oblivious (random.randint a b).
Proof.
  unfold random.randint. apply oblivious_if; [| apply oblivious_raise].
  apply oblivious_bind; [apply oblivious_randbelow |]. intros i. apply oblivious_ret.
Qed.

Lemma oblivious_sample_loop {A} k (pool : list A) n : oblivious (random.sample_loop k pool n).
Proof.
  revert pool n. induction k as [|k IH]; intros pool n; simpl; [apply oblivious_ret |].
  apply oblivious_bind; [apply oblivious_randbelow |]. intros j.
  apply oblivious_bind; [apply oblivious_index |]. intros x.
  apply oblivious_bind; [apply oblivious_index |]. intros y.
  apply oblivious_bind; [apply IH |]. intros rest. apply oblivious_ret.
Qed.

Lemma oblivious_sample {A} (population : list A) k : oblivious (random.sample population k).
Proof.
  unfold random.sample. apply oblivious_if; [apply oblivious_sample_loop | apply oblivious_raise].
Qed.

Lemma oblivious_for_each {A B} (xs : list A) (body : A → M (World G) B) :
  (∀ x, oblivious (body x)) → oblivious (for_each xs body).
Proof.
  intros Hbody. induction xs as [|x xs IH]; simpl; [apply oblivious_ret |].
  apply oblivious_bind; [apply Hbody |]. intros b.
  apply oblivious_bind; [apply IH |]. intros bs. apply oblivious_ret.
Qed.

Lemma oblivious_chance p : oblivious (chance p).
Proof.
  unfold chance. apply oblivious_bind; [apply oblivious_random |].
  intros r. apply oblivious_ret.
Qed.

Lemma oblivious_and_then a (m : M (World G) bool) : oblivious m → oblivious (and_then a m).
Proof. intros Hm. unfold and_then. by apply oblivious_if; [| apply oblivious_ret]. Qed.

(** One step of a proof that a block of statements is oblivious. *)
Ltac oblivious_step :=
  lazymatch goal with
  | |- oblivious (ret _) => apply oblivious_ret
  | |- oblivious (raise _) => apply oblivious_raise
  | |- oblivious (bind _ _) => apply oblivious_bind; [| intros ?]
  | |- oblivious (if _ then _ else _) => apply oblivious_if
  | |- oblivious random.random => apply oblivious_random
  | |- oblivious (random.choice _) => apply oblivious_choice
  | |- oblivious (random.randint _ _) => apply oblivious_randint
  | |- oblivious (random.sample _ _) => apply oblivious_sample
  | |- oblivious (index _ _) => apply oblivious_index
  | |- oblivious (chance _) => apply oblivious_chance
  | |- oblivious (and_then _ _) => apply oblivious_and_then
  end.

Lemma oblivious_generate_product_name invalid : oblivious (generate_product_name invalid).
Proof. unfold generate_product_name. repeat oblivious_step. Qed.

Lemma oblivious_generate_description invalid : oblivious (generate_description invalid).
Proof. unfold generate_description. repeat oblivious_step. Qed.

Lemma oblivious_generate_url invalid : oblivious (generate_url invalid).
Proof. unfold generate_url. repeat oblivious_step. Qed.

Lemma oblivious_generate_materials invalid : oblivious (generate_materials invalid).
Proof.
  unfold generate_materials, generate_materials_with.
  apply oblivious_if; [apply oblivious_ret |].
  apply (oblivious_bind_post (λ m, is_pair m = true)); [apply oblivious_choice | |].
  - intros w. eapply wp_draws; [by apply draws_choice |].
    intros combo w' Hcombo _. by apply (proj1 (Forall_forall _ _) MATERIALS_pairs).
  - intros combo ->. repeat oblivious_step.
Qed.

(** Without [allow_duplicate] neither identifier method lists a set. *)
Lemma oblivious_generate_upid : oblivious (generate_upid false).
Proof.
  unfold generate_upid. apply oblivious_bind; [done |]. intros known. simpl.
  apply oblivious_bind; [apply oblivious_ret |]. intros reused.
  destruct reused; [apply oblivious_ret |].
  apply oblivious_bind; [apply oblivious_randint |]. intros n.
  apply oblivious_bind; [done |]. intros _. apply oblivious_ret.
Qed.

Lemma oblivious_generate_sku : oblivious (generate_sku false).
Proof.
  unfold generate_sku. apply oblivious_bind; [done |]. intros known. simpl.
  apply oblivious_bind; [apply oblivious_ret |]. intros reused.
  destruct reused; [apply oblivious_ret |].
  apply oblivious_bind; [apply oblivious_choice |]. intros prefix.
  apply oblivious_bind; [apply oblivious_randint |]. intros n.
  apply oblivious_bind; [done |]. intros _. apply oblivious_ret.
Qed.

Lemma oblivious_error_disposition self row_number :
  oblivious (error_disposition self row_number).
Proof. unfold error_disposition. repeat oblivious_step. Qed.

(** A row of a scenario other than "duplicates" and "mixed" is generated
    without listing a set. *)
Lemma oblivious_generate_row self row_number :
  scenario self ≠ "duplicates" → scenario self ≠ "mixed" →
  oblivious (generate_row self row_number).
Proof.
  intros Hd Hm. unfold generate_row.
  apply (oblivious_bind_post (λ d, is_kind d.2 "duplicate" = false));
    [apply oblivious_error_disposition | |].
  { intros w. eapply wp_draws; [apply draws_error_disposition |].
    intros d w' (_ & _ & _ & _ & Hdup) _.
    destruct (is_kind d.2 "duplicate"); [| done]. by destruct (Hdup eq_refl). }
  intros [should_have_error error_type] Hkind. simpl in Hkind. rewrite Hkind.
  repeat first
    [ oblivious_step
    | apply oblivious_generate_upid
    | apply oblivious_generate_sku
    | apply oblivious_generate_product_name
    | apply oblivious_generate_description
    | apply oblivious_generate_url
    | apply oblivious_generate_materials
    | match goal with |- oblivious (match ?x with _ => _ end) => destruct x end ].
Qed.

(** With a truthy seed [__init__] leaves nothing of the earlier state but
    the iteration order. *)
Lemma init_with_seed scenario rows s (w : World G) :
  s ≠ 0 →
  init scenario rows (Some s) w
  = (Ok {| scenario := scenario; rows := rows; seed := s |},
     {| random_state := rng_seed s; set_order := set_order w;
        generated_upids := ∅; generated_skus := ∅ |}).
Proof.
  intros Hs. unfold init, seed_truthy.
  destruct (Z.eqb_spec s 0) as [? | _]; [done |]. reflexivity.
Qed.

(** The same for a statement that also acts on the machine: the
    iteration order is neither read nor changed, and what happens to the
    machine does not depend on it. *)
Definition oblivious_on_machine {A} (m : M (World G * Host) A) : Prop :=
  ∀ order w h,
    m (with_order order w, h)
    = ((m (w, h)).1, (with_order order (m (w, h)).2.1, (m (w, h)).2.2)).

Lemma oblivious_on_machine_ret {A} (a : A) : oblivious_on_machine (ret a).
Proof. done. Qed.

Lemma oblivious_on_machine_bind {A B} (m : M (World G * Host) A) (k : A → M (World G * Host) B) :
  oblivious_on_machine m → (∀ a, oblivious_on_machine (k a)) →
  oblivious_on_machine (bind m k).
Proof.
  intros Hm Hk order w h. unfold bind. rewrite Hm.
  destruct (m (w, h)) as [[a | e] [w' h']]; simpl; [by rewrite Hk | done].
Qed.

Lemma oblivious_on_host {A} (m : M Host A) : oblivious_on_machine (on_host m).
Proof. intros order w h. unfold on_host. simpl. by destruct (m h). Qed.

Lemma oblivious_in_world {A} (m : M (World G) A) :
  oblivious m → oblivious_on_machine (in_world m).
Proof.
  intros Hm order w h. unfold in_world. simpl. rewrite Hm. by destruct (m w).
Qed.

Lemma oblivious_on_machine_for_each {A B} (xs : list A) (body : A → M (World G * Host) B) :
  (∀ x, oblivious_on_machine (body x)) → oblivious_on_machine (for_each xs body).
Proof.
  intros Hbody. induction xs as [|x xs IH]; simpl; [apply oblivious_on_machine_ret |].
  apply oblivious_on_machine_bind; [apply Hbody |]. intros b.
  apply oblivious_on_machine_bind; [apply IH |]. intros bs. apply oblivious_on_machine_ret.
Qed.

(** [generate], with its prints, in a scenario that lists no set. *)
Lemma oblivious_generate_printing self :
  scenario self ≠ "duplicates" → scenario self ≠ "mixed" →
  oblivious_on_machine (generate_printing self).
Proof.
  intros Hd Hm. unfold generate_printing.
  apply oblivious_on_machine_bind; [apply oblivious_on_host |]. intros _.
  apply oblivious_on_machine_bind; [apply oblivious_on_host |]. intros _.
  apply oblivious_on_machine_for_each. intros i.
  apply oblivious_on_machine_bind;
    [by apply oblivious_in_world, oblivious_generate_row |]. intros row.
  apply oblivious_on_machine_bind; [| intros _; apply oblivious_on_machine_ret].
  destruct (_ =? _); [apply oblivious_on_host | apply oblivious_on_machine_ret].
Qed.

(** The statistics read the two sets for their sizes only. *)
Lemma oblivious_print_statistics (data : list Row) :
  oblivious_on_machine (print_statistics data).
Proof.
  intros order w h. unfold print_statistics. cbn [fst snd].
  change (Statistics.print_statistics data (with_order order w))
    with (Statistics.print_statistics data w).
  destruct (Statistics.print_statistics data w) as [lines outcome].
  by destruct (for_each lines print h) as [[us | e] h'].
Qed.

Lemma oblivious_write_csv (data : list Row) output :
  oblivious_on_machine (write_csv data output).
Proof.
  unfold write_csv.
  repeat (apply oblivious_on_machine_bind; [apply oblivious_on_host |]; intros _).
  apply oblivious_print_statistics.
Qed.

Lemma oblivious_main_try self name output :
  scenario self ≠ "duplicates" → scenario self ≠ "mixed" →
  oblivious_on_machine (main_try self name output).
Proof.
  intros Hd Hm. unfold main_try.
  apply oblivious_on_machine_bind; [by apply oblivious_generate_printing |]. intros data.
  apply oblivious_on_machine_bind; [apply oblivious_write_csv |]. intros _.
  repeat (apply oblivious_on_machine_bind; [apply oblivious_on_host |]; intros _).
  apply oblivious_on_host.
Qed.

(** For a seed other than 0, the records of a run of generate-test-data.py,
    its exit status and the machine it leaves (files, free room and the
    lines on the terminal) are the same in any two processes that list
    sets in the same order; in scenarios other than "duplicates" and
    "mixed", where no set is ever listed, they are the same in any two
    processes at all. *)
Theorem reproducible_for_a_nonzero_seed
    (scenario : string) (rows s : Z) (w1 w2 : World G) :
  s ≠ 0 →
  set_order w1 = set_order w2 ∨ (scenario ≠ "duplicates" ∧ scenario ≠ "mixed") →
  (run scenario rows (Some s) w1).1 = (run scenario rows (Some s) w2).1
  ∧ ∀ output h,
      (main scenario rows output (Some s) w1 h).1.1
      = (main scenario rows output (Some s) w2 h).1.1
      ∧ (main scenario rows output (Some s) w1 h).2
        = (main scenario rows output (Some s) w2 h).2.
Proof.
  intros Hs Hsame.
  set (fresh := λ order, {| random_state := rng_seed s; set_order := order;
                            generated_upids := ∅; generated_skus := ∅ |} : World G).
  assert (∀ w, init scenario rows (Some s) w
               = (Ok {| GenerateTestData.scenario := scenario; GenerateTestData.rows := rows;
                        seed := s |}, fresh (set_order w))) as Hinit.
  { intros w. by apply init_with_seed. }
  split.
  - unfold run, bind. rewrite !Hinit.
    destruct Hsame as [-> | [Hd Hm]]; [done |].
    change (fresh (set_order w2)) with (with_order (set_order w2) (fresh (set_order w1))).
    unfold generate. rewrite oblivious_for_each.
    + by destruct (for_each _ _ _) as [[data | e] w'].
    + intros i. by apply oblivious_generate_row.
  - intros output h. unfold main.
    destruct (negb (bool_decide (scenario ∈ scenario_choices))); [done |].
    destruct (rows <? 1); [done |].
    destruct (_ h) as [[u | e] h0]; [| done].
    rewrite !Hinit.
    destruct Hsame as [-> | [Hd Hm]]; [done |].
    change (fresh (set_order w2)) with (with_order (set_order w2) (fresh (set_order w1))).
    rewrite oblivious_main_try by done.
    by destruct (main_try _ scenario output (fresh (set_order w1), h0)) as [[u' | e] [w' h']].
Qed.

End Reproducibility.

(** Three rows of scenario "missing_fields" with seed 12345, in two
    processes that differ in the state of the generator at start and in
    the order in which they list sets. *)
Lemma reproducible_run_of_missing_fields :
  12345 ≠ 0
  ∧ (set_order (process (MT19937.seed 1) elements_order)
     = set_order (process (MT19937.seed 2) reverse_order)
     ∨ ("missing_fields" ≠ "duplicates" ∧ "missing_fields" ≠ "mixed"))
  ∧ (run "missing_fields" 3 (Some 12345) (process (MT19937.seed 1) elements_order)).1
    = (run "missing_fields" 3 (Some 12345) (process (MT19937.seed 2) reverse_order)).1
  ∧ ∀ output h,
      (main "missing_fields" 3 output (Some 12345) (process (MT19937.seed 1) elements_order) h).1.1
      = (main "missing_fields" 3 output (Some 12345) (process (MT19937.seed 2) reverse_order) h).1.1
      ∧ (main "missing_fields" 3 output (Some 12345) (process (MT19937.seed 1) elements_order) h).2
        = (main "missing_fields" 3 output (Some 12345) (process (MT19937.seed 2) reverse_order) h).2.
Proof.
  assert (12345 ≠ 0) as Hs by lia.
  assert (set_order (process (MT19937.seed 1) elements_order)
          = set_order (process (MT19937.seed 2) reverse_order)
          ∨ ("missing_fields" ≠ "duplicates" ∧ "missing_fields" ≠ "mixed")) as Hsame
    by (right; split; discriminate).
  split; [exact Hs |]. split; [exact Hsame |].
  exact (reproducible_for_a_nonzero_seed "missing_fields" 3 12345 _ _ Hs Hsame).
Defined.

(** C1.  The run [--scenario valid --rows 1 --seed 0], made twice: in two
    processes whose generators start in different states the same
    arguments give different records, and different bytes in the output
    file.  [__init__] takes its seed as [seed or random.randint(1,
    1000000)], and 0 is falsy: the seed the user gave is dropped and
    another is drawn (and printed as the one to pass to reproduce the
    run). *)
Theorem seed_zero_is_not_reproducible :
  let output := λ ambient,
    files (main "valid" 1 "test-data.csv" (Some 0) (cpython ambient) (empty_disk 1000000)).2
      !! "test-data.csv" in
  let report := λ ambient,
    last (printed (main "valid" 1 "test-data.csv" (Some 0) (cpython ambient)
                     (empty_disk 1000000)).2) in
  column "upid" (records (run "valid" 1 (Some 0) (cpython 1))) = [PStr "UPID-931406"]
  ∧ column "upid" (records (run "valid" 1 (Some 0) (cpython 2))) = [PStr "UPID-641017"]
  ∧ output 1 ≠ output 2
  ∧ (main "valid" 1 "test-data.csv" (Some 0) (cpython 1) (empty_disk 1000000)).1.1 = 0
  ∧ (main "valid" 1 "test-data.csv" (Some 0) (cpython 2) (empty_disk 1000000)).1.1 = 0
  ∧ report 1 ≠ Some "  Seed: 0 (use --seed=0 to reproduce)"
  ∧ report 1 ≠ report 2.
Proof.
  cbv zeta.
  split; [vm_compute; reflexivity |]. split; [vm_compute; reflexivity |].
  split; [intros H; vm_compute in H; discriminate H |].
  split; [vm_compute; reflexivity |]. split; [vm_compute; reflexivity |].
  split; intros H; vm_compute in H; discriminate H.
Qed.

(** The iteration order of sets reaches the output of scenario
    "duplicates": with seed 6 the fourth row re-emits an earlier UPID, and
    which one depends on the order in which the set is listed. *)
Lemma set_order_reaches_duplicates :
  let upids := λ order,
    column "upid" (records (run "duplicates" 4 (Some 6) (process (MT19937.seed 0) order))) in
  upids elements_order
  = [PStr "UPID-931877"; PStr "UPID-529858"; PStr "UPID-831812"; PStr "UPID-831812"]
  ∧ upids reverse_order
    = [PStr "UPID-931877"; PStr "UPID-529858"; PStr "UPID-831812"; PStr "UPID-529858"].
Proof. vm_compute. done. Qed.

(** The bound on the rejection loop of [MT19937.randbelow] is never reached
    in the runs evaluated above: the flag is clear after the draw of the
    seed that [__init__] makes before it reseeds, and in the final state of
    each run. *)
Lemma evaluated_runs_never_exhaust_the_rejection_loop :
  let final := λ scenario rows seed (w : World MT19937.state),
    MT19937.stuck (random_state (run scenario rows seed w).2) in
  Forall (λ ambient,
            MT19937.stuck (MT19937.randbelow 1000000 (MT19937.seed ambient)).2 = false
            ∧ final "valid" 1 (Some 0) (cpython ambient) = false)
         [1; 2; 7; 8]
  ∧ final "valid" 1 (Some 1) (cpython 0) = false
  ∧ final "invalid_formats" 10 (Some 6) (cpython 0) = false
  ∧ final "invalid_formats" 5 (Some 5) (cpython 0) = false
  ∧ final "duplicates" 11 (Some 867) (cpython 0) = false
  ∧ final "duplicates" 4 (Some 6) (process (MT19937.seed 0) elements_order) = false
  ∧ final "duplicates" 4 (Some 6) (process (MT19937.seed 0) reverse_order) = false.
Proof.
  cbv zeta. split.
  - repeat (apply Forall_cons; split; [split; vm_compute; reflexivity |]).
    apply Forall_nil_2.
  - repeat (split; [vm_compute; reflexivity |]). vm_compute; reflexivity.
Qed.


(* ===================================================================== *)
(** * generate_test_csvs.py: the ten files *)
(* ===================================================================== *)



Section CsvFile.
Context {G : Type} `{!PyRandom G}.





End CsvFile.


Section EmptyFile.
Context {G : Type} `{!PyRandom G}.
Import GenerateTestCsvs.


End EmptyFile.

(** X10, by evaluation on a machine with an empty directory and room for
    1000 bytes: behind a UTF-8 terminal the function returns and has
    printed its line; behind an ASCII terminal it raises after the file
    has been written. *)
Lemma empty_file_on_two_terminals :
  let outcome := λ h,
    let '(r, (_, h')) := generate_empty_csv (cpython 0, h) in
    (r, files h' !! "test-09-empty.csv", printed h') in
  outcome (empty_disk 1000)
  = (Ok tt, Some (csv.line GenerateTestCsvs.get_base_headers),
     ["✓ Generated test-09-empty.csv: Headers only, no data rows"])
  ∧ outcome (with_stdout ascii_stdout (empty_disk 1000))
    = (Error UnicodeEncodeError, Some (csv.line GenerateTestCsvs.get_base_headers), []).
Proof. vm_compute. done. Qed.


Section TenFiles.
Context {G : Type} `{!PyRandom G}.
Import GenerateTestCsvs.






















End TenFiles.

